(** * ZUGFeRD XML extractor: a shallow embedding of the Go sources

    The development follows the packages of the repository:

    - [GoStrings] and [Filepath] model the parts of Go's [strings] and
      [path/filepath] (Unix flavour) that the program calls;
    - [validation] embeds [internal/validation/validator.go];
    - [extractor] embeds the extractor package: classifier, the three
      attachment extraction strategies, discovery, output path derivation
      and [ExtractXML];
    - [batch] embeds the batch processor and [main] what the command line
      hands to either of them.

    Conventions.  A Go [string] and a Go [[]byte] are both sequences of
    bytes; both are represented by [string] (a list of 8-bit [ascii]), so the
    conversions [string(data)] and [[]byte(s)] are the identity.  Go [int]
    values are in [Z]; lengths are far below the 64-bit limit, so no wrap-around
    occurs.  A Go [map[string][]byte] is a [gmap string string]; the order in
    which [range] visits a map is not specified by the language, so every
    [range] over a map takes the visiting order as an explicit argument. *)

From Stdlib Require Import ZArith List String Ascii Bool Lia Permutation.
From stdpp Require Import base gmap strings.

Local Open Scope string_scope.
Local Open Scope list_scope.
Local Open Scope Z_scope.

(** ** Go's [strings] package *)

(** The Unicode case tables of Go's standard library are outside the
    repository.  [strings.ToLower] consults them only when its argument has a
    byte [>= 0x80]; that branch is kept abstract. *)
Class UnicodeTables := { mapToLower : string -> string }.

Module GoStrings.

(** [len(s)] *)
Definition len (s : string) : Z := Z.of_nat (String.length s).

(** [s[n:]] *)
Fixpoint sliceFrom (s : string) (n : nat) {struct n} : string :=
  match n, s with
  | O, _ => s
  | S _, EmptyString => EmptyString
  | S n', String _ s' => sliceFrom s' n'
  end.

(** [s[:n]] *)
Fixpoint sliceTo (s : string) (n : nat) {struct n} : string :=
  match n, s with
  | O, _ => EmptyString
  | S _, EmptyString => EmptyString
  | S n', String c s' => String c (sliceTo s' n')
  end.

(** [strings.HasPrefix(s, prefix)] *)
Fixpoint HasPrefix (s prefix : string) {struct prefix} : bool :=
  match prefix, s with
  | EmptyString, _ => true
  | String _ _, EmptyString => false
  | String a p', String b s' => Ascii.eqb a b && HasPrefix s' p'
  end.

(** The offset of the first occurrence of [substr] in [s]. *)
Fixpoint firstIndex (s substr : string) : option nat :=
  if HasPrefix s substr then Some O
  else match s with
       | EmptyString => None
       | String _ s' => option_map S (firstIndex s' substr)
       end.

(** [strings.Index(s, substr)]: [-1] when [substr] does not occur. *)
Definition Index (s substr : string) : Z :=
  match firstIndex s substr with
  | Some i => Z.of_nat i
  | None => -1
  end.

(** [strings.Contains(s, substr)] is [Index(s, substr) >= 0]. *)
Definition Contains (s substr : string) : bool := 0 <=? Index s substr.

(** [strings.HasSuffix(s, suffix)] *)
Definition HasSuffix (s suffix : string) : bool :=
  (len suffix <=? len s)
  && String.eqb (sliceFrom s (String.length s - String.length suffix)) suffix.

(** [strings.TrimSuffix(s, suffix)] *)
Definition TrimSuffix (s suffix : string) : string :=
  if HasSuffix s suffix
  then sliceTo s (String.length s - String.length suffix)
  else s.

(** [strings.Join(elems, sep)] *)
Fixpoint Join (elems : list string) (sep : string) : string :=
  match elems with
  | [] => EmptyString
  | [e] => e
  | e :: rest => e +:+ sep +:+ Join rest sep
  end.

Definition isASCII (c : ascii) : bool := (nat_of_ascii c <? 128)%nat.

Definition isUpper (c : ascii) : bool :=
  (65 <=? nat_of_ascii c)%nat && (nat_of_ascii c <=? 90)%nat.

(** [c += 'a' - 'A'] on an upper-case ASCII letter. *)
Definition lowerByte (c : ascii) : ascii :=
  if isUpper c then ascii_of_nat (nat_of_ascii c + 32) else c.

Fixpoint allASCII (s : string) : bool :=
  match s with
  | EmptyString => true
  | String c s' => isASCII c && allASCII s'
  end.

Fixpoint mapBytes (f : ascii -> ascii) (s : string) : string :=
  match s with
  | EmptyString => EmptyString
  | String c s' => String (f c) (mapBytes f s')
  end.

(** [strings.ToLower(s)]: byte-wise on an ASCII-only string, through the
    Unicode tables otherwise. *)
Definition ToLower `{UnicodeTables} (s : string) : string :=
  if allASCII s then mapBytes lowerByte s else mapToLower s.

End GoStrings.

(** ** Package [validation] *)

Module validation.
Import GoStrings.

Definition indicators : list string :=
  [ "crossindustrydocument";
    "crossindustryinvoice";
    "urn:ferd:";
    "urn:cen.eu:en16931";
    "zugferd";
    "factur-x";
    "xrechnung";
    "rsm:crossindustrydocument";
    "crossindustryinvoice" ].

(** The [for _, indicator := range indicators] loop of [IsZUGFeRDXML],
    which returns on the first indicator found. *)
Fixpoint IsZUGFeRDXML_loop `{UnicodeTables}
    (contentLower : string) (inds : list string) : bool :=
  match inds with
  | [] => false
  | indicator :: rest =>
      if Contains contentLower (ToLower indicator) then true
      else IsZUGFeRDXML_loop contentLower rest
  end.

Definition IsZUGFeRDXML `{UnicodeTables} (data : string) : bool :=
  if len data =? 0 then false
  else
    let content := data in
    let contentLower := ToLower content in
    IsZUGFeRDXML_loop contentLower indicators.

Definition ValidateZUGFeRDXML (data : string) : bool :=
  let content := data in
  let hasXMLDecl := Contains content "<?xml" in
  let hasRootElement :=
    Contains content "CrossIndustryDocument"
    || Contains content "CrossIndustryInvoice" in
  let hasNamespace :=
    Contains content "xmlns:"
    && (Contains content "urn:ferd:"
        || Contains content "urn:cen.eu:en16931") in
  hasXMLDecl && hasRootElement && hasNamespace.

End validation.

(** ** Go's [path/filepath] package, Unix flavour

    Modelled from the documented behaviour of the standard library: the
    separator is [/], there are no volume names, and [Clean] applies its four
    lexical rules (collapse separators, drop [.] elements, resolve inner [..]
    elements, drop [..] at the root) element by element. *)

Module Filepath.
Import GoStrings.

Definition IsPathSeparator (c : ascii) : bool := Ascii.eqb c "/".

(** The elements of a path, split at every separator. *)
Fixpoint elements (path : string) : list string :=
  match path with
  | EmptyString => [EmptyString]
  | String c rest =>
      if IsPathSeparator c then EmptyString :: elements rest
      else match elements rest with
           | [] => [String c EmptyString]
           | e :: es => String c e :: es
           end
  end.

(** One element processed by [Clean]; [out] holds the elements kept so
    far, the most recent first. *)
Definition cleanStep (rooted : bool) (out : list string) (e : string)
  : list string :=
  if String.eqb e EmptyString || String.eqb e "." then out
  else if String.eqb e ".." then
    match out with
    | top :: below =>
        if String.eqb top ".." then e :: out else below
    | [] => if rooted then [] else [e]
    end
  else e :: out.

Definition Clean (path : string) : string :=
  let rooted := match path with
                | String c _ => IsPathSeparator c
                | EmptyString => false
                end in
  let out := List.rev (fold_left (cleanStep rooted) (elements path) []) in
  if rooted then "/" +:+ Join out "/"
  else match out with
       | [] => "."
       | _ => Join out "/"
       end.

(** Offset of the last separator of [s], scanning from offset [i]. *)
Fixpoint lastSeparator (s : string) (i : nat) (found : option nat)
  : option nat :=
  match s with
  | EmptyString => found
  | String c rest =>
      lastSeparator rest (S i) (if IsPathSeparator c then Some i else found)
  end.

(** [filepath.Dir(path)] *)
Definition Dir (path : string) : string :=
  match lastSeparator path 0 None with
  | Some i => Clean (sliceTo path (S i))
  | None => Clean EmptyString
  end.

Fixpoint stripTrailingSeparators (s : string) : string :=
  match s with
  | EmptyString => EmptyString
  | String c rest =>
      match stripTrailingSeparators rest with
      | EmptyString =>
          if IsPathSeparator c then EmptyString else String c EmptyString
      | r => String c r
      end
  end.

(** [filepath.Base(path)] *)
Definition Base (path : string) : string :=
  if String.eqb path EmptyString then "."
  else
    let path := stripTrailingSeparators path in
    let path := match lastSeparator path 0 None with
                | Some i => sliceFrom path (S i)
                | None => path
                end in
    if String.eqb path EmptyString then "/" else path.

(** Offset of the last dot of the final element of [s]. *)
Fixpoint lastDot (s : string) (i : nat) (found : option nat) : option nat :=
  match s with
  | EmptyString => found
  | String c rest =>
      lastDot rest (S i)
        (if IsPathSeparator c then None
         else if Ascii.eqb c "." then Some i else found)
  end.

(** [filepath.Ext(path)] *)
Definition Ext (path : string) : string :=
  match lastDot path 0 None with
  | Some i => sliceFrom path i
  | None => EmptyString
  end.

(** [filepath.Join(elem...)] *)
Fixpoint Join (elem : list string) : string :=
  match elem with
  | [] => EmptyString
  | e :: rest =>
      if String.eqb e EmptyString then Join rest
      else Clean (GoStrings.Join elem "/")
  end.

End Filepath.

(** ** Package [extractor] *)

Module extractor.
Import GoStrings.

Record ZUGFeRDExtractor := {
  InputPath : string;
  OutputPath : string;
  Verbose : bool
}.

Definition KnownXMLFilenames : list string :=
  [ "ZUGFeRD-invoice.xml";
    "zugferd-invoice.xml";
    "factur-x.xml";
    "xrechnung.xml";
    "cii.xml" ].

(** Go [error] values, one constructor per [fmt.Errorf] site; a wrapped
    cause ([%v] of an inner error) is an argument. *)
Inductive error :=
| ErrMkdirTemp
| ErrPdfcpu
| ErrPdfcpuRelaxed
| ErrReadDir
| ErrOpenPDF
| ErrReadPDF
| ErrManualNoXML
| ErrAllMethodsFailed (cause : error)
| ErrNoEmbeddedFiles
| ErrNoZUGFeRDAttachment (attachmentNames : list string)
| ErrXMLNotFound (cause : error)
| ErrMkdirOutput
| ErrWriteFile
| ErrSave (cause : error).

(** *** The world outside the program *)

(** An entry of the scratch directory after pdfcpu ran: its name, whether
    it is a directory, and what [os.ReadFile] gives ([None]: read error). *)
Record DirEntry := {
  Name : string;
  IsDir : bool;
  ReadFile : option string
}.

(** What [os.ReadDir] on the scratch directory gives. *)
Inductive TempDir :=
| ReadDirError
| Entries (files : list DirEntry).

(** One run of [os.MkdirTemp] followed by [api.ExtractAttachmentsFile]. *)
Inductive PdfcpuRun :=
| MkdirTempError
| ExtractError
| Wrote (dir : TempDir).

(** [os.Open] followed by [io.ReadAll] on the container. *)
Inductive FileRead :=
| OpenError
| ReadError
| Bytes (data : string).

(** Everything the extraction of one container observes: pdfcpu with the
    default and with the relaxed configuration, the raw file, the visiting
    orders of the two [range] loops over the attachment map in
    [findZUGFeRDXML], and the file system at the output path. *)
Record World := {
  pdfcpuDefault : PdfcpuRun;
  pdfcpuRelaxed : PdfcpuRun;
  rawFile : FileRead;
  rangeCandidates : gmap string string -> list (string * string);
  rangeNames : gmap string string -> list (string * string);
  mkdirAllOk : string -> bool;
  writeFileOk : string -> bool
}.

(** [len(attachments)] *)
Definition lenMap (attachments : gmap string string) : Z :=
  Z.of_nat (size attachments).

(** *** Classifier *)

Definition indicators : list string :=
  [ "crossindustrydocument";
    "crossindustryinvoice";
    "urn:ferd:";
    "urn:cen.eu:en16931";
    "zugferd";
    "factur-x";
    "xrechnung";
    "rsm:crossindustrydocument";
    "crossindustryinvoice" ].

(** The body of the indicator loop of [isZUGFeRDXML]: the state is the
    counter [foundIndicators] and the lines printed so far. *)
Definition countIndicator `{UnicodeTables} (verbose : bool)
    (contentLower : string) (st : Z * list string) (indicator : string)
  : Z * list string :=
  let '(foundIndicators, printed) := st in
  if Contains contentLower (ToLower indicator)
  then (foundIndicators + 1,
        if verbose then (printed ++ [indicator])%list else printed)
  else (foundIndicators, printed).

(** [isZUGFeRDXML] with what it prints in verbose mode (the indicators it
    reports, in order). *)
Definition isZUGFeRDXML_run `{UnicodeTables}
    (z : ZUGFeRDExtractor) (data : string) : bool * list string :=
  if len data =? 0 then (false, [])
  else
    let content := data in
    let contentLower := ToLower content in
    let '(foundIndicators, printed) :=
      fold_left (countIndicator (Verbose z) contentLower) indicators (0, [])
    in (0 <? foundIndicators, printed).

Definition isZUGFeRDXML `{UnicodeTables}
    (z : ZUGFeRDExtractor) (data : string) : bool :=
  fst (isZUGFeRDXML_run z data).

Definition validateZUGFeRDXML (z : ZUGFeRDExtractor) (data : string) : bool :=
  let content := data in
  let hasXMLDecl := Contains content "<?xml" in
  let hasRootElement :=
    Contains content "CrossIndustryDocument"
    || Contains content "CrossIndustryInvoice" in
  let hasNamespace :=
    Contains content "xmlns:"
    && (Contains content "urn:ferd:"
        || Contains content "urn:cen.eu:en16931") in
  hasXMLDecl && hasRootElement && hasNamespace.

(** *** Attachment extraction strategies *)

(** [readExtractedFiles]: directories and unreadable files are skipped. *)
Definition readExtractedFiles (dir : TempDir)
  : error + gmap string string :=
  match dir with
  | ReadDirError => inl ErrReadDir
  | Entries files =>
      inr (fold_left
             (fun (attachments : gmap string string) (file : DirEntry) =>
                if IsDir file then attachments
                else match ReadFile file with
                     | None => attachments
                     | Some data => <[Name file := data]> attachments
                     end)
             files ∅)
  end.

Definition extractAttachmentsStandard (w : World)
  : error + gmap string string :=
  match pdfcpuDefault w with
  | MkdirTempError => inl ErrMkdirTemp
  | ExtractError => inl ErrPdfcpu
  | Wrote tempDir => readExtractedFiles tempDir
  end.

Definition extractAttachmentsRelaxed (w : World)
  : error + gmap string string :=
  match pdfcpuRelaxed w with
  | MkdirTempError => inl ErrMkdirTemp
  | ExtractError => inl ErrPdfcpuRelaxed
  | Wrote tempDir => readExtractedFiles tempDir
  end.

Definition endPatterns : list string :=
  [ "</rsm:CrossIndustryDocument>";
    "</rsm:CrossIndustryInvoice>";
    "</CrossIndustryDocument>";
    "</CrossIndustryInvoice>" ].

(** The body of the end-pattern loop of [extractXMLFromPosition]. *)
Definition nearerEnd (content : string) (endPos : Z) (pattern : string) : Z :=
  let idx := Index content pattern in
  if negb (idx =? -1) then
    let candidateEnd := idx + len pattern in
    if candidateEnd <? endPos then candidateEnd else endPos
  else endPos.

(** [extractXMLFromPosition]; [None] is the [nil] slice. *)
Definition extractXMLFromPosition (data : string) (startPos : Z)
  : option string :=
  if (startPos <? 0) || (len data <=? startPos) then None
  else
    let content := sliceFrom data (Z.to_nat startPos) in
    let maxLength := len content in
    let endPos := fold_left (nearerEnd content) endPatterns maxLength in
    if endPos <? maxLength
    then Some (sliceTo content (Z.to_nat endPos))
    else None.

Definition guessXMLFilename `{UnicodeTables} (data : string) : string :=
  let content := ToLower data in
  if Contains content "xrechnung" then "xrechnung.xml"
  else if Contains content "factur-x" then "factur-x.xml"
  else if Contains content "zugferd" then
    if Contains content "urn:ferd:pdfa:crossindustrydocument:invoice:1p0"
    then "ZUGFeRD-invoice.xml"
    else "zugferd-invoice.xml"
  else "invoice.xml".

(** The one-byte string holding a double quote. *)
Definition dquote : string := String (ascii_of_nat 34) EmptyString.

Definition xmlStartPatterns : list string :=
  [ "<?xml version=" +:+ dquote +:+ "1.0" +:+ dquote;
    "<rsm:CrossIndustryDocument";
    "<rsm:CrossIndustryInvoice" ].

(** The slice kept for one start pattern, if any: the pattern occurs, the
    slice from its first occurrence is not empty and passes the sniff. *)
Definition manualSlice `{UnicodeTables} (z : ZUGFeRDExtractor)
    (data : string) (pattern : string) : option string :=
  let content := data in
  let idx := Index content pattern in
  if negb (idx =? -1) then
    match extractXMLFromPosition data idx with
    | Some xmlData =>
        if (0 <? len xmlData) && isZUGFeRDXML z xmlData
        then Some xmlData else None
    | None => None
    end
  else None.

(** The body of the start-pattern loop of [extractAttachmentsManual]. *)
Definition manualStep `{UnicodeTables} (z : ZUGFeRDExtractor)
    (data : string) (attachments : gmap string string) (pattern : string)
  : gmap string string :=
  match manualSlice z data pattern with
  | Some xmlData => <[guessXMLFilename xmlData := xmlData]> attachments
  | None => attachments
  end.

Definition extractAttachmentsManual `{UnicodeTables}
    (z : ZUGFeRDExtractor) (w : World) : error + gmap string string :=
  match rawFile w with
  | OpenError => inl ErrOpenPDF
  | ReadError => inl ErrReadPDF
  | Bytes data =>
      let attachments := fold_left (manualStep z data) xmlStartPatterns ∅ in
      if lenMap attachments =? 0 then inl ErrManualNoXML
      else inr attachments
  end.

(** *** Discovery *)

(** The first loop of [findZUGFeRDXML], over [KnownXMLFilenames]. *)
Fixpoint findByKnownName `{UnicodeTables} (z : ZUGFeRDExtractor)
    (attachments : gmap string string) (names : list string)
  : option (string * string) :=
  match names with
  | [] => None
  | knownName :: rest =>
      match attachments !! knownName with
      | Some data =>
          if isZUGFeRDXML z data then Some (data, knownName)
          else findByKnownName z attachments rest
      | None => findByKnownName z attachments rest
      end
  end.

(** The second loop of [findZUGFeRDXML]: a [range] over the map, given
    as the sequence of entries in the order the runtime visits them. *)
Fixpoint findByContent `{UnicodeTables} (z : ZUGFeRDExtractor)
    (visited : list (string * string)) : option (string * string) :=
  match visited with
  | [] => None
  | (filename, data) :: rest =>
      if HasSuffix (ToLower filename) ".xml" then
        if isZUGFeRDXML z data then Some (data, filename)
        else findByContent z rest
      else findByContent z rest
  end.

(** [findZUGFeRDXML]; [visited] and [listed] are the visiting orders of
    its two [range] loops over [attachments]. *)
Definition findZUGFeRDXML `{UnicodeTables} (z : ZUGFeRDExtractor)
    (attachments : gmap string string)
    (visited listed : list (string * string))
  : error + (string * string) :=
  match findByKnownName z attachments KnownXMLFilenames with
  | Some found => inr found
  | None =>
      match findByContent z visited with
      | Some found => inr found
      | None =>
          let attachmentNames := map fst listed in
          inl (ErrNoZUGFeRDAttachment attachmentNames)
      end
  end.

(** *** Output path *)

Fixpoint isStandardXMLFilename_loop (filename : string)
    (names : list string) : bool :=
  match names with
  | [] => false
  | knownName :: rest =>
      if String.eqb filename knownName then true
      else isStandardXMLFilename_loop filename rest
  end.

Definition isStandardXMLFilename (z : ZUGFeRDExtractor)
    (filename : string) : bool :=
  isStandardXMLFilename_loop filename KnownXMLFilenames.

Definition generateOutputPath (z : ZUGFeRDExtractor) (xmlFilename : string)
  : string :=
  if negb (String.eqb (OutputPath z) EmptyString) then OutputPath z
  else
    let dir := Filepath.Dir (InputPath z) in
    let baseName :=
      TrimSuffix (Filepath.Base (InputPath z)) (Filepath.Ext (InputPath z)) in
    let outputFilename :=
      if isStandardXMLFilename z xmlFilename then xmlFilename
      else baseName +:+ ".xml" in
    Filepath.Join [dir; outputFilename].

(** [saveXMLToFile]; [None] is the [nil] error.  An existing file is
    overwritten. *)
Definition saveXMLToFile (w : World) (data : string) (outputPath : string)
  : option error :=
  let dir := Filepath.Dir outputPath in
  if negb (mkdirAllOk w dir) then Some ErrMkdirOutput
  else if negb (writeFileOk w outputPath) then Some ErrWriteFile
  else None.

(** *** The single-document extractor *)

Inductive Strategy := Standard | Relaxed | Manual.

(** Lines 38-63 of [ExtractXML]: the strategies called, in call order,
    and the values of [attachments] and [err] afterwards. *)
Definition extractAttachments `{UnicodeTables}
    (z : ZUGFeRDExtractor) (w : World)
  : list Strategy * (error + gmap string string) :=
  match extractAttachmentsStandard w with
  | inr attachments => ([Standard], inr attachments)
  | inl _ =>
      match extractAttachmentsRelaxed w with
      | inr attachments => ([Standard; Relaxed], inr attachments)
      | inl _ =>
          match extractAttachmentsManual z w with
          | inr attachments =>
              ([Standard; Relaxed; Manual], inr attachments)
          | inl err =>
              ([Standard; Relaxed; Manual], inl (ErrAllMethodsFailed err))
          end
      end
  end.

(** A file written by a successful extraction. *)
Record Written := {
  writtenPath : string;
  xmlFilename : string;
  xmlData : string
}.

(** The observable behaviour of one [ExtractXML] call. *)
Record Extraction := {
  attempted : list Strategy;
  result : error + Written
}.

Definition ExtractXML `{UnicodeTables} (z : ZUGFeRDExtractor) (w : World)
  : Extraction :=
  let '(tried, got) := extractAttachments z w in
  {| attempted := tried;
     result :=
       match got with
       | inl err => inl err
       | inr attachments =>
           if lenMap attachments =? 0 then inl ErrNoEmbeddedFiles
           else
             match findZUGFeRDXML z attachments
                     (rangeCandidates w attachments)
                     (rangeNames w attachments) with
             | inl err => inl (ErrXMLNotFound err)
             | inr (data, name) =>
                 let outputPath := generateOutputPath z name in
                 match saveXMLToFile w data outputPath with
                 | Some err => inl (ErrSave err)
                 | None =>
                     inr {| writtenPath := outputPath;
                            xmlFilename := name;
                            xmlData := data |}
                 end
             end
       end |}.

End extractor.

(** ** The batch processor

    [BatchProcessor], [ProcessBatch] and [worker] of package extractor
    (batch.go; in this snapshot of the repository the file follows the
    build script in [build.ps1], lines 23-153).  The worker pool is abstracted to what does not depend on
    scheduling: which paths are put on the [jobs] channel, how many workers
    are started, and one result per path taken from the channel.  Results
    are listed in queue order; the order in which they arrive is not fixed
    by the program. *)

Module batch.
Import GoStrings.

Record BatchProcessor := {
  InputPattern : string;
  OutputDir : string;
  Workers : Z;
  Verbose : bool
}.

Record ProcessResult := {
  Filename : string;
  OutputPath : string;
  Error : option extractor.error
}.

(** The two failures of [ProcessBatch]; the two "no PDF files" sites
    print the same message. *)
Inductive error :=
| ErrGlob
| ErrNoPDFFiles (pattern : string).

(** The file system as the batch sees it: [filepath.Glob] ([None]: bad
    pattern) and the world each container path is extracted in. *)
Record FileSystem := {
  Glob : string -> option (list string);
  container : string -> extractor.World
}.

(** The test of the filter loop:
    [strings.ToLower(filepath.Ext(file)) == ".pdf"]. *)
Definition isPDF `{UnicodeTables} (file : string) : bool :=
  String.eqb (ToLower (Filepath.Ext file)) ".pdf".

(** The [outputPath] a worker determines for [filename] before the
    extraction; empty without an output directory. *)
Definition workerOutputPath (bp : BatchProcessor) (filename : string)
  : string :=
  if negb (String.eqb (OutputDir bp) EmptyString) then
    let baseName := Filepath.Base filename in
    let baseName := TrimSuffix baseName (Filepath.Ext baseName) in
    Filepath.Join [OutputDir bp; baseName +:+ ".xml"]
  else EmptyString.

(** The extractor a worker builds for [filename]. *)
Definition newExtractor (bp : BatchProcessor) (filename : string)
  : extractor.ZUGFeRDExtractor :=
  {| extractor.InputPath := filename;
     extractor.OutputPath := workerOutputPath bp filename;
     extractor.Verbose := Verbose bp |}.

(** One iteration of the [for filename := range jobs] loop of [worker]:
    the extraction it performs and the result it sends. *)
Definition workerStep `{UnicodeTables} (bp : BatchProcessor)
    (fs : FileSystem) (filename : string)
  : extractor.Extraction * ProcessResult :=
  let outputPath := workerOutputPath bp filename in
  let run := extractor.ExtractXML (newExtractor bp filename)
               (container fs filename) in
  match extractor.result run with
  | inl err =>
      (run, {| Filename := filename;
               OutputPath := EmptyString;
               Error := Some err |})
  | inr _ =>
      (run, {| Filename := filename;
               OutputPath :=
                 if String.eqb outputPath EmptyString then
                   let baseName := Filepath.Base filename in
                   let baseName :=
                     TrimSuffix baseName (Filepath.Ext baseName) in
                   Filepath.Join
                     [Filepath.Dir filename; baseName +:+ ".xml"]
                 else outputPath;
               Error := None |})
  end.

(** [worker] on the paths it takes from the [jobs] channel: one extraction
    and one result per path.  The workers of a batch share the channel;
    their results are listed here in the order of the queue, and the
    tally does not depend on the order in which they arrive. *)
Definition worker `{UnicodeTables} (bp : BatchProcessor) (fs : FileSystem)
    (jobs : list string) : list (extractor.Extraction * ProcessResult) :=
  map (workerStep bp fs) jobs.

(** The tally loop of [ProcessBatch]. *)
Definition tally (counts : Z * Z) (r : ProcessResult) : Z * Z :=
  let '(successful, failed) := counts in
  match Error r with
  | Some _ => (successful, failed + 1)
  | None => (successful + 1, failed)
  end.

Record BatchRun := {
  queued : list string;
  workersStarted : Z;
  extractions : list extractor.Extraction;
  results : list ProcessResult;
  successful : Z;
  failed : Z;
  err : option error
}.

Definition aborted (e : error) : BatchRun :=
  {| queued := []; workersStarted := 0; extractions := []; results := [];
     successful := 0; failed := 0; err := Some e |}.

Definition ProcessBatch `{UnicodeTables} (bp : BatchProcessor)
    (fs : FileSystem) : BatchRun :=
  match Glob fs (InputPattern bp) with
  | None => aborted ErrGlob
  | Some files =>
      if Z.of_nat (length files) =? 0
      then aborted (ErrNoPDFFiles (InputPattern bp))
      else
        let pdfFiles := List.filter isPDF files in
        if Z.of_nat (length pdfFiles) =? 0
        then aborted (ErrNoPDFFiles (InputPattern bp))
        else
          let jobs := pdfFiles in
          let taken := if 0 <? Workers bp then jobs else [] in
          let done := worker bp fs taken in
          let '(ok, ko) := fold_left tally (map snd done) (0, 0) in
          {| queued := jobs;
             workersStarted := Z.max 0 (Workers bp);
             extractions := map fst done;
             results := map snd done;
             successful := ok;
             failed := ko;
             err := None |}
  end.

End batch.

(** ** The command line

    What [main] builds once the pattern is resolved: a batch processor when
    several files match, a single extractor otherwise. *)

Module main.

(** Lines 66-77: the worker count is the number of CPUs, capped by the
    number of files; the [-o] argument becomes [OutputDir]. *)
Definition newBatchProcessor (inputPattern outputPath : string)
    (verbose : bool) (numCPU : Z) (files : list string)
  : batch.BatchProcessor :=
  let numWorkers := numCPU in
  let numWorkers :=
    if Z.of_nat (length files) <? numWorkers
    then Z.of_nat (length files) else numWorkers in
  {| batch.InputPattern := inputPattern;
     batch.OutputDir := outputPath;
     batch.Workers := numWorkers;
     batch.Verbose := verbose |}.

(** Lines 86-90: the [-o] argument becomes [OutputPath]. *)
Definition newExtractor (file outputPath : string) (verbose : bool)
  : extractor.ZUGFeRDExtractor :=
  {| extractor.InputPath := file;
     extractor.OutputPath := outputPath;
     extractor.Verbose := verbose |}.

(** *** The entry point

    [main] (lines 14-95) with what it observes from outside as arguments:
    how [flag.Parse] ends and the host it runs on. *)

(** The command line after [flag.Parse]: the three flags and the
    positional arguments. *)
Record Flags := {
  verbosePtr : bool;
  outputPtr : string;
  helpPtr : bool;
  args : list string
}.

(** What [os.Stat] reports for a path. *)
Inductive StatResult :=
| StatNotExist
| StatError
| StatDir
| StatFile.

(** How [flag.Parse] ends.  The flag set exits the program by itself on
    an undefined flag or a bad value (status 2) and on [-help], which is
    not among the defined flags (status 0); otherwise [main] goes on with
    the parsed command line. *)
Inductive ParseResult :=
| ParseFailed
| ParseHelp
| Parsed (fl : Flags).

(** The host: the file system behind [filepath.Glob] and the containers
    as [main] finds it, the file system as it is once [os.MkdirAll] has
    created a directory, [os.Stat], [os.MkdirAll] and [runtime.NumCPU]. *)
Record Host := {
  fs : batch.FileSystem;
  afterMkdirAll : string -> batch.FileSystem;
  Stat : string -> StatResult;
  MkdirAll : string -> bool;
  NumCPU : Z
}.

(** The [log.Fatalf] sites of [main]. *)
Inductive Fatal :=
| FatalGlob
| FatalNoFiles
| FatalMkdirOutput
| FatalStatOutput
| FatalNotDirectory
| FatalBatch (cause : batch.error)
| FatalExtract (cause : extractor.error).

(** What a run of [main] does: the exit status, whether [printUsage] was
    called, the fatal error if any, whether the output directory was
    created, and the batch or the extraction it ran. *)
Record Outcome := {
  exitCode : Z;
  usageShown : bool;
  fatal : option Fatal;
  outputDirCreated : bool;
  batchRun : option batch.BatchRun;
  extraction : option extractor.Extraction
}.

(** A run that ends before any file is processed. *)
Definition halted (code : Z) (usage : bool) (why : option Fatal) : Outcome :=
  {| exitCode := code; usageShown := usage; fatal := why;
     outputDirCreated := false; batchRun := None; extraction := None |}.

(** Lines 49-64: with several files, a given output path must be or
    become a directory.  [inl] is the fatal error, [inr] tells whether the
    directory was created. *)
Definition prepareOutputDir (host : Host) (outputPath : string)
  : Fatal + bool :=
  if negb (String.eqb outputPath EmptyString) then
    match Stat host outputPath with
    | StatNotExist =>
        if MkdirAll host outputPath then inr true else inl FatalMkdirOutput
    | StatError => inl FatalStatOutput
    | StatFile => inl FatalNotDirectory
    | StatDir => inr false
    end
  else inr false.

(** [main] once the command line is parsed (lines 21-95).  The batch
    resolves the pattern again, on the file system as the preparation of
    the output directory left it. *)
Definition afterParse `{UnicodeTables} (fl : Flags) (host : Host) : Outcome :=
  if helpPtr fl || (Z.of_nat (length (args fl)) <? 1) then
    if helpPtr fl then halted 0 true None else halted 1 true None
  else
    let inputPattern := nth 0 (args fl) EmptyString in
    let verbose := verbosePtr fl in
    let outputPath := outputPtr fl in
    match batch.Glob (fs host) inputPattern with
    | None => halted 1 false (Some FatalGlob)
    | Some files =>
        if Z.of_nat (length files) =? 0
        then halted 1 false (Some FatalNoFiles)
        else if 1 <? Z.of_nat (length files) then
          match prepareOutputDir host outputPath with
          | inl why => halted 1 false (Some why)
          | inr created =>
              let processor :=
                newBatchProcessor inputPattern outputPath verbose
                  (NumCPU host) files in
              let fsNow :=
                if created then afterMkdirAll host outputPath
                else fs host in
              let run := batch.ProcessBatch processor fsNow in
              match batch.err run with
              | Some err =>
                  {| exitCode := 1; usageShown := false;
                     fatal := Some (FatalBatch err);
                     outputDirCreated := created;
                     batchRun := Some run; extraction := None |}
              | None =>
                  {| exitCode := 0; usageShown := false; fatal := None;
                     outputDirCreated := created;
                     batchRun := Some run; extraction := None |}
              end
          end
        else
          let file := nth 0 files EmptyString in
          let extractorObj := newExtractor file outputPath verbose in
          let run :=
            extractor.ExtractXML extractorObj
              (batch.container (fs host) file) in
          match extractor.result run with
          | inl err =>
              {| exitCode := 1; usageShown := false;
                 fatal := Some (FatalExtract err);
                 outputDirCreated := false;
                 batchRun := None; extraction := Some run |}
          | inr _ =>
              {| exitCode := 0; usageShown := false; fatal := None;
                 outputDirCreated := false;
                 batchRun := None; extraction := Some run |}
          end
    end.

(** [main], from [flag.Parse] on. *)
Definition main `{UnicodeTables} (parse : ParseResult) (host : Host)
  : Outcome :=
  match parse with
  | ParseFailed => halted 2 false None
  | ParseHelp => halted 0 false None
  | Parsed fl => afterParse fl host
  end.

End main.

(** ** Vocabulary of the statements *)

(** [sub] occurs in [s]: some bytes, then [sub], then the rest. *)
Definition Substring (sub s : string) : Prop :=
  exists before after, s = before +:+ sub +:+ after.

(** [sub] occurs in [s] at byte offset [i]. *)
Definition occursAt (s sub : string) (i : nat) : Prop :=
  GoStrings.HasPrefix (GoStrings.sliceFrom s i) sub = true.

(** The indicator set as the specification lists it (eight entries). *)
Definition specIndicators : list string :=
  [ "crossindustrydocument"; "crossindustryinvoice"; "urn:ferd:";
    "urn:cen.eu:en16931"; "zugferd"; "factur-x"; "xrechnung";
    "rsm:crossindustrydocument" ].

(** Tables that leave every string alone; used to run the model on ASCII
    inputs, where the tables are never consulted. *)
Definition identityTables : UnicodeTables := {| mapToLower := fun s => s |}.

(** The candidate carried by a result of [findZUGFeRDXML], if any. *)
Definition candidate (r : extractor.error + string * string)
  : option (string * string) :=
  match r with
  | inr found => Some found
  | inl _ => None
  end.

(** [name] is an attachment of [m] under a canonical name whose bytes pass
    the sniff predicate. *)
Definition canonicalMatch `{UnicodeTables} (z : extractor.ZUGFeRDExtractor)
    (m : gmap string string) (name data : string) : Prop :=
  In name extractor.KnownXMLFilenames
  /\ m !! name = Some data
  /\ extractor.isZUGFeRDXML z data = true.

(** [name] is an attachment of [m] whose lower-cased name ends in [.xml]
    and whose bytes pass the sniff predicate. *)
Definition xmlMatch `{UnicodeTables} (z : extractor.ZUGFeRDExtractor)
    (m : gmap string string) (name data : string) : Prop :=
  m !! name = Some data
  /\ GoStrings.HasSuffix (GoStrings.ToLower name) ".xml" = true
  /\ extractor.isZUGFeRDXML z data = true.

(** [visit] gives, for every map, its entries in some order: what a
    [range] over a Go map does. *)
Definition validRange
    (visit : gmap string string -> list (string * string)) : Prop :=
  forall a, visit a ≡ₚ map_to_list a.

(** A result without error. *)
Definition succeeded (r : batch.ProcessResult) : bool :=
  match batch.Error r with
  | None => true
  | Some _ => false
  end.

(** An extraction that wrote its file. *)
Definition wrote (run : extractor.Extraction) : bool :=
  match extractor.result run with
  | inr _ => true
  | inl _ => false
  end.

(** The body of the loop of [readExtractedFiles], named. *)
Definition readStep (attachments : gmap string string)
    (file : extractor.DirEntry) : gmap string string :=
  if extractor.IsDir file then attachments
  else match extractor.ReadFile file with
       | None => attachments
       | Some data => <[extractor.Name file := data]> attachments
       end.

(** The five names [guessXMLFilename] can synthesize. *)
Definition guessedNames : list string :=
  [ "xrechnung.xml"; "factur-x.xml"; "ZUGFeRD-invoice.xml";
    "zugferd-invoice.xml"; "invoice.xml" ].

(** ** Sample inputs *)

Definition invoiceExtractor : extractor.ZUGFeRDExtractor :=
  {| extractor.InputPath := "dir/invoice.pdf";
     extractor.OutputPath := EmptyString;
     extractor.Verbose := false |}.

(** Two canonically named attachments, both with indicator content. *)
Definition twoCanonical : gmap string string :=
  <["cii.xml" := "<rsm:CrossIndustryInvoice/>"]>
    (<["zugferd-invoice.xml" := "<rsm:CrossIndustryInvoice/>"]> ∅).

(** Two attachments with other names, both with indicator content. *)
Definition twoPlain : gmap string string :=
  <["a.xml" := "zugferd"]> (<["b.xml" := "factur-x"]> ∅).

(** Container bytes in which an Invoice-family start tag is followed first
    by a Document-family closing tag. *)
Definition scannedBytes : string :=
  "%PDF-1.7 <rsm:CrossIndustryInvoice>a</CrossIndustryDocument>b</rsm:CrossIndustryInvoice> %%EOF".

Definition regularFile (name data : string) : extractor.DirEntry :=
  {| extractor.Name := name;
     extractor.IsDir := false;
     extractor.ReadFile := Some data |}.

(** A world with a cooperative file system, in which [range] visits a map
    in the order of [map_to_list]. *)
Definition world (standard relaxed : extractor.PdfcpuRun)
    (raw : extractor.FileRead) : extractor.World :=
  {| extractor.pdfcpuDefault := standard;
     extractor.pdfcpuRelaxed := relaxed;
     extractor.rawFile := raw;
     extractor.rangeCandidates := map_to_list;
     extractor.rangeNames := map_to_list;
     extractor.mkdirAllOk := fun _ => true;
     extractor.writeFileOk := fun _ => true |}.

(** pdfcpu's default run succeeds and writes nothing; the relaxed run would
    find the invoice. *)
Definition emptyStandardWorld : extractor.World :=
  world (extractor.Wrote (extractor.Entries []))
        (extractor.Wrote
           (extractor.Entries [regularFile "factur-x.xml" "factur-x"]))
        (extractor.Bytes scannedBytes).

(** A container whose only attachment has a name outside the canonical
    list. *)
Definition plainNameWorld : extractor.World :=
  world (extractor.Wrote
           (extractor.Entries [regularFile "weird.xml" "zugferd"]))
        extractor.ExtractError extractor.OpenError.

(** A container with a canonically named attachment. *)
Definition canonicalNameWorld : extractor.World :=
  world (extractor.Wrote
           (extractor.Entries [regularFile "factur-x.xml" "factur-x"]))
        extractor.ExtractError extractor.OpenError.

(** A PDF without attachments: pdfcpu reports an error with either
    configuration and the bytes hold no invoice. *)
Definition noAttachmentWorld : extractor.World :=
  world extractor.ExtractError extractor.ExtractError
        (extractor.Bytes "%PDF-1.7 %%EOF").

(** A text file: pdfcpu rejects it and the byte scan finds nothing. *)
Definition textFileWorld : extractor.World :=
  world extractor.ExtractError extractor.ExtractError
        (extractor.Bytes "hello").

(** A directory holding [a.pdf] (valid), [b.pdf] (no attachments) and
    [c.txt]; the pattern [*] matches all three. *)
Definition mixedDirectory : batch.FileSystem :=
  {| batch.Glob := fun pattern =>
       if String.eqb pattern "*" then Some ["a.pdf"; "b.pdf"; "c.txt"]
       else Some [];
     batch.container := fun path =>
       if String.eqb path "a.pdf" then plainNameWorld
       else if String.eqb path "b.pdf" then noAttachmentWorld
       else textFileWorld |}.

(** A directory [dir] with two invoices. *)
Definition invoiceDirectory : batch.FileSystem :=
  {| batch.Glob := fun pattern =>
       if String.eqb pattern "dir/*.pdf"
       then Some ["dir/a.pdf"; "dir/b.pdf"] else Some [];
     batch.container := fun path =>
       if String.eqb path "dir/a.pdf" then plainNameWorld
       else canonicalNameWorld |}.

(** A scratch directory with a subdirectory, an unreadable file and two
    readable files. *)
Definition mixedEntries : list extractor.DirEntry :=
  [ {| extractor.Name := "sub"; extractor.IsDir := true;
       extractor.ReadFile := None |};
    {| extractor.Name := "locked.bin"; extractor.IsDir := false;
       extractor.ReadFile := None |};
    regularFile "factur-x.xml" "factur-x";
    regularFile "logo.png" "PNG" ].

(** A container pdfcpu cannot parse, whose bytes hold an invoice. *)
Definition manualOnlyWorld : extractor.World :=
  world extractor.ExtractError extractor.ExtractError
        (extractor.Bytes scannedBytes).

(** A host with eight CPUs on which no output path exists yet; [created]
    is the file system once the output directory has been made. *)
Definition hostWith (files created : batch.FileSystem) : main.Host :=
  {| main.fs := files;
     main.afterMkdirAll := fun _ => created;
     main.Stat := fun _ => main.StatNotExist;
     main.MkdirAll := fun _ => true;
     main.NumCPU := 8 |}.

(** Such a host when the new directory is not matched by the patterns in
    use. *)
Definition host (files : batch.FileSystem) : main.Host :=
  hostWith files files.

(** The mixed directory after [out] has been created in it: the pattern
    [*] now matches [out] as well. *)
Definition mixedDirectoryWithOut : batch.FileSystem :=
  {| batch.Glob := fun pattern =>
       if String.eqb pattern "*"
       then Some ["a.pdf"; "b.pdf"; "c.txt"; "out"]
       else Some [];
     batch.container := batch.container mixedDirectory |}.

(** A directory in which the pattern [*.txt] matches two text files. *)
Definition textDirectory : batch.FileSystem :=
  {| batch.Glob := fun pattern =>
       if String.eqb pattern "*.txt" then Some ["c.txt"; "d.txt"]
       else Some [];
     batch.container := fun _ => textFileWorld |}.



(** A directory in which the pattern [one.pdf] matches a single
    container. *)
Definition singleDirectory : batch.FileSystem :=
  {| batch.Glob := fun pattern =>
       if String.eqb pattern "one.pdf" then Some ["one.pdf"] else Some [];
     batch.container := fun _ => plainNameWorld |}.

(** ** Facts about the [strings] model *)

Section StringFacts.
Import GoStrings.

Lemma app_cons (c : ascii) (a b : string) :
  String c a +:+ b = String c (a +:+ b).
Proof. reflexivity. Qed.

Lemma HasPrefix_app (p t : string) : HasPrefix (p +:+ t) p = true.
Proof.
  induction p as [|c p IH]; simpl; [reflexivity|].
  rewrite Ascii.eqb_refl. exact IH.
Qed.

Lemma HasPrefix_inv (s p : string) :
  HasPrefix s p = true -> exists t, s = p +:+ t.
Proof.
  revert s. induction p as [|c p IH]; intros s Hp.
  - exists s. reflexivity.
  - destruct s as [|d s]; simpl in Hp; [discriminate|].
    apply andb_true_iff in Hp as [Hc Hp].
    apply Ascii.eqb_eq in Hc. subst d.
    destruct (IH _ Hp) as [t ->]. exists t. reflexivity.
Qed.

Lemma sliceFrom_app (a b : string) :
  sliceFrom (a +:+ b) (String.length a) = b.
Proof. induction a as [|c a IH]; simpl; [reflexivity | exact IH]. Qed.

Lemma slice_split (s : string) (n : nat) :
  s = sliceTo s n +:+ sliceFrom s n.
Proof.
  revert s. induction n as [|n IH]; intros [|c s]; simpl; try reflexivity.
  rewrite app_cons. f_equal. apply IH.
Qed.

Lemma sliceTo_length (s : string) (n : nat) :
  (n <= String.length s)%nat -> String.length (sliceTo s n) = n.
Proof.
  revert s. induction n as [|n IH]; intros [|c s] Hn; simpl in *;
    try reflexivity; try lia.
  rewrite IH; [reflexivity | lia].
Qed.

Lemma sliceFrom_empty (n : nat) : sliceFrom EmptyString n = EmptyString.
Proof. destruct n; reflexivity. Qed.

Lemma app_length (a b : string) :
  String.length (a +:+ b) = (String.length a + String.length b)%nat.
Proof. induction a as [|c a IH]; simpl; [reflexivity | now rewrite IH]. Qed.


(** [firstIndex] finds an occurrence ... *)
Lemma firstIndex_occurs (s sub : string) (i : nat) :
  firstIndex s sub = Some i -> occursAt s sub i.
Proof.
  unfold occursAt. revert i.
  induction s as [|c s IH]; intros i Hi; simpl in Hi.
  - destruct (HasPrefix EmptyString sub) eqn:Hp; [|discriminate].
    injection Hi as <-. exact Hp.
  - destruct (HasPrefix (String c s) sub) eqn:Hp.
    + injection Hi as <-. exact Hp.
    + destruct (firstIndex s sub) as [k|] eqn:Hk; [|discriminate].
      injection Hi as <-. simpl. now apply IH.
Qed.

(** ... and no occurrence starts before it. *)
Lemma firstIndex_least (s sub : string) (i j : nat) :
  firstIndex s sub = Some i -> occursAt s sub j -> (i <= j)%nat.
Proof.
  unfold occursAt. revert i j.
  induction s as [|c s IH]; intros i j Hi Hj; simpl in Hi.
  - destruct (HasPrefix EmptyString sub); [|discriminate].
    injection Hi as <-. lia.
  - destruct (HasPrefix (String c s) sub) eqn:Hp.
    + injection Hi as <-. lia.
    + destruct (firstIndex s sub) as [k|] eqn:Hk; [|discriminate].
      injection Hi as <-.
      destruct j as [|j]; simpl in Hj; [congruence|].
      specialize (IH k j eq_refl Hj). lia.
Qed.

Lemma firstIndex_none (s sub : string) (j : nat) :
  firstIndex s sub = None -> ~ occursAt s sub j.
Proof.
  unfold occursAt. revert j.
  induction s as [|c s IH]; intros j Hn Hj; simpl in Hn.
  - destruct (HasPrefix EmptyString sub) eqn:Hp; [discriminate|].
    rewrite sliceFrom_empty in Hj. congruence.
  - destruct (HasPrefix (String c s) sub) eqn:Hp; [discriminate|].
    destruct (firstIndex s sub) as [k|] eqn:Hk; [discriminate|].
    destruct j as [|j]; simpl in Hj; [congruence|].
    exact (IH j eq_refl Hj).
Qed.

Lemma Index_found (s sub : string) :
  Index s sub <> -1 ->
  exists i, firstIndex s sub = Some i /\ Index s sub = Z.of_nat i.
Proof.
  unfold Index. destruct (firstIndex s sub) as [i|]; [|congruence].
  intros _. now exists i.
Qed.

Lemma occursAt_Substring (s sub : string) (i : nat) :
  occursAt s sub i -> Substring sub s.
Proof.
  unfold occursAt. intros Hocc.
  apply HasPrefix_inv in Hocc as [t Ht].
  exists (sliceTo s i), t. rewrite <- Ht. apply slice_split.
Qed.

Lemma Substring_occursAt (s sub : string) :
  Substring sub s -> exists i, occursAt s sub i.
Proof.
  intros (before & after & ->). exists (String.length before).
  unfold occursAt. rewrite sliceFrom_app. apply HasPrefix_app.
Qed.

(** [strings.Contains] decides the occurrence of a substring. *)
Lemma Contains_Substring (s sub : string) :
  Contains s sub = true <-> Substring sub s.
Proof.
  unfold Contains, Index. split.
  - destruct (firstIndex s sub) as [i|] eqn:Hi; [intros _ | intros H; lia].
    eapply occursAt_Substring, firstIndex_occurs, Hi.
  - intros Hsub. destruct (Substring_occursAt _ _ Hsub) as [j Hj].
    destruct (firstIndex s sub) as [i|] eqn:Hi.
    + apply Z.leb_le. lia.
    + exfalso. exact (firstIndex_none _ _ j Hi Hj).
Qed.

Lemma len_zero (s : string) : (len s =? 0) = true <-> s = EmptyString.
Proof.
  unfold len. rewrite Z.eqb_eq. destruct s; simpl; split;
    intros; try reflexivity; try discriminate; lia.
Qed.

End StringFacts.

(** The models agree with the library on the documented cases. *)

Example Index_cases :
  GoStrings.Index "chicken" "ken" = 4
  /\ GoStrings.Index "chicken" "dmr" = -1
  /\ GoStrings.Index "chicken" EmptyString = 0
  /\ GoStrings.HasSuffix "Amigo" "go" = true
  /\ GoStrings.HasSuffix "Amigo" "Ami" = false
  /\ GoStrings.TrimSuffix "invoice.pdf" ".pdf" = "invoice"
  /\ GoStrings.TrimSuffix "invoice" ".pdf" = "invoice".
Proof. vm_compute. repeat split; reflexivity. Qed.

Example ToLower_cases (tables : UnicodeTables) :
  GoStrings.ToLower "ZUGFeRD-Invoice.XML" = "zugferd-invoice.xml"
  /\ GoStrings.ToLower "urn:cen.eu:en16931" = "urn:cen.eu:en16931".
Proof. split; reflexivity. Qed.

Example Clean_cases :
  Filepath.Clean "a//b/./c/.." = "a/b"
  /\ Filepath.Clean "/../a/b/" = "/a/b"
  /\ Filepath.Clean "../../a/.." = "../.."
  /\ Filepath.Clean "a/../.." = ".."
  /\ Filepath.Clean EmptyString = "."
  /\ Filepath.Clean "///" = "/".
Proof. vm_compute. repeat split; reflexivity. Qed.

Example Dir_Base_Ext_cases :
  Filepath.Dir "dir/invoice.pdf" = "dir"
  /\ Filepath.Dir "invoice.pdf" = "."
  /\ Filepath.Dir "/invoice.pdf" = "/"
  /\ Filepath.Dir "a/b/" = "a/b"
  /\ Filepath.Base "dir/invoice.pdf" = "invoice.pdf"
  /\ Filepath.Base "a/b/" = "b"
  /\ Filepath.Base EmptyString = "."
  /\ Filepath.Base "///" = "/"
  /\ Filepath.Ext "dir/invoice.pdf" = ".pdf"
  /\ Filepath.Ext "a.b/c" = EmptyString
  /\ Filepath.Ext "archive.tar.gz" = ".gz"
  /\ Filepath.Join ["dir"; "invoice.xml"] = "dir/invoice.xml"
  /\ Filepath.Join ["."; "invoice.xml"] = "invoice.xml"
  /\ Filepath.Join [EmptyString; "a"; "../b"] = "b".
Proof. vm_compute. repeat split; reflexivity. Qed.

(** ** The classifier *)

Section ClassifierFacts.
Context `{UnicodeTables}.
Import GoStrings.

(** Lower-casing leaves every indicator of the table unchanged. *)
Lemma ToLower_indicator (indicator : string) :
  In indicator extractor.indicators -> ToLower indicator = indicator.
Proof.
  simpl. intros Hin.
  repeat (destruct Hin as [<- | Hin]; [reflexivity|]). contradiction.
Qed.

Lemma indicators_same : validation.indicators = extractor.indicators.
Proof. reflexivity. Qed.

(** The table of the code and the set of the specification have the same
    members; the code lists one entry twice. *)
Lemma indicators_members (indicator : string) :
  In indicator extractor.indicators <-> In indicator specIndicators.
Proof. simpl. tauto. Qed.

(** The early-return loop is an [existsb]. *)
Lemma IsZUGFeRDXML_loop_existsb (contentLower : string) (inds : list string) :
  validation.IsZUGFeRDXML_loop contentLower inds
  = existsb (fun i => Contains contentLower (ToLower i)) inds.
Proof.
  induction inds as [|i inds IH]; simpl; [reflexivity|].
  destruct (Contains contentLower (ToLower i)); [reflexivity | exact IH].
Qed.

(** The counting loop ends above zero exactly when it started above zero
    or met an indicator. *)
Lemma countIndicator_positive (verbose : bool) (contentLower : string)
    (inds : list string) (n : Z) (printed : list string) :
  0 <= n ->
  (0 <? fst (fold_left (extractor.countIndicator verbose contentLower)
               inds (n, printed)))
  = (0 <? n) || existsb (fun i => Contains contentLower (ToLower i)) inds.
Proof.
  revert n printed.
  induction inds as [|i inds IH]; intros n printed Hn; simpl.
  - now rewrite orb_false_r.
  - destruct (Contains contentLower (ToLower i)); simpl.
    + rewrite IH by lia.
      replace (0 <? n + 1) with true by (symmetry; apply Z.ltb_lt; lia).
      now rewrite orb_true_r.
    + now apply IH.
Qed.

(** Nothing is printed when [Verbose] is off. *)
Lemma countIndicator_silent (contentLower : string) (inds : list string)
    (n : Z) (printed : list string) :
  snd (fold_left (extractor.countIndicator false contentLower)
         inds (n, printed)) = printed.
Proof.
  revert n printed.
  induction inds as [|i inds IH]; intros n printed; simpl; [reflexivity|].
  destruct (Contains contentLower (ToLower i)); apply IH.
Qed.

(** [isZUGFeRDXML] as a closed boolean expression. *)
Lemma isZUGFeRDXML_unfold (z : extractor.ZUGFeRDExtractor) (data : string) :
  extractor.isZUGFeRDXML z data
  = negb (len data =? 0)
    && existsb (fun i => Contains (ToLower data) (ToLower i))
         extractor.indicators.
Proof.
  unfold extractor.isZUGFeRDXML, extractor.isZUGFeRDXML_run.
  destruct (len data =? 0); [reflexivity|]. simpl negb. rewrite andb_true_l.
  pose proof (countIndicator_positive (extractor.Verbose z) (ToLower data)
                extractor.indicators 0 [] (Z.le_refl 0)) as Hc.
  destruct (fold_left _ extractor.indicators (0, [])) as [found printed].
  simpl in *. exact Hc.
Qed.

Lemma IsZUGFeRDXML_unfold (data : string) :
  validation.IsZUGFeRDXML data
  = negb (len data =? 0)
    && existsb (fun i => Contains (ToLower data) (ToLower i))
         extractor.indicators.
Proof.
  unfold validation.IsZUGFeRDXML.
  destruct (len data =? 0); [reflexivity|].
  rewrite IsZUGFeRDXML_loop_existsb. reflexivity.
Qed.

(** The closed expression read as a statement about substrings. *)
Lemma sniff_iff (data : string) :
  negb (len data =? 0)
  && existsb (fun i => Contains (ToLower data) (ToLower i))
       extractor.indicators = true
  <-> data <> EmptyString
      /\ exists indicator,
           In indicator specIndicators
           /\ Substring indicator (ToLower data).
Proof.
  rewrite andb_true_iff, negb_true_iff, existsb_exists.
  split.
  - intros [Hlen (i & Hin & Hc)]. split.
    + intros ->. discriminate.
    + exists i. split; [now apply indicators_members|].
      rewrite (ToLower_indicator i Hin) in Hc.
      now apply Contains_Substring.
  - intros [Hne (i & Hin & Hsub)]. split.
    + destruct (len data =? 0) eqn:E; [|reflexivity].
      apply len_zero in E. contradiction.
    + apply indicators_members in Hin. exists i. split; [exact Hin|].
      rewrite (ToLower_indicator i Hin). now apply Contains_Substring.
Qed.

(** The two [Validate] functions have the same body. *)
Lemma validate_iff (data : string) :
  validation.ValidateZUGFeRDXML data = true
  <-> Substring "<?xml" data
      /\ (Substring "CrossIndustryDocument" data
          \/ Substring "CrossIndustryInvoice" data)
      /\ Substring "xmlns:" data
      /\ (Substring "urn:ferd:" data
          \/ Substring "urn:cen.eu:en16931" data).
Proof.
  unfold validation.ValidateZUGFeRDXML.
  rewrite !andb_true_iff, !orb_true_iff, !Contains_Substring. tauto.
Qed.

End ClassifierFacts.

(** C6 -- the sniff predicate.  Both implementations ([isZUGFeRDXML] of the
    extractor and [IsZUGFeRDXML] of the validator) answer [true] exactly when
    the blob is not empty and its lower-cased content contains at least one
    of the eight indicators of the specification; one match is enough, and
    the empty blob is rejected. *)
Theorem sniff_predicate_spec `{UnicodeTables}
    (z : extractor.ZUGFeRDExtractor) (data : string) :
  (extractor.isZUGFeRDXML z data = true
   <-> data <> EmptyString
       /\ exists indicator,
            In indicator specIndicators
            /\ Substring indicator (GoStrings.ToLower data))
  /\ (validation.IsZUGFeRDXML data = true
      <-> data <> EmptyString
          /\ exists indicator,
               In indicator specIndicators
               /\ Substring indicator (GoStrings.ToLower data))
  /\ extractor.isZUGFeRDXML z EmptyString = false
  /\ validation.IsZUGFeRDXML EmptyString = false.
Proof.
  rewrite isZUGFeRDXML_unfold, IsZUGFeRDXML_unfold.
  split; [apply sniff_iff | split; [apply sniff_iff | split; reflexivity]].
Qed.

(** C9 -- the structural-validity predicate.  Both implementations answer
    [true] exactly when the content contains ["<?xml"], one of the root
    element markers (matched byte for byte, hence case-sensitively), the
    token ["xmlns:"] and one of the two namespace URIs; the empty blob is
    rejected. *)
Theorem structural_validity_spec
    (z : extractor.ZUGFeRDExtractor) (data : string) :
  (extractor.validateZUGFeRDXML z data = true
   <-> Substring "<?xml" data
       /\ (Substring "CrossIndustryDocument" data
           \/ Substring "CrossIndustryInvoice" data)
       /\ Substring "xmlns:" data
       /\ (Substring "urn:ferd:" data
           \/ Substring "urn:cen.eu:en16931" data))
  /\ (validation.ValidateZUGFeRDXML data = true
      <-> Substring "<?xml" data
          /\ (Substring "CrossIndustryDocument" data
              \/ Substring "CrossIndustryInvoice" data)
          /\ Substring "xmlns:" data
          /\ (Substring "urn:ferd:" data
              \/ Substring "urn:cen.eu:en16931" data))
  /\ extractor.validateZUGFeRDXML z EmptyString = false
  /\ validation.ValidateZUGFeRDXML EmptyString = false.
Proof.
  split; [apply validate_iff | split; [apply validate_iff | split; reflexivity]].
Qed.

(** C10 -- the duplicated classifiers agree.  On every blob the validator's
    [IsZUGFeRDXML] returns what the extractor's [isZUGFeRDXML] returns
    (whatever the verbosity; with [Verbose] off the extractor's version
    prints nothing), and [ValidateZUGFeRDXML] returns what
    [validateZUGFeRDXML] returns. *)
Theorem classifiers_agree `{UnicodeTables}
    (z : extractor.ZUGFeRDExtractor) (data : string) :
  validation.IsZUGFeRDXML data = extractor.isZUGFeRDXML z data
  /\ validation.ValidateZUGFeRDXML data = extractor.validateZUGFeRDXML z data
  /\ snd (extractor.isZUGFeRDXML_run
            {| extractor.InputPath := extractor.InputPath z;
               extractor.OutputPath := extractor.OutputPath z;
               extractor.Verbose := false |} data) = [].
Proof.
  split; [|split].
  - now rewrite isZUGFeRDXML_unfold, IsZUGFeRDXML_unfold.
  - reflexivity.
  - unfold extractor.isZUGFeRDXML_run. simpl extractor.Verbose.
    destruct (GoStrings.len data =? 0); [reflexivity|].
    pose proof (countIndicator_silent (GoStrings.ToLower data)
                  extractor.indicators 0 []) as Hs.
    destruct (fold_left _ extractor.indicators (0, [])) as [found printed].
    exact Hs.
Qed.


(** ** The manual byte scan *)

Section ManualScanFacts.
Context `{UnicodeTables}.
Import GoStrings.

(** The end-pattern loop computes a minimum: the result never exceeds the
    start value nor the end of any pattern that occurs, and it is one of
    them. *)
Lemma nearerEnd_fold (content : string) (patterns : list string) (e0 : Z) :
  let e := fold_left (extractor.nearerEnd content) patterns e0 in
  e <= e0
  /\ (forall p, In p patterns -> Index content p <> -1 ->
                e <= Index content p + len p)
  /\ (e = e0
      \/ exists p, In p patterns /\ Index content p <> -1
                   /\ e = Index content p + len p).
Proof.
  revert e0. induction patterns as [|q patterns IH]; intros e0; simpl.
  - split; [lia|]. split; [intros p []|]. now left.
  - specialize (IH (extractor.nearerEnd content e0 q)).
    destruct IH as (Hle & Hall & Hone).
    assert (Hstep : extractor.nearerEnd content e0 q <= e0
                    /\ (Index content q <> -1 ->
                        extractor.nearerEnd content e0 q
                        <= Index content q + len q)
                    /\ (extractor.nearerEnd content e0 q = e0
                        \/ (Index content q <> -1
                            /\ extractor.nearerEnd content e0 q
                               = Index content q + len q))).
    { unfold extractor.nearerEnd.
      destruct (Index content q =? -1) eqn:Ei; simpl.
      - apply Z.eqb_eq in Ei. split; [lia|]. split; [congruence | now left].
      - apply Z.eqb_neq in Ei.
        destruct (Index content q + len q <? e0) eqn:Ec.
        + apply Z.ltb_lt in Ec. split; [lia|]. split; [lia | now right].
        + apply Z.ltb_ge in Ec. split; [lia|]. split; [lia | now left]. }
    destruct Hstep as (Hs1 & Hs2 & Hs3).
    split; [lia|]. split.
    + intros p [<- | Hin] Hp; [specialize (Hs2 Hp); lia | now apply Hall].
    + destruct Hone as [He | (p & Hin & Hp & He)].
      * destruct Hs3 as [Hs3 | [Hq Hs3]].
        -- left. congruence.
        -- right. exists q. split; [now left|]. split; [exact Hq|]. congruence.
      * right. exists p. split; [now right|]. now split.
Qed.

(** An occurrence of [q] makes [Index] succeed, at or before it. *)
Lemma Index_of_occurrence (s q : string) (j : nat) :
  occursAt s q j -> Index s q <> -1 /\ Index s q <= Z.of_nat j.
Proof.
  intros Hocc. unfold Index.
  destruct (firstIndex s q) as [i|] eqn:Hi.
  - pose proof (firstIndex_least _ _ _ _ Hi Hocc). lia.
  - exfalso. exact (firstIndex_none _ _ j Hi Hocc).
Qed.

(** What [extractXMLFromPosition] returns when it returns a slice. *)
Lemma extractXMLFromPosition_Some (data : string) (startPos : Z)
    (xml : string) :
  extractor.extractXMLFromPosition data startPos = Some xml ->
  0 <= startPos < len data
  /\ exists pattern i,
       In pattern extractor.endPatterns
       /\ occursAt (sliceFrom data (Z.to_nat startPos)) pattern i
       /\ xml = sliceTo (sliceFrom data (Z.to_nat startPos))
                  (i + String.length pattern)
       /\ (i + String.length pattern
           < String.length (sliceFrom data (Z.to_nat startPos)))%nat
       /\ forall q j,
            In q extractor.endPatterns ->
            occursAt (sliceFrom data (Z.to_nat startPos)) q j ->
            (i + String.length pattern <= j + String.length q)%nat.
Proof.
  unfold extractor.extractXMLFromPosition.
  destruct ((startPos <? 0) || (len data <=? startPos)) eqn:Eg;
    [discriminate|].
  apply orb_false_iff in Eg as [Eg1 Eg2].
  apply Z.ltb_ge in Eg1. apply Z.leb_gt in Eg2.
  set (content := sliceFrom data (Z.to_nat startPos)).
  pose proof (nearerEnd_fold content extractor.endPatterns (len content))
    as (Hle & Hall & Hone).
  set (endPos := fold_left (extractor.nearerEnd content)
                   extractor.endPatterns (len content)) in *.
  destruct (endPos <? len content) eqn:El; [|discriminate].
  apply Z.ltb_lt in El. intros [= <-]. split; [lia|].
  destruct Hone as [He | (p & Hin & Hp & He)]; [lia|].
  destruct (Index_found _ _ Hp) as (i & Hi & HiZ).
  exists p, i. split; [exact Hin|].
  split; [now apply firstIndex_occurs|].
  assert (HendNat : Z.to_nat endPos = (i + String.length p)%nat).
  { rewrite He, HiZ. unfold len. lia. }
  split; [now rewrite HendNat|].
  split; [unfold len in *; lia|].
  intros q j Hq Hocc.
  destruct (Index_of_occurrence _ _ _ Hocc) as [Hne Hlt].
  specialize (Hall q Hq Hne). unfold len in *. lia.
Qed.

(** A closing tag that ends before the end of the data yields a slice. *)
Lemma extractXMLFromPosition_exists (data : string) (startPos : Z)
    (q : string) (j : nat) :
  0 <= startPos < len data ->
  In q extractor.endPatterns ->
  occursAt (sliceFrom data (Z.to_nat startPos)) q j ->
  (j + String.length q
   < String.length (sliceFrom data (Z.to_nat startPos)))%nat ->
  exists xml, extractor.extractXMLFromPosition data startPos = Some xml.
Proof.
  intros Hpos Hq Hocc Hlt. unfold extractor.extractXMLFromPosition.
  replace ((startPos <? 0) || (len data <=? startPos)) with false.
  2:{ symmetry. apply orb_false_iff. split;
      [apply Z.ltb_ge | apply Z.leb_gt]; lia. }
  set (content := sliceFrom data (Z.to_nat startPos)) in *.
  pose proof (nearerEnd_fold content extractor.endPatterns (len content))
    as (Hle & Hall & _).
  destruct (Index_of_occurrence _ _ _ Hocc) as [Hne Hi].
  specialize (Hall q Hq Hne).
  set (endPos := fold_left (extractor.nearerEnd content)
                   extractor.endPatterns (len content)) in *.
  replace (endPos <? len content) with true; [eauto|].
  symmetry. apply Z.ltb_lt. unfold len in *. lia.
Qed.

End ManualScanFacts.

Section ManualMapFacts.
Context `{UnicodeTables}.
Import GoStrings.

(** A slice kept by [manualSlice] was cut at the first occurrence of the
    start pattern and passes the sniff. *)
Lemma manualSlice_Some (z : extractor.ZUGFeRDExtractor)
    (data pattern slice : string) :
  extractor.manualSlice z data pattern = Some slice ->
  Index data pattern <> -1
  /\ extractor.extractXMLFromPosition data (Index data pattern) = Some slice
  /\ extractor.isZUGFeRDXML z slice = true.
Proof.
  unfold extractor.manualSlice.
  destruct (Index data pattern =? -1) eqn:Ei; simpl; [discriminate|].
  apply Z.eqb_neq in Ei.
  destruct (extractor.extractXMLFromPosition data (Index data pattern))
    as [xml|]; [|discriminate].
  destruct ((0 <? len xml) && extractor.isZUGFeRDXML z xml) eqn:Ek;
    [|discriminate].
  apply andb_true_iff in Ek as [_ Ek]. intros [= <-]. now repeat split.
Qed.

(** Every entry of the map built by the start-pattern loop was either
    there before or is a slice kept for one of the patterns. *)
Lemma manualStep_fold_lookup (z : extractor.ZUGFeRDExtractor) (data : string)
    (patterns : list string) (m0 : gmap string string)
    (name slice : string) :
  fold_left (extractor.manualStep z data) patterns m0 !! name = Some slice ->
  m0 !! name = Some slice
  \/ exists pattern, In pattern patterns
       /\ extractor.manualSlice z data pattern = Some slice.
Proof.
  revert m0. induction patterns as [|p patterns IH]; intros m0 Hl; simpl in Hl.
  - now left.
  - apply IH in Hl as [Hl | (q & Hq & Hs)].
    + unfold extractor.manualStep in Hl.
      destruct (extractor.manualSlice z data p) as [xml|] eqn:Hp.
      * rewrite lookup_insert in Hl. case_decide.
        -- injection Hl as <-. right. exists p. split; [now left | exact Hp].
        -- now left.
      * now left.
    + right. exists q. split; [now right | exact Hs].
Qed.

End ManualMapFacts.

(** ** Discovery *)

Section DiscoveryFacts.
Context `{UnicodeTables}.
Import GoStrings.

(** A visiting order of a map holds exactly the entries of the map. *)
Lemma visited_lookup (m : gmap string string)
    (visited : list (string * string)) (name data : string) :
  visited ≡ₚ map_to_list m ->
  In (name, data) visited <-> m !! name = Some data.
Proof.
  intros Hperm. rewrite <- list_elem_of_In, Hperm.
  apply elem_of_map_to_list.
Qed.

Lemma findByKnownName_Some (z : extractor.ZUGFeRDExtractor)
    (m : gmap string string) (names : list string) (data name : string) :
  extractor.findByKnownName z m names = Some (data, name) ->
  In name names /\ m !! name = Some data
  /\ extractor.isZUGFeRDXML z data = true.
Proof.
  induction names as [|k names IH]; simpl; [discriminate|].
  destruct (m !! k) as [d|] eqn:Hk.
  - destruct (extractor.isZUGFeRDXML z d) eqn:Hd.
    + intros [= <- <-]. auto.
    + intros Hf. destruct (IH Hf) as (? & ? & ?). auto.
  - intros Hf. destruct (IH Hf) as (? & ? & ?). auto.
Qed.

Lemma findByKnownName_None (z : extractor.ZUGFeRDExtractor)
    (m : gmap string string) (names : list string) :
  extractor.findByKnownName z m names = None
  <-> forall name data, In name names -> m !! name = Some data ->
        extractor.isZUGFeRDXML z data = false.
Proof.
  induction names as [|k names IH]; simpl.
  - split; [intros _ ? ? [] | reflexivity].
  - destruct (m !! k) as [d|] eqn:Hk.
    + destruct (extractor.isZUGFeRDXML z d) eqn:Hd.
      * split; [discriminate|]. intros Hall.
        specialize (Hall k d (or_introl eq_refl) Hk). congruence.
      * rewrite IH. split.
        -- intros Hall n d' [<- | Hin] Hn; [congruence | eauto].
        -- intros Hall n d' Hin Hn. eauto.
    + rewrite IH. split.
      * intros Hall n d' [<- | Hin] Hn; [congruence | eauto].
      * intros Hall n d' Hin Hn. eauto.
Qed.

(** The first loop returns the first listed name that is present with
    passing content. *)
Lemma findByKnownName_first (z : extractor.ZUGFeRDExtractor)
    (m : gmap string string) (before after : list string)
    (name data : string) :
  m !! name = Some data ->
  extractor.isZUGFeRDXML z data = true ->
  (forall n d, In n before -> m !! n = Some d ->
               extractor.isZUGFeRDXML z d = false) ->
  extractor.findByKnownName z m (before ++ name :: after)
  = Some (data, name).
Proof.
  intros Hname Hdata. induction before as [|k before IH]; intros Hbefore.
  - simpl. now rewrite Hname, Hdata.
  - simpl. destruct (m !! k) as [d|] eqn:Hk.
    + rewrite (Hbefore k d (or_introl eq_refl) Hk).
      apply IH. intros n d' Hin. apply Hbefore. now right.
    + apply IH. intros n d' Hin. apply Hbefore. now right.
Qed.

Lemma findByContent_Some (z : extractor.ZUGFeRDExtractor)
    (visited : list (string * string)) (data name : string) :
  extractor.findByContent z visited = Some (data, name) ->
  In (name, data) visited
  /\ HasSuffix (ToLower name) ".xml" = true
  /\ extractor.isZUGFeRDXML z data = true.
Proof.
  induction visited as [|[n d] visited IH]; simpl; [discriminate|].
  destruct (HasSuffix (ToLower n) ".xml") eqn:Hs.
  - destruct (extractor.isZUGFeRDXML z d) eqn:Hd.
    + intros [= <- <-]. auto.
    + intros Hf. destruct (IH Hf) as (? & ? & ?). auto.
  - intros Hf. destruct (IH Hf) as (? & ? & ?). auto.
Qed.

Lemma findByContent_None (z : extractor.ZUGFeRDExtractor)
    (visited : list (string * string)) :
  extractor.findByContent z visited = None
  <-> forall name data, In (name, data) visited ->
        HasSuffix (ToLower name) ".xml" = true ->
        extractor.isZUGFeRDXML z data = false.
Proof.
  induction visited as [|[n d] visited IH]; simpl.
  - split; [intros _ ? ? [] | reflexivity].
  - destruct (HasSuffix (ToLower n) ".xml") eqn:Hs.
    + destruct (extractor.isZUGFeRDXML z d) eqn:Hd.
      * split; [discriminate|]. intros Hall.
        specialize (Hall n d (or_introl eq_refl) Hs). congruence.
      * rewrite IH. split.
        -- intros Hall n' d' [[= <- <-] | Hin] Hn; [exact Hd | eauto].
        -- intros Hall n' d' Hin Hn. eauto.
    + rewrite IH. split.
      * intros Hall n' d' [[= <- <-] | Hin] Hn; [congruence | eauto].
      * intros Hall n' d' Hin Hn. eauto.
Qed.

(** The second loop returns the first visited entry whose name ends in
    [.xml] and whose content passes. *)
Lemma findByContent_first (z : extractor.ZUGFeRDExtractor)
    (before after : list (string * string)) (name data : string) :
  HasSuffix (ToLower name) ".xml" = true ->
  extractor.isZUGFeRDXML z data = true ->
  (forall n d, In (n, d) before -> HasSuffix (ToLower n) ".xml" = true ->
               extractor.isZUGFeRDXML z d = false) ->
  extractor.findByContent z (before ++ (name, data) :: after)
  = Some (data, name).
Proof.
  intros Hname Hdata. induction before as [|[k d] before IH]; intros Hbefore.
  - simpl. now rewrite Hname, Hdata.
  - simpl. destruct (HasSuffix (ToLower k) ".xml") eqn:Hs.
    + rewrite (Hbefore k d (or_introl eq_refl) Hs).
      apply IH. intros n d' Hin. apply Hbefore. now right.
    + apply IH. intros n d' Hin. apply Hbefore. now right.
Qed.

(** Whether the second loop finds something does not depend on the
    visiting order. *)
Lemma findByContent_None_order (z : extractor.ZUGFeRDExtractor)
    (m : gmap string string) (v1 v2 : list (string * string)) :
  v1 ≡ₚ map_to_list m -> v2 ≡ₚ map_to_list m ->
  extractor.findByContent z v1 = None ->
  extractor.findByContent z v2 = None.
Proof.
  intros H1 H2. rewrite !findByContent_None. intros Hall n d Hin.
  apply Hall. apply (visited_lookup m v1 n d H1).
  now apply (visited_lookup m v2 n d H2).
Qed.

(** The names listed by the failure are the names of the map. *)
Lemma listed_names (m : gmap string string)
    (listed : list (string * string)) (name : string) :
  listed ≡ₚ map_to_list m ->
  In name (map fst listed) <-> is_Some (m !! name).
Proof.
  intros Hperm. rewrite in_map_iff. split.
  - intros ([n d] & <- & Hin). exists d.
    now apply (visited_lookup m listed n d Hperm).
  - intros [d Hd]. exists (name, d). split; [reflexivity|].
    now apply (visited_lookup m listed name d Hperm).
Qed.

End DiscoveryFacts.

(** C1 -- discovery.  Whatever the orders in which the runtime visits the
    map: (1) the canonical names are tried in the order of the list
    (ZUGFeRD-invoice.xml, zugferd-invoice.xml, factur-x.xml, xrechnung.xml,
    cii.xml) and the first one present with passing content is returned; (2) in particular, with
    passing content under both [zugferd-invoice.xml] and [cii.xml] (and none
    under the one name listed before them) the answer is
    [zugferd-invoice.xml]; (3) only when no canonical name matches, the
    first visited attachment whose lower-cased name ends in [.xml] and whose
    content passes is returned; (4) when nothing matches, the call fails
    with an error that lists the names of all attachments. *)
Theorem discovery_spec `{UnicodeTables}
    (z : extractor.ZUGFeRDExtractor) (m : gmap string string)
    (visited listed : list (string * string)) :
  visited ≡ₚ map_to_list m ->
  listed ≡ₚ map_to_list m ->
  extractor.KnownXMLFilenames
  = [ "ZUGFeRD-invoice.xml"; "zugferd-invoice.xml"; "factur-x.xml";
      "xrechnung.xml"; "cii.xml" ]
  /\ (forall before name after data,
      extractor.KnownXMLFilenames = before ++ name :: after ->
      m !! name = Some data ->
      extractor.isZUGFeRDXML z data = true ->
      (forall n d, In n before -> m !! n = Some d ->
                   extractor.isZUGFeRDXML z d = false) ->
      extractor.findZUGFeRDXML z m visited listed = inr (data, name))
  /\ (forall d1 d2,
        m !! "zugferd-invoice.xml" = Some d1 ->
        extractor.isZUGFeRDXML z d1 = true ->
        m !! "cii.xml" = Some d2 ->
        extractor.isZUGFeRDXML z d2 = true ->
        (forall d0, m !! "ZUGFeRD-invoice.xml" = Some d0 ->
                    extractor.isZUGFeRDXML z d0 = false) ->
        extractor.findZUGFeRDXML z m visited listed
        = inr (d1, "zugferd-invoice.xml"))
  /\ ((forall n d, In n extractor.KnownXMLFilenames -> m !! n = Some d ->
                   extractor.isZUGFeRDXML z d = false) ->
      forall before name data after,
        visited = before ++ (name, data) :: after ->
        GoStrings.HasSuffix (GoStrings.ToLower name) ".xml" = true ->
        extractor.isZUGFeRDXML z data = true ->
        (forall n d, In (n, d) before ->
                     GoStrings.HasSuffix (GoStrings.ToLower n) ".xml" = true ->
                     extractor.isZUGFeRDXML z d = false) ->
        extractor.findZUGFeRDXML z m visited listed = inr (data, name))
  /\ ((forall n d, In n extractor.KnownXMLFilenames -> m !! n = Some d ->
                   extractor.isZUGFeRDXML z d = false) ->
      (forall n d, m !! n = Some d ->
                   GoStrings.HasSuffix (GoStrings.ToLower n) ".xml" = true ->
                   extractor.isZUGFeRDXML z d = false) ->
      extractor.findZUGFeRDXML z m visited listed
      = inl (extractor.ErrNoZUGFeRDAttachment (map fst listed))
      /\ forall name, In name (map fst listed) <-> is_Some (m !! name)).
Proof.
  intros Hvisited Hlisted.
  assert (Hprio : forall before name after data,
      extractor.KnownXMLFilenames = before ++ name :: after ->
      m !! name = Some data ->
      extractor.isZUGFeRDXML z data = true ->
      (forall n d, In n before -> m !! n = Some d ->
                   extractor.isZUGFeRDXML z d = false) ->
      extractor.findZUGFeRDXML z m visited listed = inr (data, name)).
  { intros before name after data Hk Hname Hdata Hbefore.
    unfold extractor.findZUGFeRDXML. rewrite Hk.
    now rewrite (findByKnownName_first z m before after name data). }
  split; [reflexivity|]. split; [exact Hprio|]. split; [|split].
  - intros d1 d2 Hd1 Hp1 _ _ Hd0.
    apply (Hprio ["ZUGFeRD-invoice.xml"] "zugferd-invoice.xml"
             ["factur-x.xml"; "xrechnung.xml"; "cii.xml"] d1);
      [reflexivity | exact Hd1 | exact Hp1 |].
    intros n d [<- | []] Hn. now apply Hd0.
  - intros Hnone before name data after Hv Hname Hdata Hbefore.
    unfold extractor.findZUGFeRDXML.
    rewrite (proj2 (findByKnownName_None z m _) Hnone), Hv.
    now rewrite (findByContent_first z before after name data).
  - intros Hnone Hnoxml. split; [|intros name; now apply listed_names].
    unfold extractor.findZUGFeRDXML.
    rewrite (proj2 (findByKnownName_None z m _) Hnone).
    replace (extractor.findByContent z visited) with
      (@None (string * string)); [reflexivity|].
    symmetry. apply findByContent_None. intros n d Hin.
    apply Hnoxml. now apply (visited_lookup m visited n d Hvisited).
Qed.

(** The particular case of the claim, on the set with exactly those two
    attachments. *)
Lemma discovery_spec_witness :
  @extractor.findZUGFeRDXML identityTables invoiceExtractor twoCanonical
    (map_to_list twoCanonical) (map_to_list twoCanonical)
  = inr ("<rsm:CrossIndustryInvoice/>", "zugferd-invoice.xml").
Proof.
  apply (proj1 (proj2 (proj2 (@discovery_spec identityTables
                                invoiceExtractor twoCanonical
                                (map_to_list twoCanonical)
                                (map_to_list twoCanonical)
                                (Permutation_refl _) (Permutation_refl _))))
           "<rsm:CrossIndustryInvoice/>" "<rsm:CrossIndustryInvoice/>");
    try reflexivity.
  intros d0 Hd0. vm_compute in Hd0. discriminate Hd0.
Defined.

(** C3, as stated, fails: the attachment set with [a.xml] and [b.xml], both
    with indicator content and neither canonically named, yields [a.xml]
    when the runtime visits [a.xml] first and [b.xml] when it visits
    [b.xml] first. *)
Lemma discovery_depends_on_visiting_order :
  [("a.xml", "zugferd"); ("b.xml", "factur-x")] ≡ₚ map_to_list twoPlain
  /\ [("b.xml", "factur-x"); ("a.xml", "zugferd")] ≡ₚ map_to_list twoPlain
  /\ candidate
       (@extractor.findZUGFeRDXML identityTables invoiceExtractor twoPlain
          [("a.xml", "zugferd"); ("b.xml", "factur-x")]
          [("a.xml", "zugferd"); ("b.xml", "factur-x")])
     = Some ("zugferd", "a.xml")
  /\ candidate
       (@extractor.findZUGFeRDXML identityTables invoiceExtractor twoPlain
          [("b.xml", "factur-x"); ("a.xml", "zugferd")]
          [("b.xml", "factur-x"); ("a.xml", "zugferd")])
     = Some ("factur-x", "b.xml").
Proof.
  assert (Hl : map_to_list twoPlain
               = [("a.xml", "zugferd"); ("b.xml", "factur-x")])
    by (vm_compute; reflexivity).
  rewrite Hl. split; [reflexivity|]. split; [apply perm_swap|].
  split; vm_compute; reflexivity.
Qed.

(** C3, amended -- discovery is deterministic when it is unambiguous.  For
    two invocations on the same attachment set, under any two visiting
    orders: if some canonically named attachment passes the sniff
    predicate, or at most one attachment with a [.xml] name passes it, both
    return the same candidate.  In every case both succeed or both fail,
    and a returned candidate is an attachment of the set that passes the
    sniff predicate under a canonical or a [.xml] name. *)
Theorem discovery_deterministic_when_unambiguous `{UnicodeTables}
    (z : extractor.ZUGFeRDExtractor) (m : gmap string string)
    (v1 l1 v2 l2 : list (string * string)) :
  v1 ≡ₚ map_to_list m ->
  v2 ≡ₚ map_to_list m ->
  (((exists name data, canonicalMatch z m name data)
    \/ (forall n1 d1 n2 d2,
          xmlMatch z m n1 d1 -> xmlMatch z m n2 d2 -> n1 = n2)) ->
   candidate (extractor.findZUGFeRDXML z m v1 l1)
   = candidate (extractor.findZUGFeRDXML z m v2 l2))
  /\ (candidate (extractor.findZUGFeRDXML z m v1 l1) = None
      <-> candidate (extractor.findZUGFeRDXML z m v2 l2) = None)
  /\ (forall data name,
        candidate (extractor.findZUGFeRDXML z m v1 l1) = Some (data, name) ->
        canonicalMatch z m name data \/ xmlMatch z m name data).
Proof.
  intros Hv1 Hv2. unfold extractor.findZUGFeRDXML.
  destruct (extractor.findByKnownName z m extractor.KnownXMLFilenames)
    as [[d n]|] eqn:Hk.
  - simpl. split; [reflexivity|]. split; [tauto|].
    intros data name [= <- <-]. left.
    apply findByKnownName_Some in Hk. exact Hk.
  - destruct (extractor.findByContent z v1) as [[d1 n1]|] eqn:Hc1;
      destruct (extractor.findByContent z v2) as [[d2 n2]|] eqn:Hc2; simpl.
    + split; [|split; [split; discriminate|]].
      * intros [(name & data & Hin & Hname & Hdata) | Huniq].
        -- pose proof (proj1 (findByKnownName_None z m _) Hk
                         name data Hin Hname). congruence.
        -- apply findByContent_Some in Hc1 as (Hi1 & Hs1 & Hp1).
           apply findByContent_Some in Hc2 as (Hi2 & Hs2 & Hp2).
           apply (visited_lookup m v1 n1 d1 Hv1) in Hi1.
           apply (visited_lookup m v2 n2 d2 Hv2) in Hi2.
           assert (n1 = n2) by (apply (Huniq n1 d1 n2 d2); now repeat split).
           subst n2. congruence.
      * intros data name [= <- <-]. right.
        apply findByContent_Some in Hc1 as (Hi1 & Hs1 & Hp1).
        apply (visited_lookup m v1 n1 d1 Hv1) in Hi1. now repeat split.
    + pose proof (findByContent_None_order z m v2 v1 Hv2 Hv1 Hc2).
      congruence.
    + pose proof (findByContent_None_order z m v1 v2 Hv1 Hv2 Hc1).
      congruence.
    + split; [reflexivity|]. split; [tauto | discriminate].
Qed.

(** With a canonical match, visiting the map forwards or backwards makes
    no difference. *)
Lemma discovery_deterministic_when_unambiguous_witness :
  candidate
    (@extractor.findZUGFeRDXML identityTables invoiceExtractor twoCanonical
       (map_to_list twoCanonical) (map_to_list twoCanonical))
  = candidate
      (@extractor.findZUGFeRDXML identityTables invoiceExtractor twoCanonical
         (reverse (map_to_list twoCanonical))
         (reverse (map_to_list twoCanonical))).
Proof.
  apply (proj1 (@discovery_deterministic_when_unambiguous identityTables
                  invoiceExtractor twoCanonical
                  (map_to_list twoCanonical) (map_to_list twoCanonical)
                  (reverse (map_to_list twoCanonical))
                  (reverse (map_to_list twoCanonical))
                  (Permutation_refl _) (reverse_Permutation _))).
  left. exists "cii.xml", "<rsm:CrossIndustryInvoice/>".
  unfold canonicalMatch. split; [simpl; tauto|]. split; reflexivity.
Defined.

(** ** Output path *)

Lemma isStandardXMLFilename_In (z : extractor.ZUGFeRDExtractor)
    (filename : string) :
  extractor.isStandardXMLFilename z filename = true
  <-> In filename extractor.KnownXMLFilenames.
Proof.
  unfold extractor.isStandardXMLFilename.
  induction extractor.KnownXMLFilenames as [|k names IH]; simpl.
  - split; [discriminate | intros []].
  - destruct (String.eqb filename k) eqn:Ek.
    + apply String.eqb_eq in Ek. split; [intros _; now left | reflexivity].
    + apply String.eqb_neq in Ek. rewrite IH. split; [now right|].
      intros [Hk | Hin]; [congruence | exact Hin].
Qed.

(** C8 -- the output path of a single-document extraction.  An explicitly
    configured output path is used verbatim.  Otherwise the path is the
    directory of the container joined with the attachment name when that
    name is canonical, and with the base name of the container, stripped of
    its extension, followed by [.xml] when it is not.  For
    [dir/invoice.pdf] this gives [dir/zugferd-invoice.xml] for the
    attachment [zugferd-invoice.xml] and [dir/invoice.xml] for
    [weird123.xml]. *)
Theorem output_path_spec (z : extractor.ZUGFeRDExtractor)
    (xmlFilename : string) :
  (extractor.OutputPath z <> EmptyString ->
   extractor.generateOutputPath z xmlFilename = extractor.OutputPath z)
  /\ (extractor.OutputPath z = EmptyString ->
      In xmlFilename extractor.KnownXMLFilenames ->
      extractor.generateOutputPath z xmlFilename
      = Filepath.Join [Filepath.Dir (extractor.InputPath z); xmlFilename])
  /\ (extractor.OutputPath z = EmptyString ->
      ~ In xmlFilename extractor.KnownXMLFilenames ->
      extractor.generateOutputPath z xmlFilename
      = Filepath.Join
          [Filepath.Dir (extractor.InputPath z);
           GoStrings.TrimSuffix (Filepath.Base (extractor.InputPath z))
             (Filepath.Ext (extractor.InputPath z)) +:+ ".xml"])
  /\ extractor.generateOutputPath
       (main.newExtractor "dir/invoice.pdf" EmptyString (extractor.Verbose z))
       "zugferd-invoice.xml" = "dir/zugferd-invoice.xml"
  /\ extractor.generateOutputPath
       (main.newExtractor "dir/invoice.pdf" EmptyString (extractor.Verbose z))
       "weird123.xml" = "dir/invoice.xml".
Proof.
  unfold extractor.generateOutputPath.
  split; [|split; [|split; [|split; reflexivity]]].
  - intros Hne. apply String.eqb_neq in Hne. now rewrite Hne.
  - intros -> Hin. simpl negb. cbv iota.
    now rewrite (proj2 (isStandardXMLFilename_In z xmlFilename) Hin).
  - intros -> Hnot. simpl negb. cbv iota.
    destruct (extractor.isStandardXMLFilename z xmlFilename) eqn:Es;
      [|reflexivity].
    apply isStandardXMLFilename_In in Es. contradiction.
Qed.

(** The three cases of the rule on sample inputs. *)
Lemma output_path_spec_witness :
  extractor.generateOutputPath
    (main.newExtractor "dir/invoice.pdf" "out/result.xml" true) "cii.xml"
  = "out/result.xml"
  /\ extractor.generateOutputPath invoiceExtractor "factur-x.xml"
     = "dir/factur-x.xml"
  /\ extractor.generateOutputPath invoiceExtractor "report.xml"
     = "dir/invoice.xml".
Proof.
  split; [|split].
  - apply (proj1 (output_path_spec
                    (main.newExtractor "dir/invoice.pdf" "out/result.xml" true)
                    "cii.xml")).
    discriminate.
  - apply (proj1 (proj2 (output_path_spec invoiceExtractor "factur-x.xml")));
      [reflexivity | simpl; tauto].
  - rewrite (proj1 (proj2 (proj2 (output_path_spec invoiceExtractor
                                     "report.xml")))).
    + reflexivity.
    + reflexivity.
    + simpl. intros Hin.
      repeat (destruct Hin as [Hin | Hin]; [discriminate Hin|]).
      exact Hin.
Defined.

(** ** The strategy chain *)

Section ChainFacts.
Context `{UnicodeTables}.

Lemma lenMap_zero (a : gmap string string) :
  (extractor.lenMap a =? 0) = true <-> a = ∅.
Proof.
  unfold extractor.lenMap. rewrite Z.eqb_eq, <- map_size_empty_iff. lia.
Qed.

(** [extractAttachmentsManual] never returns an empty map without error. *)
Lemma extractAttachmentsManual_nonempty (z : extractor.ZUGFeRDExtractor)
    (w : extractor.World) (a : gmap string string) :
  extractor.extractAttachmentsManual z w = inr a -> a <> ∅.
Proof.
  unfold extractor.extractAttachmentsManual.
  destruct (extractor.rawFile w); try discriminate.
  set (built := fold_left _ _ _).
  destruct (extractor.lenMap built =? 0) eqn:El; [discriminate|].
  intros [= <-] He. apply lenMap_zero in He. congruence.
Qed.

(** An empty attachment map makes [ExtractXML] fail without a further
    attempt. *)
Lemma ExtractXML_result_empty (z : extractor.ZUGFeRDExtractor)
    (w : extractor.World) (tried : list extractor.Strategy) :
  extractor.extractAttachments z w = (tried, inr ∅) ->
  extractor.ExtractXML z w
  = {| extractor.attempted := tried;
       extractor.result := inl extractor.ErrNoEmbeddedFiles |}.
Proof.
  intros He. unfold extractor.ExtractXML. rewrite He.
  now rewrite (proj2 (lenMap_zero ∅) eq_refl).
Qed.

End ChainFacts.

(** C2, as stated, fails: when pdfcpu's default run completes without
    error and leaves no file, [ExtractXML] stops after the Standard
    strategy and fails with the no-embedded-files error, although the
    Relaxed strategy and the Manual scan would each have returned an
    attachment. *)
Lemma empty_standard_result_is_final :
  extractor.extractAttachmentsStandard emptyStandardWorld = inr ∅
  /\ extractor.attempted
       (@extractor.ExtractXML identityTables invoiceExtractor
          emptyStandardWorld)
     = [extractor.Standard]
  /\ extractor.result
       (@extractor.ExtractXML identityTables invoiceExtractor
          emptyStandardWorld)
     = inl extractor.ErrNoEmbeddedFiles
  /\ (exists attachments,
        extractor.extractAttachmentsRelaxed emptyStandardWorld
        = inr attachments
        /\ attachments !! "factur-x.xml" = Some "factur-x")
  /\ (exists attachments,
        @extractor.extractAttachmentsManual identityTables invoiceExtractor
          emptyStandardWorld = inr attachments
        /\ attachments !! "invoice.xml"
           = Some "<rsm:CrossIndustryInvoice>a</CrossIndustryDocument>").
Proof.
  split; [reflexivity|]. split; [reflexivity|]. split; [reflexivity|].
  split; eexists; (split; [reflexivity | vm_compute; reflexivity]).
Qed.

(** C2, amended -- the strategy chain.  [ExtractXML] calls Standard,
    Relaxed and Manual in that order and stops at the first one that
    returns without error.  A strategy that returns an empty attachment
    set without error ends the chain as well: no further strategy is
    called and the extraction fails with the no-embedded-files error.
    Manual itself never returns an empty set without error; when all
    three report an error the extraction fails with the all-methods-failed
    error wrapping Manual's. *)
Theorem strategy_chain_spec `{UnicodeTables}
    (z : extractor.ZUGFeRDExtractor) (w : extractor.World) :
  (forall a,
      extractor.extractAttachmentsStandard w = inr a ->
      extractor.attempted (extractor.ExtractXML z w) = [extractor.Standard]
      /\ (a = ∅ -> extractor.result (extractor.ExtractXML z w)
                   = inl extractor.ErrNoEmbeddedFiles))
  /\ (forall e a,
        extractor.extractAttachmentsStandard w = inl e ->
        extractor.extractAttachmentsRelaxed w = inr a ->
        extractor.attempted (extractor.ExtractXML z w)
        = [extractor.Standard; extractor.Relaxed]
        /\ (a = ∅ -> extractor.result (extractor.ExtractXML z w)
                     = inl extractor.ErrNoEmbeddedFiles))
  /\ (forall e1 e2,
        extractor.extractAttachmentsStandard w = inl e1 ->
        extractor.extractAttachmentsRelaxed w = inl e2 ->
        extractor.attempted (extractor.ExtractXML z w)
        = [extractor.Standard; extractor.Relaxed; extractor.Manual]
        /\ (forall a, extractor.extractAttachmentsManual z w = inr a ->
                      a <> ∅)
        /\ (forall e3, extractor.extractAttachmentsManual z w = inl e3 ->
                       extractor.result (extractor.ExtractXML z w)
                       = inl (extractor.ErrAllMethodsFailed e3))).
Proof.
  split; [|split].
  - intros a Hs.
    assert (Hc : extractor.extractAttachments z w
                 = ([extractor.Standard], inr a))
      by (unfold extractor.extractAttachments; now rewrite Hs).
    split.
    + unfold extractor.ExtractXML. now rewrite Hc.
    + intros ->. now rewrite (ExtractXML_result_empty z w _ Hc).
  - intros e a Hs Hr.
    assert (Hc : extractor.extractAttachments z w
                 = ([extractor.Standard; extractor.Relaxed], inr a))
      by (unfold extractor.extractAttachments; now rewrite Hs, Hr).
    split.
    + unfold extractor.ExtractXML. now rewrite Hc.
    + intros ->. now rewrite (ExtractXML_result_empty z w _ Hc).
  - intros e1 e2 Hs Hr. split; [|split].
    + unfold extractor.ExtractXML, extractor.extractAttachments.
      rewrite Hs, Hr.
      now destruct (extractor.extractAttachmentsManual z w).
    + intros a. apply extractAttachmentsManual_nonempty.
    + intros e3 Hm.
      unfold extractor.ExtractXML, extractor.extractAttachments.
      now rewrite Hs, Hr, Hm.
Qed.

(** A text file exhausts the chain; an empty default run ends it. *)
Lemma strategy_chain_spec_witness :
  extractor.attempted
    (@extractor.ExtractXML identityTables invoiceExtractor textFileWorld)
  = [extractor.Standard; extractor.Relaxed; extractor.Manual]
  /\ extractor.attempted
       (@extractor.ExtractXML identityTables invoiceExtractor
          emptyStandardWorld)
     = [extractor.Standard].
Proof.
  split.
  - apply (proj2 (proj2 (@strategy_chain_spec identityTables invoiceExtractor
                           textFileWorld))
             extractor.ErrPdfcpu extractor.ErrPdfcpuRelaxed);
      reflexivity.
  - apply (proj1 (@strategy_chain_spec identityTables invoiceExtractor
                    emptyStandardWorld) ∅).
    reflexivity.
Defined.

(** * Further properties of the code *)

(** ** ASCII content *)

Section AsciiFacts.
Context `{UnicodeTables}.
Import GoStrings.

Lemma mapBytes_app (f : ascii -> ascii) (a b : string) :
  mapBytes f (a +:+ b) = mapBytes f a +:+ mapBytes f b.
Proof.
  induction a as [|c a IH]; [reflexivity|].
  rewrite app_cons. simpl. now rewrite IH, app_cons.
Qed.

Lemma mapBytes_length (f : ascii -> ascii) (s : string) :
  String.length (mapBytes f s) = String.length s.
Proof. induction s as [|c s IH]; simpl; [reflexivity | now rewrite IH]. Qed.

Lemma allASCII_app (a b : string) :
  allASCII (a +:+ b) = allASCII a && allASCII b.
Proof.
  induction a as [|c a IH]; [reflexivity|].
  rewrite app_cons. simpl. now rewrite IH, andb_assoc.
Qed.

Lemma allASCII_sliceFrom (s : string) (n : nat) :
  allASCII s = true -> allASCII (sliceFrom s n) = true.
Proof.
  revert s. induction n as [|n IH]; intros [|c s] Hs; simpl in *; auto.
  apply andb_true_iff in Hs as [_ Hs]. now apply IH.
Qed.

Lemma allASCII_sliceTo (s : string) (n : nat) :
  allASCII s = true -> allASCII (sliceTo s n) = true.
Proof.
  revert s. induction n as [|n IH]; intros [|c s] Hs; simpl in *; auto.
  apply andb_true_iff in Hs as [Hc Hs]. now rewrite Hc, IH.
Qed.

(** On ASCII-only content [strings.ToLower] never consults the tables. *)
Lemma ToLower_ascii (s : string) :
  allASCII s = true -> ToLower s = mapBytes lowerByte s.
Proof. intros Hs. unfold ToLower. now rewrite Hs. Qed.

Lemma Substring_mapBytes (f : ascii -> ascii) (sub s : string) :
  Substring sub s -> Substring (mapBytes f sub) (mapBytes f s).
Proof.
  intros (before & after & ->).
  exists (mapBytes f before), (mapBytes f after).
  now rewrite !mapBytes_app.
Qed.

Lemma Substring_trans (a b c : string) :
  Substring a b -> Substring b c -> Substring a c.
Proof.
  intros (p1 & q1 & ->) (p2 & q2 & ->).
  exists (p2 +:+ p1), (q1 +:+ q2).
  assert (Hassoc : forall x y w : string, (x +:+ y) +:+ w = x +:+ y +:+ w).
  { intros x y w. induction x as [|d x IH]; [reflexivity|].
    rewrite !app_cons. now rewrite IH. }
  now rewrite !Hassoc.
Qed.

Lemma len_mapBytes (f : ascii -> ascii) (s : string) :
  len (mapBytes f s) = len s.
Proof. unfold len. now rewrite mapBytes_length. Qed.

(** The sniff predicate in terms of the byte-wise lower-casing. *)
Lemma sniff_ascii (z : extractor.ZUGFeRDExtractor) (data : string) :
  allASCII data = true ->
  extractor.isZUGFeRDXML z data = true
  <-> data <> EmptyString
      /\ exists indicator,
           In indicator specIndicators
           /\ Substring indicator (mapBytes lowerByte data).
Proof.
  intros Hd. rewrite isZUGFeRDXML_unfold, sniff_iff.
  now rewrite (ToLower_ascii data Hd).
Qed.

End AsciiFacts.

(** X1 -- the sniff predicate ignores letter case on ASCII content: two
    ASCII-only blobs that are equal once upper-case letters are lowered get
    the same answer, from the extractor and from the validator. *)
Theorem sniff_ignores_ascii_case `{UnicodeTables}
    (z : extractor.ZUGFeRDExtractor) (a b : string) :
  GoStrings.allASCII a = true ->
  GoStrings.allASCII b = true ->
  GoStrings.mapBytes GoStrings.lowerByte a
  = GoStrings.mapBytes GoStrings.lowerByte b ->
  extractor.isZUGFeRDXML z a = extractor.isZUGFeRDXML z b
  /\ validation.IsZUGFeRDXML a = validation.IsZUGFeRDXML b.
Proof.
  intros Ha Hb Hab.
  assert (Hlen : GoStrings.len a = GoStrings.len b).
  { rewrite <- (len_mapBytes GoStrings.lowerByte a), Hab.
    apply len_mapBytes. }
  rewrite !isZUGFeRDXML_unfold, !IsZUGFeRDXML_unfold.
  rewrite (ToLower_ascii a Ha), (ToLower_ascii b Hb), Hab, Hlen.
  split; reflexivity.
Qed.

(** An upper-case and a mixed-case spelling of the same tag. *)
Lemma sniff_ignores_ascii_case_witness :
  @extractor.isZUGFeRDXML identityTables invoiceExtractor "<ZUGFERD/>"
  = @extractor.isZUGFeRDXML identityTables invoiceExtractor "<ZugFeRD/>".
Proof.
  apply (proj1 (@sniff_ignores_ascii_case identityTables invoiceExtractor
                  "<ZUGFERD/>" "<ZugFeRD/>" eq_refl eq_refl eq_refl)).
Defined.

(** X2 -- the sniff predicate is monotone: if an ASCII blob passes, every
    ASCII blob that contains it passes as well; adding bytes before or
    after never turns the answer to false. *)
Theorem sniff_survives_embedding `{UnicodeTables}
    (z : extractor.ZUGFeRDExtractor) (before data after : string) :
  GoStrings.allASCII (before +:+ data +:+ after) = true ->
  extractor.isZUGFeRDXML z data = true ->
  extractor.isZUGFeRDXML z (before +:+ data +:+ after) = true.
Proof.
  intros Hall Hdata.
  assert (Hd : GoStrings.allASCII data = true).
  { rewrite !allASCII_app in Hall.
    apply andb_true_iff in Hall as [_ Hall].
    now apply andb_true_iff in Hall as [Hall _]. }
  apply (sniff_ascii z data Hd) in Hdata as (Hne & ind & Hin & Hsub).
  apply (sniff_ascii z _ Hall). split.
  - intros Heq. apply Hne.
    assert (Hl : String.length (before +:+ data +:+ after) = 0%nat)
      by now rewrite Heq.
    rewrite !app_length in Hl. destruct data; [reflexivity | simpl in Hl; lia].
  - exists ind. split; [exact Hin|].
    apply (Substring_trans _ _ _ Hsub).
    apply Substring_mapBytes. now exists before, after.
Qed.

(** An invoice tag stays recognised inside a PDF wrapper. *)
Lemma sniff_survives_embedding_witness :
  @extractor.isZUGFeRDXML identityTables invoiceExtractor
    ("%PDF-1.7 " +:+ "<rsm:CrossIndustryInvoice>" +:+ " %%EOF") = true.
Proof.
  apply (@sniff_survives_embedding identityTables invoiceExtractor
           "%PDF-1.7 " "<rsm:CrossIndustryInvoice>" " %%EOF");
    reflexivity.
Defined.

(** X3 -- the strict predicate implies the loose one on ASCII content:
    whatever [validateZUGFeRDXML] (or the validator's
    [ValidateZUGFeRDXML]) accepts also passes the sniff predicate. *)
Theorem valid_implies_sniff `{UnicodeTables}
    (z : extractor.ZUGFeRDExtractor) (data : string) :
  GoStrings.allASCII data = true ->
  extractor.validateZUGFeRDXML z data = true ->
  extractor.isZUGFeRDXML z data = true
  /\ validation.IsZUGFeRDXML data = true.
Proof.
  intros Hd Hv.
  assert (Hs : extractor.isZUGFeRDXML z data = true).
  { apply (validate_iff data) in Hv as (Hxml & _ & _ & Hns).
    apply (sniff_ascii z data Hd). split.
    - intros ->. destruct Hxml as (p & q & Hq).
      destruct p; discriminate Hq.
    - destruct Hns as [Hns | Hns].
      + exists "urn:ferd:". split; [simpl; tauto|].
        apply (Substring_mapBytes GoStrings.lowerByte) in Hns. exact Hns.
      + exists "urn:cen.eu:en16931". split; [simpl; tauto|].
        apply (Substring_mapBytes GoStrings.lowerByte) in Hns. exact Hns. }
  split; [exact Hs|].
  now rewrite IsZUGFeRDXML_unfold, <- (isZUGFeRDXML_unfold z).
Qed.

(** A minimal document the strict predicate accepts. *)
Lemma valid_implies_sniff_witness :
  @extractor.isZUGFeRDXML identityTables invoiceExtractor
    "<?xml?><CrossIndustryInvoice xmlns:rsm=urn:cen.eu:en16931/>" = true.
Proof.
  apply (proj1 (@valid_implies_sniff identityTables invoiceExtractor
                  "<?xml?><CrossIndustryInvoice xmlns:rsm=urn:cen.eu:en16931/>"
                  eq_refl eq_refl)).
Defined.

(** ** More on the manual byte scan *)

Section SliceFacts.
Context `{UnicodeTables}.
Import GoStrings.

Lemma sliceTo_prefix (a b : string) :
  sliceTo (a +:+ b) (String.length a) = a.
Proof.
  induction a as [|c a IH]; [reflexivity|].
  rewrite app_cons. simpl. now rewrite IH.
Qed.

Lemma HasPrefix_empty (sub : string) :
  HasPrefix EmptyString sub = true -> sub = EmptyString.
Proof. destruct sub; [reflexivity | discriminate]. Qed.

Lemma app_empty_r (a : string) : a +:+ EmptyString = a.
Proof.
  induction a as [|c a IH]; [reflexivity|]. now rewrite app_cons, IH.
Qed.

(** Cutting right after an occurrence gives the bytes before it followed
    by the occurrence. *)
Lemma sliceTo_occurrence (s sub : string) (i : nat) :
  occursAt s sub i ->
  sliceTo s (i + String.length sub) = sliceTo s i +:+ sub.
Proof.
  unfold occursAt. revert s. induction i as [|i IH]; intros s Hocc.
  - simpl in Hocc. apply HasPrefix_inv in Hocc as [t ->].
    simpl. apply sliceTo_prefix.
  - destruct s as [|c s]; simpl in Hocc.
    + apply HasPrefix_empty in Hocc. subst sub. reflexivity.
    + simpl. rewrite app_cons. f_equal. now apply IH.
Qed.

Lemma HasSuffix_app (a b : string) : HasSuffix (a +:+ b) b = true.
Proof.
  unfold HasSuffix, len. rewrite app_length. apply andb_true_iff. split.
  - apply Z.leb_le. lia.
  - replace (String.length a + String.length b - String.length b)%nat
      with (String.length a) by lia.
    rewrite sliceFrom_app. apply String.eqb_refl.
Qed.

(** Lower-cased, every closing tag holds an indicator. *)
Lemma closing_tag_indicator (closing : string) :
  In closing extractor.endPatterns ->
  exists indicator,
    In indicator specIndicators
    /\ Substring indicator (mapBytes lowerByte closing).
Proof.
  simpl. intros Hin.
  repeat (destruct Hin as [<- | Hin];
          [ (exists "crossindustrydocument";
             split; [simpl; tauto | now apply Contains_Substring])
            || (exists "crossindustryinvoice";
                split; [simpl; tauto | now apply Contains_Substring]) |]).
  contradiction.
Qed.

(** The shape of a slice: not empty, shorter than what remains, ending
    with a closing tag. *)
Lemma extractXMLFromPosition_shape (data : string) (startPos : Z)
    (xml : string) :
  extractor.extractXMLFromPosition data startPos = Some xml ->
  xml <> EmptyString
  /\ (String.length xml
      < String.length (sliceFrom data (Z.to_nat startPos)))%nat
  /\ exists closing,
       In closing extractor.endPatterns /\ HasSuffix xml closing = true.
Proof.
  intros Hx.
  destruct (extractXMLFromPosition_Some _ _ _ Hx)
    as (_ & closing & i & Hin & Hocc & Hxml & Hlt & _).
  assert (Hlen : String.length xml = (i + String.length closing)%nat).
  { rewrite Hxml. apply sliceTo_length. lia. }
  assert (Hne : closing <> EmptyString).
  { simpl in Hin.
    repeat (destruct Hin as [<- | Hin]; [discriminate|]). contradiction. }
  split; [|split].
  - intros ->. destruct closing; [congruence | simpl in Hlen; lia].
  - lia.
  - exists closing. split; [exact Hin|].
    rewrite Hxml, (sliceTo_occurrence _ _ _ Hocc). apply HasSuffix_app.
Qed.

End SliceFacts.

(** X4 -- when [extractXMLFromPosition] returns a slice.  It returns one
    exactly when the start position lies inside the data and some closing
    tag ends strictly before the end of the data; a closing tag that ends
    with the last byte is not enough.  A returned slice is not empty, is
    shorter than the bytes that remain, and ends with one of the four
    closing tags. *)
Theorem extractXMLFromPosition_returns_iff (data : string) (startPos : Z) :
  ((exists xml, extractor.extractXMLFromPosition data startPos = Some xml)
   <-> 0 <= startPos < GoStrings.len data
       /\ exists closing j,
            In closing extractor.endPatterns
            /\ occursAt (GoStrings.sliceFrom data (Z.to_nat startPos))
                 closing j
            /\ (j + String.length closing
                < String.length
                    (GoStrings.sliceFrom data (Z.to_nat startPos)))%nat)
  /\ forall xml,
       extractor.extractXMLFromPosition data startPos = Some xml ->
       xml <> EmptyString
       /\ (String.length xml
           < String.length (GoStrings.sliceFrom data (Z.to_nat startPos)))%nat
       /\ exists closing,
            In closing extractor.endPatterns
            /\ GoStrings.HasSuffix xml closing = true.
Proof.
  split; [split|].
  - intros [xml Hx].
    destruct (extractXMLFromPosition_Some _ _ _ Hx)
      as (Hpos & closing & i & Hin & Hocc & _ & Hlt & _).
    split; [exact Hpos|]. now exists closing, i.
  - intros (Hpos & closing & j & Hin & Hocc & Hlt).
    now apply (extractXMLFromPosition_exists data startPos closing j).
  - intros xml. apply extractXMLFromPosition_shape.
Qed.

(** X5 -- on ASCII-only data the sniff check of the manual scan never
    discards anything: every slice [extractXMLFromPosition] cuts passes the
    sniff predicate (it ends with a closing tag, which holds an indicator),
    so the slice kept for a start marker is the slice cut at its first
    occurrence. *)
Theorem ascii_slice_passes_sniff `{UnicodeTables}
    (z : extractor.ZUGFeRDExtractor) (data : string) :
  GoStrings.allASCII data = true ->
  (forall startPos xml,
      extractor.extractXMLFromPosition data startPos = Some xml ->
      extractor.isZUGFeRDXML z xml = true)
  /\ (forall pattern,
        GoStrings.Index data pattern <> -1 ->
        extractor.manualSlice z data pattern
        = extractor.extractXMLFromPosition data
            (GoStrings.Index data pattern)).
Proof.
  intros Hd.
  assert (Hpass : forall startPos xml,
             extractor.extractXMLFromPosition data startPos = Some xml ->
             extractor.isZUGFeRDXML z xml = true).
  { intros startPos xml Hx.
    destruct (extractXMLFromPosition_Some _ _ _ Hx)
      as (_ & closing & i & Hin & Hocc & Hxml & _ & _).
    rewrite (sliceTo_occurrence _ _ _ Hocc) in Hxml.
    assert (Hax : GoStrings.allASCII xml = true).
    { rewrite Hxml, <- (sliceTo_occurrence _ _ _ Hocc).
      now apply allASCII_sliceTo, allASCII_sliceFrom. }
    apply (sniff_ascii z xml Hax). split.
    - intros ->.
      assert (Hl : String.length
                     (GoStrings.sliceTo
                        (GoStrings.sliceFrom data (Z.to_nat startPos)) i
                      +:+ closing) = 0%nat) by now rewrite <- Hxml.
      rewrite app_length in Hl. simpl in Hin.
      repeat (destruct Hin as [<- | Hin]; [simpl in Hl; lia|]).
      contradiction.
    - destruct (closing_tag_indicator closing Hin) as (ind & Hind & Hsub).
      exists ind. split; [exact Hind|].
      apply (Substring_trans _ _ _ Hsub), Substring_mapBytes.
      exists (GoStrings.sliceTo
                (GoStrings.sliceFrom data (Z.to_nat startPos)) i),
             EmptyString.
      now rewrite app_empty_r. }
  split; [exact Hpass|].
  intros pattern Hidx. unfold extractor.manualSlice.
  replace (GoStrings.Index data pattern =? -1) with false
    by (symmetry; now apply Z.eqb_neq).
  simpl negb. cbv iota.
  destruct (extractor.extractXMLFromPosition data
              (GoStrings.Index data pattern)) as [xml|] eqn:Hx;
    [|reflexivity].
  rewrite (Hpass _ _ Hx).
  destruct (extractXMLFromPosition_shape _ _ _ Hx) as (Hne & _).
  replace (0 <? GoStrings.len xml) with true; [reflexivity|].
  symmetry. apply Z.ltb_lt. unfold GoStrings.len.
  destruct xml; [congruence | simpl; lia].
Qed.

(** The slice of the sample bytes passes without the sniff being run. *)
Lemma ascii_slice_passes_sniff_witness :
  @extractor.isZUGFeRDXML identityTables invoiceExtractor
    "<rsm:CrossIndustryInvoice>a</CrossIndustryDocument>" = true.
Proof.
  apply (proj1 (@ascii_slice_passes_sniff identityTables invoiceExtractor
                  scannedBytes eq_refl) 9).
  reflexivity.
Defined.

Section GuessFacts.
Context `{UnicodeTables}.
Import GoStrings.

Lemma guessXMLFilename_In (data : string) :
  In (extractor.guessXMLFilename data) guessedNames.
Proof.
  unfold extractor.guessXMLFilename, guessedNames.
  repeat match goal with
         | |- context [if ?b then _ else _] => destruct b
         end; simpl; tauto.
Qed.

(** Lower-cased, every synthesized name ends in [.xml]. *)
Lemma guessedNames_xml (name : string) :
  In name guessedNames -> HasSuffix (ToLower name) ".xml" = true.
Proof.
  simpl. intros Hin.
  repeat (destruct Hin as [<- | Hin]; [reflexivity|]). contradiction.
Qed.

(** Lower-cased, every canonical name ends in [.xml]. *)
Lemma KnownXMLFilenames_xml (name : string) :
  In name extractor.KnownXMLFilenames ->
  HasSuffix (ToLower name) ".xml" = true.
Proof.
  simpl. intros Hin.
  repeat (destruct Hin as [<- | Hin]; [reflexivity|]). contradiction.
Qed.

(** A key present before the start-pattern loop is present after it. *)
Lemma manualStep_fold_keeps (z : extractor.ZUGFeRDExtractor) (data : string)
    (patterns : list string) (m0 : gmap string string) (key : string) :
  is_Some (m0 !! key) ->
  is_Some (fold_left (extractor.manualStep z data) patterns m0 !! key).
Proof.
  revert m0. induction patterns as [|p patterns IH]; intros m0 Hk;
    [exact Hk|].
  simpl. apply IH. unfold extractor.manualStep.
  destruct (extractor.manualSlice z data p) as [xml|]; [|exact Hk].
  rewrite lookup_insert. case_decide; [eauto | exact Hk].
Qed.

(** A slice kept for one of the patterns leaves an entry under its
    synthesized name. *)
Lemma manualStep_fold_has (z : extractor.ZUGFeRDExtractor) (data : string)
    (patterns : list string) (m0 : gmap string string)
    (pattern slice : string) :
  In pattern patterns ->
  extractor.manualSlice z data pattern = Some slice ->
  is_Some (fold_left (extractor.manualStep z data) patterns m0
           !! extractor.guessXMLFilename slice).
Proof.
  revert m0. induction patterns as [|p patterns IH]; intros m0 Hin Hs;
    [destruct Hin|].
  simpl. destruct Hin as [-> | Hin]; [|now apply IH].
  apply manualStep_fold_keeps. unfold extractor.manualStep. rewrite Hs.
  rewrite lookup_insert_eq. eauto.
Qed.

(** Every entry added by the loop sits under the name synthesized from its
    own bytes. *)
Lemma manualStep_fold_entry (z : extractor.ZUGFeRDExtractor) (data : string)
    (patterns : list string) (m0 : gmap string string)
    (name slice : string) :
  fold_left (extractor.manualStep z data) patterns m0 !! name = Some slice ->
  m0 !! name = Some slice
  \/ exists pattern, In pattern patterns
       /\ extractor.manualSlice z data pattern = Some slice
       /\ name = extractor.guessXMLFilename slice.
Proof.
  revert m0. induction patterns as [|p patterns IH]; intros m0 Hl; simpl in Hl.
  - now left.
  - apply IH in Hl as [Hl | (q & Hq & Hs & Hn)].
    + unfold extractor.manualStep in Hl.
      destruct (extractor.manualSlice z data p) as [xml|] eqn:Hp.
      * rewrite lookup_insert in Hl. case_decide.
        -- injection Hl as <-. right. exists p.
           split; [now left|]. split; [exact Hp | congruence].
        -- now left.
      * now left.
    + right. exists q. split; [now right|]. now split.
Qed.

(** The loop adds at most one entry per pattern. *)
Lemma manualStep_fold_size (z : extractor.ZUGFeRDExtractor) (data : string)
    (patterns : list string) (m0 : gmap string string) :
  (size (fold_left (extractor.manualStep z data) patterns m0)
   <= size m0 + length patterns)%nat.
Proof.
  revert m0. induction patterns as [|p patterns IH]; intros m0; simpl;
    [lia|].
  specialize (IH (extractor.manualStep z data m0 p)).
  assert (Hstep : (size (extractor.manualStep z data m0 p) <= S (size m0))%nat).
  { unfold extractor.manualStep.
    destruct (extractor.manualSlice z data p) as [xml|]; [|lia].
    rewrite map_size_insert. destruct (m0 !! _); simpl; unfold id; lia. }
  lia.
Qed.

End GuessFacts.

(** X6 -- the names the manual scan synthesizes.  [guessXMLFilename]
    returns one of five names, each ending in [.xml]; the name is a
    canonical one unless it is the fallback [invoice.xml], and the fallback
    is returned exactly when the lower-cased content holds none of
    [xrechnung], [factur-x] and [zugferd]. *)
Theorem guessXMLFilename_spec `{UnicodeTables}
    (z : extractor.ZUGFeRDExtractor) (data : string) :
  In (extractor.guessXMLFilename data) guessedNames
  /\ GoStrings.HasSuffix
       (GoStrings.ToLower (extractor.guessXMLFilename data)) ".xml" = true
  /\ (extractor.isStandardXMLFilename z (extractor.guessXMLFilename data)
      = true
      <-> extractor.guessXMLFilename data <> "invoice.xml")
  /\ (extractor.guessXMLFilename data = "invoice.xml"
      <-> ~ Substring "xrechnung" (GoStrings.ToLower data)
          /\ ~ Substring "factur-x" (GoStrings.ToLower data)
          /\ ~ Substring "zugferd" (GoStrings.ToLower data)).
Proof.
  split; [apply guessXMLFilename_In|].
  split; [apply guessedNames_xml, guessXMLFilename_In|].
  split.
  - pose proof (guessXMLFilename_In data) as Hin. simpl in Hin.
    repeat (destruct Hin as [<- | Hin];
            [split; [intros _; discriminate | reflexivity]|]).
    destruct Hin as [<- | []]. split; [discriminate | congruence].
  - rewrite <- !Contains_Substring. unfold extractor.guessXMLFilename.
    repeat match goal with
           | |- context [if ?b then _ else _] => destruct b
           end;
      (split; [try discriminate; intros _; repeat split; discriminate
              | intros (H1 & H2 & H3); try reflexivity;
                exfalso;
                first [now apply H1 | now apply H2 | now apply H3]]).
Qed.

(** X7 -- what the manual scan returns.  A returned attachment set is never
    empty and has at most three entries; every entry is a slice kept for a
    start marker, stored under the name synthesized from its own bytes.
    The scan returns a set exactly when the file can be read and the slice
    of at least one start marker is kept. *)
Theorem manual_scan_result `{UnicodeTables}
    (z : extractor.ZUGFeRDExtractor) (w : extractor.World) :
  (forall a,
      extractor.extractAttachmentsManual z w = inr a ->
      a <> ∅
      /\ (size a <= 3)%nat
      /\ forall name slice,
           a !! name = Some slice ->
           name = extractor.guessXMLFilename slice
           /\ exists data pattern,
                extractor.rawFile w = extractor.Bytes data
                /\ In pattern extractor.xmlStartPatterns
                /\ extractor.manualSlice z data pattern = Some slice)
  /\ ((exists a, extractor.extractAttachmentsManual z w = inr a)
      <-> exists data pattern slice,
            extractor.rawFile w = extractor.Bytes data
            /\ In pattern extractor.xmlStartPatterns
            /\ extractor.manualSlice z data pattern = Some slice).
Proof.
  unfold extractor.extractAttachmentsManual. split.
  - intros a Ha.
    destruct (extractor.rawFile w) as [| |data]; try discriminate.
    set (built := fold_left (extractor.manualStep z data)
                    extractor.xmlStartPatterns ∅) in *.
    destruct (extractor.lenMap built =? 0) eqn:El; [discriminate|].
    assert (Hb : a = built) by congruence. subst a.
    split; [|split].
    + intros He. apply lenMap_zero in He. congruence.
    + pose proof (manualStep_fold_size z data extractor.xmlStartPatterns ∅)
        as Hs.
      rewrite map_size_empty in Hs. exact Hs.
    + intros name slice Hl. unfold built in Hl.
      apply manualStep_fold_entry in Hl as [Hl | (p & Hp & Hs & Hn)].
      * rewrite lookup_empty in Hl. discriminate.
      * split; [exact Hn|]. now exists data, p.
  - split.
    + intros [a Ha].
      destruct (extractor.rawFile w) as [| |data]; try discriminate.
      set (built := fold_left (extractor.manualStep z data)
                      extractor.xmlStartPatterns ∅) in *.
      destruct (extractor.lenMap built =? 0) eqn:El; [discriminate|].
      assert (Hne : built <> ∅).
      { intros He. apply lenMap_zero in He. congruence. }
      apply map_choose in Hne as (name & slice & Hl). unfold built in Hl.
      apply manualStep_fold_entry in Hl as [Hl | (p & Hp & Hs & _)].
      * rewrite lookup_empty in Hl. discriminate.
      * now exists data, p, slice.
    + intros (data & p & slice & -> & Hp & Hs).
      set (built := fold_left (extractor.manualStep z data)
                      extractor.xmlStartPatterns ∅).
      destruct (extractor.lenMap built =? 0) eqn:El; [|eauto].
      apply lenMap_zero in El.
      pose proof (manualStep_fold_has z data extractor.xmlStartPatterns ∅
                    p slice Hp Hs) as [x Hx].
      fold built in Hx. rewrite El, lookup_empty in Hx. discriminate.
Qed.

(** The scan of the sample bytes returns a set with at most three
    entries. *)
Lemma manual_scan_result_witness :
  exists a,
    @extractor.extractAttachmentsManual identityTables invoiceExtractor
      manualOnlyWorld = inr a
    /\ (size a <= 3)%nat.
Proof.
  eexists. split; [reflexivity|].
  apply (proj1 (@manual_scan_result identityTables invoiceExtractor
                  manualOnlyWorld) _ eq_refl).
Defined.

(** X8 -- the manual scan and discovery compose: on an attachment set the
    manual scan returned, [findZUGFeRDXML] always finds a candidate, in
    whatever order the map is visited, and the candidate is an entry of
    the set. *)
Theorem manual_result_is_discoverable `{UnicodeTables}
    (z : extractor.ZUGFeRDExtractor) (w : extractor.World)
    (a : gmap string string) (visited listed : list (string * string)) :
  extractor.extractAttachmentsManual z w = inr a ->
  visited ≡ₚ map_to_list a ->
  exists data name,
    extractor.findZUGFeRDXML z a visited listed = inr (data, name)
    /\ a !! name = Some data.
Proof.
  intros Ha Hv. unfold extractor.findZUGFeRDXML.
  destruct (extractor.findByKnownName z a extractor.KnownXMLFilenames)
    as [[d n]|] eqn:Hk.
  - exists d, n. split; [reflexivity|].
    now apply findByKnownName_Some in Hk.
  - destruct (extractor.findByContent z visited) as [[d n]|] eqn:Hc.
    + exists d, n. split; [reflexivity|].
      apply findByContent_Some in Hc as (Hin & _ & _).
      now apply (visited_lookup a visited n d Hv).
    + exfalso.
      assert (Hne : a <> ∅)
        by exact (extractAttachmentsManual_nonempty z w a Ha).
      apply map_choose in Hne as (name & slice & Hl).
      pose proof (proj1 (findByContent_None z visited) Hc name slice
                    (proj2 (visited_lookup a visited name slice Hv) Hl))
        as Hfail.
      unfold extractor.extractAttachmentsManual in Ha.
      destruct (extractor.rawFile w) as [| |bytes]; try discriminate.
      set (built := fold_left (extractor.manualStep z bytes)
                      extractor.xmlStartPatterns ∅) in *.
      destruct (extractor.lenMap built =? 0); [discriminate|].
      assert (Hb : a = built) by congruence. rewrite Hb in Hl.
      unfold built in Hl.
      apply manualStep_fold_entry in Hl as [Hl | (p & Hp & Hs & Hn)].
      * rewrite lookup_empty in Hl. discriminate.
      * apply manualSlice_Some in Hs as (_ & _ & Hpass).
        rewrite Hfail in Hpass; [discriminate|].
        rewrite Hn. apply guessedNames_xml, guessXMLFilename_In.
Qed.

(** Discovery on the scan of the sample bytes. *)
Lemma manual_result_is_discoverable_witness :
  exists a data name,
    @extractor.extractAttachmentsManual identityTables invoiceExtractor
      manualOnlyWorld = inr a
    /\ @extractor.findZUGFeRDXML identityTables invoiceExtractor a
         (map_to_list a) (map_to_list a) = inr (data, name)
    /\ a !! name = Some data.
Proof.
  destruct (@extractor.extractAttachmentsManual identityTables
              invoiceExtractor manualOnlyWorld) as [e|a] eqn:Ha.
  - vm_compute in Ha. discriminate Ha.
  - destruct (@manual_result_is_discoverable identityTables invoiceExtractor
                manualOnlyWorld a (map_to_list a) (map_to_list a)
                Ha (Permutation_refl _)) as (data & name & Hf & Hl).
    exists a, data, name. split; [reflexivity|]. split; [exact Hf | exact Hl].
Defined.

(** ** Reading the scratch directory *)

Section ReadFacts.

(** [readExtractedFiles] on a directory that can be listed is the fold of
    [readStep] over its entries. *)
Lemma readExtractedFiles_fold (files : list extractor.DirEntry) :
  extractor.readExtractedFiles (extractor.Entries files)
  = inr (fold_left readStep files ∅).
Proof. reflexivity. Qed.

Lemma read_fold_entry (files : list extractor.DirEntry)
    (m0 : gmap string string) (name data : string) :
  fold_left readStep files m0 !! name = Some data ->
  m0 !! name = Some data
  \/ exists file, In file files
       /\ extractor.Name file = name
       /\ extractor.IsDir file = false
       /\ extractor.ReadFile file = Some data.
Proof.
  revert m0. induction files as [|f files IH]; intros m0 Hl; simpl in Hl.
  - now left.
  - apply IH in Hl as [Hl | (g & Hg & Hrest)].
    + unfold readStep in Hl.
      destruct (extractor.IsDir f) eqn:Hd; [now left|].
      destruct (extractor.ReadFile f) as [d|] eqn:Hr; [|now left].
      rewrite lookup_insert in Hl. case_decide.
      * injection Hl as <-. right. exists f. split; [now left|]. auto.
      * now left.
    + right. exists g. split; [now right | exact Hrest].
Qed.

Lemma read_fold_other (files : list extractor.DirEntry)
    (m0 : gmap string string) (name : string) :
  ~ In name (map extractor.Name files) ->
  fold_left readStep files m0 !! name = m0 !! name.
Proof.
  revert m0. induction files as [|f files IH]; intros m0 Hn; [reflexivity|].
  simpl in *. rewrite IH by tauto. unfold readStep.
  destruct (extractor.IsDir f); [reflexivity|].
  destruct (extractor.ReadFile f); [|reflexivity].
  apply lookup_insert_ne. tauto.
Qed.

Lemma read_fold_complete (files : list extractor.DirEntry)
    (m0 : gmap string string) (file : extractor.DirEntry) (data : string) :
  List.NoDup (map extractor.Name files) ->
  In file files ->
  extractor.IsDir file = false ->
  extractor.ReadFile file = Some data ->
  fold_left readStep files m0 !! extractor.Name file = Some data.
Proof.
  revert m0. induction files as [|f files IH]; intros m0 Hnd Hin Hd Hr;
    [destruct Hin|].
  simpl in Hnd. inversion Hnd as [|? ? Hnot Hnd']; subst.
  destruct Hin as [-> | Hin].
  - simpl. rewrite read_fold_other by exact Hnot.
    unfold readStep. rewrite Hd, Hr. apply lookup_insert_eq.
  - simpl. now apply IH.
Qed.

Lemma read_fold_size (files : list extractor.DirEntry)
    (m0 : gmap string string) :
  (size (fold_left readStep files m0) <= size m0 + length files)%nat.
Proof.
  revert m0. induction files as [|f files IH]; intros m0; simpl; [lia|].
  specialize (IH (readStep m0 f)).
  assert (Hstep : (size (readStep m0 f) <= S (size m0))%nat).
  { unfold readStep. destruct (extractor.IsDir f); [lia|].
    destruct (extractor.ReadFile f); [|lia].
    rewrite map_size_insert. destruct (m0 !! _); simpl; unfold id; lia. }
  lia.
Qed.

End ReadFacts.

(** X9 -- what [readExtractedFiles] keeps.  When the directory can be
    listed the call succeeds; every attachment it returns is the content of
    a readable entry of that name that is not a directory, so directories
    and unreadable files are left out without an error; and, entry names
    being distinct, every readable regular file is returned under its name
    with its content. *)
Theorem readExtractedFiles_spec (files : list extractor.DirEntry) :
  exists a,
    extractor.readExtractedFiles (extractor.Entries files) = inr a
    /\ (forall name data,
          a !! name = Some data ->
          exists file, In file files
            /\ extractor.Name file = name
            /\ extractor.IsDir file = false
            /\ extractor.ReadFile file = Some data)
    /\ (List.NoDup (map extractor.Name files) ->
        forall file data,
          In file files ->
          extractor.IsDir file = false ->
          extractor.ReadFile file = Some data ->
          a !! extractor.Name file = Some data)
    /\ (size a <= length files)%nat.
Proof.
  exists (fold_left readStep files ∅).
  split; [apply readExtractedFiles_fold|]. split; [|split].
  - intros name data Hl. apply read_fold_entry in Hl as [Hl | Hl];
      [rewrite lookup_empty in Hl; discriminate | exact Hl].
  - intros Hnd file data. now apply read_fold_complete.
  - pose proof (read_fold_size files ∅) as Hs.
    rewrite map_size_empty in Hs. exact Hs.
Qed.

(** A directory with a subdirectory, an unreadable file and two readable
    files yields the two readable files. *)
Lemma readExtractedFiles_spec_witness :
  exists a,
    extractor.readExtractedFiles (extractor.Entries mixedEntries) = inr a
    /\ a !! "factur-x.xml" = Some "factur-x"
    /\ a !! "logo.png" = Some "PNG"
    /\ a !! "sub" = None
    /\ a !! "locked.bin" = None.
Proof.
  destruct (readExtractedFiles_spec mixedEntries)
    as (a & Ha & Hsound & Hcomplete & _).
  exists a. split; [exact Ha|].
  assert (Hnd : List.NoDup (map extractor.Name mixedEntries)).
  { simpl. repeat constructor; simpl; intros Hin;
      repeat (destruct Hin as [Hin | Hin]; [discriminate Hin|]);
      exact Hin. }
  split; [|split; [|split]].
  - apply (Hcomplete Hnd (regularFile "factur-x.xml" "factur-x"));
      [simpl; tauto | reflexivity | reflexivity].
  - apply (Hcomplete Hnd (regularFile "logo.png" "PNG"));
      [simpl; tauto | reflexivity | reflexivity].
  - destruct (a !! "sub") as [d|] eqn:Hl; [|reflexivity].
    destruct (Hsound _ _ Hl) as (f & Hin & Hn & Hd & Hr). simpl in Hin.
    repeat (destruct Hin as [<- | Hin];
            [simpl in Hn, Hd, Hr; discriminate|]).
    destruct Hin.
  - destruct (a !! "locked.bin") as [d|] eqn:Hl; [|reflexivity].
    destruct (Hsound _ _ Hl) as (f & Hin & Hn & Hd & Hr). simpl in Hin.
    repeat (destruct Hin as [<- | Hin];
            [simpl in Hn, Hd, Hr; discriminate|]).
    destruct Hin.
Defined.

(** ** More on discovery and on the single-document extractor *)

Section ExtractFacts.
Context `{UnicodeTables}.
Import GoStrings.

(** A candidate returned by [findZUGFeRDXML] is an entry of the map, with
    a name that ends in [.xml] once lower-cased and content that passes. *)
Lemma findZUGFeRDXML_inr (z : extractor.ZUGFeRDExtractor)
    (m : gmap string string) (visited listed : list (string * string))
    (data name : string) :
  visited ≡ₚ map_to_list m ->
  extractor.findZUGFeRDXML z m visited listed = inr (data, name) ->
  xmlMatch z m name data.
Proof.
  intros Hv. unfold extractor.findZUGFeRDXML, xmlMatch.
  destruct (extractor.findByKnownName z m extractor.KnownXMLFilenames)
    as [[d n]|] eqn:Hk.
  - intros [= <- <-]. apply findByKnownName_Some in Hk as (Hin & Hl & Hp).
    split; [exact Hl|]. split; [now apply KnownXMLFilenames_xml | exact Hp].
  - destruct (extractor.findByContent z visited) as [[d n]|] eqn:Hc;
      [|discriminate].
    intros [= <- <-]. apply findByContent_Some in Hc as (Hin & Hs & Hp).
    split; [now apply (visited_lookup m visited n d Hv) | now split].
Qed.

(** [ExtractXML], stage by stage. *)
Lemma ExtractXML_stages (z : extractor.ZUGFeRDExtractor)
    (w : extractor.World) :
  extractor.attempted (extractor.ExtractXML z w)
  = fst (extractor.extractAttachments z w)
  /\ extractor.result (extractor.ExtractXML z w)
     = match snd (extractor.extractAttachments z w) with
       | inl err => inl err
       | inr attachments =>
           if extractor.lenMap attachments =? 0
           then inl extractor.ErrNoEmbeddedFiles
           else
             match extractor.findZUGFeRDXML z attachments
                     (extractor.rangeCandidates w attachments)
                     (extractor.rangeNames w attachments) with
             | inl err => inl (extractor.ErrXMLNotFound err)
             | inr (data, name) =>
                 match extractor.saveXMLToFile w data
                         (extractor.generateOutputPath z name) with
                 | Some err => inl (extractor.ErrSave err)
                 | None =>
                     inr {| extractor.writtenPath :=
                              extractor.generateOutputPath z name;
                            extractor.xmlFilename := name;
                            extractor.xmlData := data |}
                 end
             end
       end.
Proof.
  unfold extractor.ExtractXML.
  destruct (extractor.extractAttachments z w) as [tried got].
  split; reflexivity.
Qed.

(** What the chain leaves in [err]: nothing, or the wrapped error of the
    manual scan after all three strategies failed. *)
Lemma extractAttachments_inl (z : extractor.ZUGFeRDExtractor)
    (w : extractor.World) (err : extractor.error) :
  snd (extractor.extractAttachments z w) = inl err ->
  exists e1 e2 cause,
    extractor.extractAttachmentsStandard w = inl e1
    /\ extractor.extractAttachmentsRelaxed w = inl e2
    /\ extractor.extractAttachmentsManual z w = inl cause
    /\ err = extractor.ErrAllMethodsFailed cause.
Proof.
  unfold extractor.extractAttachments.
  destruct (extractor.extractAttachmentsStandard w) as [e1|a1];
    [|discriminate].
  destruct (extractor.extractAttachmentsRelaxed w) as [e2|a2];
    [|discriminate].
  destruct (extractor.extractAttachmentsManual z w) as [cause|a3];
    [|discriminate].
  simpl. intros [= <-]. now exists e1, e2, cause.
Qed.

(** The sniff predicate does not read the extractor's fields. *)
Lemma isZUGFeRDXML_any (z z' : extractor.ZUGFeRDExtractor) (data : string) :
  extractor.isZUGFeRDXML z data = extractor.isZUGFeRDXML z' data.
Proof. now rewrite !isZUGFeRDXML_unfold. Qed.

Lemma findByKnownName_any (z z' : extractor.ZUGFeRDExtractor)
    (m : gmap string string) (names : list string) :
  extractor.findByKnownName z m names = extractor.findByKnownName z' m names.
Proof.
  induction names as [|k names IH]; simpl; [reflexivity|].
  destruct (m !! k) as [d|]; [|exact IH].
  now rewrite (isZUGFeRDXML_any z z' d), IH.
Qed.

Lemma findByContent_any (z z' : extractor.ZUGFeRDExtractor)
    (visited : list (string * string)) :
  extractor.findByContent z visited = extractor.findByContent z' visited.
Proof.
  induction visited as [|[n d] visited IH]; simpl; [reflexivity|].
  now rewrite (isZUGFeRDXML_any z z' d), IH.
Qed.

Lemma manualStep_fold_any (z z' : extractor.ZUGFeRDExtractor) (data : string)
    (patterns : list string) (m0 : gmap string string) :
  fold_left (extractor.manualStep z data) patterns m0
  = fold_left (extractor.manualStep z' data) patterns m0.
Proof.
  revert m0. induction patterns as [|p patterns IH]; intros m0;
    [reflexivity|].
  simpl. rewrite IH. f_equal.
  unfold extractor.manualStep, extractor.manualSlice.
  destruct (negb (Index data p =? -1)); [|reflexivity].
  destruct (extractor.extractXMLFromPosition data (Index data p)) as [x|];
    [|reflexivity].
  now rewrite (isZUGFeRDXML_any z z' x).
Qed.

End ExtractFacts.

(** X10 -- when discovery succeeds.  [findZUGFeRDXML] returns a candidate
    exactly when some attachment whose lower-cased name ends in [.xml] has
    content that passes the sniff predicate (every canonical name ends in
    [.xml]); what it returns is always such an attachment, so a file under
    any other name is never selected, whatever its content. *)
Theorem discovery_succeeds_iff `{UnicodeTables}
    (z : extractor.ZUGFeRDExtractor) (m : gmap string string)
    (visited listed : list (string * string)) :
  visited ≡ₚ map_to_list m ->
  ((exists data name,
       extractor.findZUGFeRDXML z m visited listed = inr (data, name))
   <-> exists name data, xmlMatch z m name data)
  /\ forall data name,
       extractor.findZUGFeRDXML z m visited listed = inr (data, name) ->
       xmlMatch z m name data.
Proof.
  intros Hv. split; [split|].
  - intros (data & name & Hf). exists name, data.
    now apply (findZUGFeRDXML_inr z m visited listed).
  - intros (name & data & Hl & Hs & Hp). unfold extractor.findZUGFeRDXML.
    destruct (extractor.findByKnownName z m extractor.KnownXMLFilenames)
      as [[d n]|]; [eauto|].
    destruct (extractor.findByContent z visited) as [[d n]|] eqn:Hc; [eauto|].
    pose proof (proj1 (findByContent_None z visited) Hc name data
                  (proj2 (visited_lookup m visited name data Hv) Hl) Hs).
    congruence.
  - intros data name. now apply findZUGFeRDXML_inr.
Qed.

(** Two attachments under [.xml] names: something is found. *)
Lemma discovery_succeeds_iff_witness :
  exists data name,
    @extractor.findZUGFeRDXML identityTables invoiceExtractor twoPlain
      (map_to_list twoPlain) (map_to_list twoPlain) = inr (data, name).
Proof.
  apply (proj2 (proj1 (@discovery_succeeds_iff identityTables
                         invoiceExtractor twoPlain (map_to_list twoPlain)
                         (map_to_list twoPlain) (Permutation_refl _)))).
  exists "b.xml", "factur-x". unfold xmlMatch.
  split; [reflexivity|]. split; reflexivity.
Defined.

(** X11 -- what a successful extraction wrote.  If [ExtractXML] succeeds,
    the bytes written are, unchanged, the content of the attachment it
    names in the attachment set the strategy chain produced; they pass the
    sniff predicate; the file is at the path [generateOutputPath] derives
    from that name; and the directory creation and the write both went
    through. *)
Theorem ExtractXML_success `{UnicodeTables}
    (z : extractor.ZUGFeRDExtractor) (w : extractor.World)
    (written : extractor.Written) :
  validRange (extractor.rangeCandidates w) ->
  extractor.result (extractor.ExtractXML z w) = inr written ->
  exists attachments,
    snd (extractor.extractAttachments z w) = inr attachments
    /\ attachments !! extractor.xmlFilename written
       = Some (extractor.xmlData written)
    /\ extractor.isZUGFeRDXML z (extractor.xmlData written) = true
    /\ extractor.writtenPath written
       = extractor.generateOutputPath z (extractor.xmlFilename written)
    /\ extractor.mkdirAllOk w
         (Filepath.Dir (extractor.writtenPath written)) = true
    /\ extractor.writeFileOk w (extractor.writtenPath written) = true.
Proof.
  intros Hrange Hres.
  rewrite (proj2 (ExtractXML_stages z w)) in Hres.
  destruct (snd (extractor.extractAttachments z w)) as [e|a]; [discriminate|].
  destruct (extractor.lenMap a =? 0); [discriminate|].
  destruct (extractor.findZUGFeRDXML z a _ _) as [e|[data name]] eqn:Hf;
    [discriminate|].
  apply (findZUGFeRDXML_inr z a _ _ data name (Hrange a))
    in Hf as (Hl & _ & Hp).
  unfold extractor.saveXMLToFile in Hres.
  destruct (extractor.mkdirAllOk w _) eqn:Hm; [|discriminate].
  destruct (extractor.writeFileOk w _) eqn:Hw; [|discriminate].
  simpl in Hres. injection Hres as <-. simpl.
  exists a. now repeat split.
Qed.

(** The extraction of the container with the attachment [weird.xml]. *)
Lemma ExtractXML_success_witness :
  exists attachments,
    snd (@extractor.extractAttachments identityTables invoiceExtractor
           plainNameWorld) = inr attachments
    /\ attachments !! "weird.xml" = Some "zugferd".
Proof.
  destruct (@ExtractXML_success identityTables invoiceExtractor
              plainNameWorld
              {| extractor.writtenPath := "dir/invoice.xml";
                 extractor.xmlFilename := "weird.xml";
                 extractor.xmlData := "zugferd" |}
              (fun a => Permutation_refl _) eq_refl)
    as (a & Ha & Hl & _).
  exists a. split; [exact Ha | exact Hl].
Defined.

(** X12 -- how an extraction can fail.  A failed [ExtractXML] reports one
    of five errors: all-methods-failed, wrapping the error of the manual
    scan, and only after Standard, Relaxed and Manual each returned an
    error (the errors of the first two are dropped); no-embedded-files;
    XML-not-found, wrapping the list of attachment names; or a save error
    wrapping the failed directory creation or the failed write. *)
Theorem ExtractXML_errors `{UnicodeTables}
    (z : extractor.ZUGFeRDExtractor) (w : extractor.World)
    (err : extractor.error) :
  extractor.result (extractor.ExtractXML z w) = inl err ->
  (exists e1 e2 cause,
      err = extractor.ErrAllMethodsFailed cause
      /\ extractor.extractAttachmentsStandard w = inl e1
      /\ extractor.extractAttachmentsRelaxed w = inl e2
      /\ extractor.extractAttachmentsManual z w = inl cause)
  \/ err = extractor.ErrNoEmbeddedFiles
  \/ (exists names,
        err = extractor.ErrXMLNotFound
                (extractor.ErrNoZUGFeRDAttachment names))
  \/ err = extractor.ErrSave extractor.ErrMkdirOutput
  \/ err = extractor.ErrSave extractor.ErrWriteFile.
Proof.
  intros Hres. rewrite (proj2 (ExtractXML_stages z w)) in Hres.
  destruct (snd (extractor.extractAttachments z w)) as [e|a] eqn:Hc.
  - left. injection Hres as <-.
    destruct (extractAttachments_inl z w e Hc) as (e1 & e2 & cause & ?).
    exists e1, e2, cause. tauto.
  - destruct (extractor.lenMap a =? 0);
      [right; left; congruence|].
    unfold extractor.findZUGFeRDXML in Hres.
    destruct (extractor.findByKnownName z a extractor.KnownXMLFilenames)
      as [[d n]|].
    + unfold extractor.saveXMLToFile in Hres.
      destruct (extractor.mkdirAllOk w _);
        [|right; right; right; left; simpl in Hres; congruence].
      destruct (extractor.writeFileOk w _);
        [discriminate | right; right; right; right; simpl in Hres; congruence].
    + destruct (extractor.findByContent z _) as [[d n]|].
      * unfold extractor.saveXMLToFile in Hres.
        destruct (extractor.mkdirAllOk w _);
          [|right; right; right; left; simpl in Hres; congruence].
        destruct (extractor.writeFileOk w _);
          [discriminate
          | right; right; right; right; simpl in Hres; congruence].
      * right; right; left. eexists. injection Hres as <-. reflexivity.
Qed.

(** A text file fails with the wrapped error of the manual scan. *)
Lemma ExtractXML_errors_witness :
  exists e1 e2 cause,
    extractor.ErrAllMethodsFailed extractor.ErrManualNoXML
    = extractor.ErrAllMethodsFailed cause
    /\ extractor.extractAttachmentsStandard textFileWorld = inl e1
    /\ extractor.extractAttachmentsRelaxed textFileWorld = inl e2
    /\ @extractor.extractAttachmentsManual identityTables invoiceExtractor
         textFileWorld = inl cause.
Proof.
  destruct (@ExtractXML_errors identityTables invoiceExtractor textFileWorld
              (extractor.ErrAllMethodsFailed extractor.ErrManualNoXML)
              eq_refl)
    as [Hall | [Hno | [[names Hx] | [Hm | Hw]]]];
    [exact Hall | discriminate Hno | discriminate Hx
    | discriminate Hm | discriminate Hw].
Defined.

(** X13 -- verbosity changes nothing but the output.  With [Verbose] on or
    off, [ExtractXML] calls the same strategies and ends with the same
    result: the same file with the same bytes, or the same error. *)
Theorem ExtractXML_ignores_Verbose `{UnicodeTables}
    (z : extractor.ZUGFeRDExtractor) (w : extractor.World) (verbose : bool) :
  extractor.ExtractXML
    {| extractor.InputPath := extractor.InputPath z;
       extractor.OutputPath := extractor.OutputPath z;
       extractor.Verbose := verbose |} w
  = extractor.ExtractXML z w.
Proof.
  set (z' := {| extractor.InputPath := extractor.InputPath z;
                extractor.OutputPath := extractor.OutputPath z;
                extractor.Verbose := verbose |}).
  assert (Hman : extractor.extractAttachmentsManual z' w
                 = extractor.extractAttachmentsManual z w).
  { unfold extractor.extractAttachmentsManual.
    destruct (extractor.rawFile w); try reflexivity.
    now rewrite (manualStep_fold_any z' z). }
  assert (Hchain : extractor.extractAttachments z' w
                   = extractor.extractAttachments z w).
  { unfold extractor.extractAttachments. now rewrite Hman. }
  assert (Hfind : forall a v l,
             extractor.findZUGFeRDXML z' a v l
             = extractor.findZUGFeRDXML z a v l).
  { intros a v l. unfold extractor.findZUGFeRDXML.
    now rewrite (findByKnownName_any z' z), (findByContent_any z' z). }
  unfold extractor.ExtractXML. rewrite Hchain.
  destruct (extractor.extractAttachments z w) as [tried [e|a]];
    [reflexivity|].
  f_equal. destruct (extractor.lenMap a =? 0); [reflexivity|].
  rewrite Hfind. reflexivity.
Qed.

(** ** The batch processor *)

Section PathFacts.

Lemma app_nonempty (a b : string) : a <> EmptyString -> a +:+ b <> EmptyString.
Proof. destruct a as [|c a]; [congruence|]. rewrite app_cons. discriminate. Qed.

Lemma cleanStep_nonempty (rooted : bool) (out : list string) (e : string) :
  Forall (fun x => x <> EmptyString) out ->
  Forall (fun x => x <> EmptyString) (Filepath.cleanStep rooted out e).
Proof.
  intros Hout. unfold Filepath.cleanStep.
  destruct (String.eqb e EmptyString) eqn:Ee; [exact Hout|].
  apply String.eqb_neq in Ee. simpl orb.
  destruct (String.eqb e "."); [exact Hout|].
  destruct (String.eqb e "..").
  - destruct out as [|top below].
    + destruct rooted; repeat constructor; exact Ee.
    + destruct (String.eqb top "..");
        [constructor; [exact Ee | exact Hout] | now inversion Hout].
  - constructor; [exact Ee | exact Hout].
Qed.

Lemma cleanStep_fold_nonempty (rooted : bool) (es out : list string) :
  Forall (fun x => x <> EmptyString) out ->
  Forall (fun x => x <> EmptyString)
    (fold_left (Filepath.cleanStep rooted) es out).
Proof.
  revert out. induction es as [|e es IH]; intros out Hout; [exact Hout|].
  simpl. apply IH. now apply cleanStep_nonempty.
Qed.

(** [filepath.Clean] never returns the empty string. *)
Lemma Clean_nonempty (path : string) : Filepath.Clean path <> EmptyString.
Proof.
  unfold Filepath.Clean.
  set (rooted := match path with
                 | String c _ => Filepath.IsPathSeparator c
                 | EmptyString => false
                 end).
  pose proof (cleanStep_fold_nonempty rooted (Filepath.elements path) []
                (List.Forall_nil _)) as Hall.
  apply List.Forall_rev in Hall.
  destruct rooted; [now apply app_nonempty|].
  destruct (List.rev _) as [|e es]; [discriminate|].
  inversion Hall as [|? ? He _]; subst. simpl.
  destruct es; [exact He | now apply app_nonempty].
Qed.

(** [filepath.Join] with a non-empty first element is not empty. *)
Lemma Join_nonempty (dir name : string) :
  dir <> EmptyString -> Filepath.Join [dir; name] <> EmptyString.
Proof.
  intros Hd. apply String.eqb_neq in Hd. simpl. rewrite Hd.
  apply Clean_nonempty.
Qed.

End PathFacts.

Section BatchFacts.
Context `{UnicodeTables}.

(** A written file sits where [generateOutputPath] puts it. *)
Lemma ExtractXML_writtenPath (z : extractor.ZUGFeRDExtractor)
    (w : extractor.World) (written : extractor.Written) :
  extractor.result (extractor.ExtractXML z w) = inr written ->
  extractor.writtenPath written
  = extractor.generateOutputPath z (extractor.xmlFilename written).
Proof.
  intros Hres. rewrite (proj2 (ExtractXML_stages z w)) in Hres.
  destruct (snd (extractor.extractAttachments z w)) as [e|a]; [discriminate|].
  destruct (extractor.lenMap a =? 0); [discriminate|].
  destruct (extractor.findZUGFeRDXML z a _ _) as [e|[data name]];
    [discriminate|].
  destruct (extractor.saveXMLToFile w data _); [discriminate|].
  injection Hres as <-. reflexivity.
Qed.

(** The tally loop counts the results without error and those with. *)
Lemma tally_fold_counts (rs : list batch.ProcessResult) (ok ko : Z) :
  fold_left batch.tally rs (ok, ko)
  = (ok + Z.of_nat (length (List.filter succeeded rs)),
     ko + Z.of_nat (length (List.filter (fun r => negb (succeeded r)) rs))).
Proof.
  revert ok ko. induction rs as [|r rs IH]; intros ok ko; cbn [fold_left].
  - simpl. f_equal; lia.
  - assert (Hstep : (succeeded r = true
                     /\ batch.tally (ok, ko) r = (ok + 1, ko))
                    \/ (succeeded r = false
                        /\ batch.tally (ok, ko) r = (ok, ko + 1)))
      by (unfold batch.tally, succeeded; destruct (batch.Error r); auto).
    cbn [List.filter].
    destruct Hstep as [[-> ->] | [-> ->]]; rewrite IH; cbn [negb length];
      f_equal; lia.
Qed.

(** Every result is counted once, as a success or as a failure. *)
Lemma tally_fold (rs : list batch.ProcessResult) (ok ko : Z) :
  fst (fold_left batch.tally rs (ok, ko))
  + snd (fold_left batch.tally rs (ok, ko))
  = ok + ko + Z.of_nat (length rs).
Proof.
  revert ok ko. induction rs as [|r rs IH]; intros ok ko; cbn [fold_left].
  - simpl. lia.
  - assert (Hstep : batch.tally (ok, ko) r = (ok, ko + 1)
                    \/ batch.tally (ok, ko) r = (ok + 1, ko))
      by (unfold batch.tally; destruct (batch.Error r); auto).
    destruct Hstep as [-> | ->]; rewrite IH; simpl length; lia.
Qed.

(** The extraction a worker performs for a path. *)
Lemma workerStep_fst (bp : batch.BatchProcessor) (fs : batch.FileSystem)
    (filename : string) :
  fst (batch.workerStep bp fs filename)
  = extractor.ExtractXML (batch.newExtractor bp filename)
      (batch.container fs filename).
Proof. unfold batch.workerStep. now destruct (extractor.result _). Qed.

(** A result carries no error exactly when its extraction wrote a file. *)
Lemma workerStep_succeeded (bp : batch.BatchProcessor)
    (fs : batch.FileSystem) (filename : string) :
  succeeded (snd (batch.workerStep bp fs filename))
  = wrote (fst (batch.workerStep bp fs filename)).
Proof.
  rewrite workerStep_fst. unfold batch.workerStep, succeeded, wrote.
  now destruct (extractor.result _).
Qed.

(** A worker reports the path it was given. *)
Lemma workerStep_Filename (bp : batch.BatchProcessor) (fs : batch.FileSystem)
    (files : list string) :
  map batch.Filename (map snd (batch.worker bp fs files)) = files.
Proof.
  unfold batch.worker.
  induction files as [|f files IH]; simpl; [reflexivity|].
  rewrite IH. f_equal. unfold batch.workerStep.
  now destruct (extractor.result _).
Qed.

(** The batch when some resolved path has the extension [.pdf]. *)
Lemma ProcessBatch_some (bp : batch.BatchProcessor) (fs : batch.FileSystem)
    (files : list string) :
  batch.Glob fs (batch.InputPattern bp) = Some files ->
  List.filter batch.isPDF files <> [] ->
  batch.queued (batch.ProcessBatch bp fs) = List.filter batch.isPDF files
  /\ batch.err (batch.ProcessBatch bp fs) = None
  /\ batch.workersStarted (batch.ProcessBatch bp fs)
     = Z.max 0 (batch.Workers bp)
  /\ batch.results (batch.ProcessBatch bp fs)
     = map snd (batch.worker bp fs
                  (if 0 <? batch.Workers bp
                   then List.filter batch.isPDF files else []))
  /\ batch.extractions (batch.ProcessBatch bp fs)
     = map fst (batch.worker bp fs
                  (if 0 <? batch.Workers bp
                   then List.filter batch.isPDF files else []))
  /\ batch.successful (batch.ProcessBatch bp fs)
     = Z.of_nat (length (List.filter succeeded
                           (batch.results (batch.ProcessBatch bp fs))))
  /\ batch.failed (batch.ProcessBatch bp fs)
     = Z.of_nat (length (List.filter (fun r => negb (succeeded r))
                           (batch.results (batch.ProcessBatch bp fs)))).
Proof.
  intros Hg Hne. unfold batch.ProcessBatch. rewrite Hg.
  destruct (Z.of_nat (length files) =? 0) eqn:El.
  { apply Z.eqb_eq in El. destruct files; [now elim Hne | simpl in El; lia]. }
  destruct (Z.of_nat (length (List.filter batch.isPDF files)) =? 0) eqn:Ep.
  { apply Z.eqb_eq in Ep.
    destruct (List.filter batch.isPDF files); [congruence | simpl in Ep; lia]. }
  rewrite tally_fold_counts. simpl. now repeat split.
Qed.

(** The batch when no resolved path has the extension [.pdf]. *)
Lemma ProcessBatch_none (bp : batch.BatchProcessor) (fs : batch.FileSystem)
    (files : list string) :
  batch.Glob fs (batch.InputPattern bp) = Some files ->
  List.filter batch.isPDF files = [] ->
  batch.ProcessBatch bp fs
  = batch.aborted (batch.ErrNoPDFFiles (batch.InputPattern bp)).
Proof.
  intros Hg He. unfold batch.ProcessBatch. rewrite Hg, He.
  now destruct (Z.of_nat (length files) =? 0).
Qed.

(** The results of a batch sum up to the paths taken from the queue. *)
Lemma filter_split_length (rs : list batch.ProcessResult) :
  (length (List.filter succeeded rs)
   + length (List.filter (fun r => negb (succeeded r)) rs))%nat
  = length rs.
Proof.
  induction rs as [|r rs IH]; [reflexivity|]. simpl.
  destruct (succeeded r); simpl; lia.
Qed.

(** Every extraction of a batch is the extraction of a queued path by the
    extractor the worker builds for it. *)
Lemma ProcessBatch_extraction (bp : batch.BatchProcessor)
    (fs : batch.FileSystem) (run : extractor.Extraction) :
  In run (batch.extractions (batch.ProcessBatch bp fs)) ->
  exists filename,
    In filename (batch.queued (batch.ProcessBatch bp fs))
    /\ run = extractor.ExtractXML (batch.newExtractor bp filename)
               (batch.container fs filename)
    /\ In (snd (batch.workerStep bp fs filename))
         (batch.results (batch.ProcessBatch bp fs)).
Proof.
  destruct (batch.Glob fs (batch.InputPattern bp)) as [files|] eqn:Hg.
  2:{ unfold batch.ProcessBatch. rewrite Hg. intros []. }
  destruct (List.filter batch.isPDF files) as [|f pdfs] eqn:Hf.
  { rewrite (ProcessBatch_none bp fs files Hg Hf). intros []. }
  assert (Hne : List.filter batch.isPDF files <> []) by (rewrite Hf; easy).
  destruct (ProcessBatch_some bp fs files Hg Hne)
    as (Hq & _ & _ & Hr & He & _).
  rewrite Hq, Hr, He. unfold batch.worker. rewrite !map_map.
  intros Hin. apply in_map_iff in Hin as (filename & <- & Hin).
  exists filename. split.
  - destruct (0 <? batch.Workers bp); [exact Hin | destruct Hin].
  - split; [apply workerStep_fst|].
    apply in_map_iff. now exists filename.
Qed.

(** With an output directory the worker's output path is not empty. *)
Lemma workerOutputPath_set (bp : batch.BatchProcessor) (filename : string) :
  batch.OutputDir bp <> EmptyString ->
  batch.workerOutputPath bp filename
  = Filepath.Join
      [batch.OutputDir bp;
       GoStrings.TrimSuffix (Filepath.Base filename)
         (Filepath.Ext (Filepath.Base filename)) +:+ ".xml"]
  /\ batch.workerOutputPath bp filename <> EmptyString.
Proof.
  intros Hd. unfold batch.workerOutputPath.
  replace (String.eqb (batch.OutputDir bp) EmptyString) with false
    by (symmetry; now apply String.eqb_neq).
  simpl negb. cbv iota. split; [reflexivity|]. now apply Join_nonempty.
Qed.

Lemma workerOutputPath_unset (bp : batch.BatchProcessor) (filename : string) :
  batch.OutputDir bp = EmptyString ->
  batch.workerOutputPath bp filename = EmptyString.
Proof. intros Hd. unfold batch.workerOutputPath. now rewrite Hd. Qed.

End BatchFacts.

(** C4 -- the batch input set.  [ProcessBatch] keeps, in order, the
    resolved paths whose extension, lower-cased, is [.pdf], and only these
    are put on the job queue: a path with another extension, such as
    [c.txt], is neither queued nor among the results, and with at least one
    worker every kept path is processed and counted once.  If no resolved
    path is kept, the batch fails at once: nothing is queued and no worker
    is started.  (Which worker delivers which result first is not fixed;
    the results are the kept paths in some order.) *)
Theorem batch_input_filter `{UnicodeTables}
    (bp : batch.BatchProcessor) (fs : batch.FileSystem)
    (files : list string) :
  batch.Glob fs (batch.InputPattern bp) = Some files ->
  let pdfFiles :=
    List.filter
      (fun file =>
         String.eqb (GoStrings.ToLower (Filepath.Ext file)) ".pdf") files in
  let run := batch.ProcessBatch bp fs in
  (pdfFiles <> [] ->
   batch.queued run = pdfFiles
   /\ batch.err run = None
   /\ (forall file,
         In file (batch.queued run)
         <-> In file files
             /\ GoStrings.ToLower (Filepath.Ext file) = ".pdf")
   /\ (forall file,
         GoStrings.ToLower (Filepath.Ext file) <> ".pdf" ->
         ~ In file (batch.queued run)
         /\ ~ In file (map batch.Filename (batch.results run)))
   /\ (0 < batch.Workers bp ->
       Permutation (map batch.Filename (batch.results run)) pdfFiles
       /\ batch.successful run + batch.failed run
          = Z.of_nat (length pdfFiles)))
  /\ (pdfFiles = [] ->
      batch.err run = Some (batch.ErrNoPDFFiles (batch.InputPattern bp))
      /\ batch.queued run = []
      /\ batch.workersStarted run = 0
      /\ batch.extractions run = []
      /\ batch.results run = []
      /\ batch.successful run = 0
      /\ batch.failed run = 0).
Proof.
  intros Hg pdfFiles run. split.
  - intros Hne.
    destruct (ProcessBatch_some bp fs files Hg Hne)
      as (Hq & He & _ & Hr & _ & Hs & Hf).
    fold run in Hq, He, Hr, Hs, Hf. fold pdfFiles in Hq, Hr.
    assert (Hmem : forall file,
               In file pdfFiles
               <-> In file files
                   /\ GoStrings.ToLower (Filepath.Ext file) = ".pdf").
    { intros file. unfold pdfFiles. rewrite List.filter_In.
      now rewrite String.eqb_eq. }
    assert (Hnames : forall file,
               In file (map batch.Filename (batch.results run)) ->
               In file pdfFiles).
    { intros file. rewrite Hr.
      destruct (0 <? batch.Workers bp).
      - now rewrite workerStep_Filename.
      - intros []. }
    split; [exact Hq|]. split; [exact He|]. split; [|split].
    + intros file. rewrite Hq. apply Hmem.
    + intros file Hext. split.
      * rewrite Hq. intros Hin. apply Hmem in Hin. tauto.
      * intros Hin. apply Hnames, Hmem in Hin. tauto.
    + intros Hw. apply Z.ltb_lt in Hw. rewrite Hw in Hr. split.
      * rewrite Hr, workerStep_Filename. reflexivity.
      * rewrite Hs, Hf, <- Nat2Z.inj_add, filter_split_length.
        rewrite Hr, !length_map. unfold batch.worker.
        now rewrite length_map.
  - intros He. unfold run.
    rewrite (ProcessBatch_none bp fs files Hg He). simpl. now repeat split.
Qed.

(** The batch over [a.pdf] (valid), [b.pdf] (no attachments) and [c.txt]:
    two inputs are queued, one succeeds, one fails; and a pattern that
    matches text files only starts no worker. *)
Lemma batch_input_filter_witness :
  batch.queued
    (@batch.ProcessBatch identityTables
       (main.newBatchProcessor "*" EmptyString false 8
          ["a.pdf"; "b.pdf"; "c.txt"])
       mixedDirectory)
  = ["a.pdf"; "b.pdf"]
  /\ batch.successful
       (@batch.ProcessBatch identityTables
          (main.newBatchProcessor "*" EmptyString false 8
             ["a.pdf"; "b.pdf"; "c.txt"])
          mixedDirectory)
     + batch.failed
         (@batch.ProcessBatch identityTables
            (main.newBatchProcessor "*" EmptyString false 8
               ["a.pdf"; "b.pdf"; "c.txt"])
            mixedDirectory)
     = 2
  /\ ~ In "c.txt"
       (map batch.Filename
          (batch.results
             (@batch.ProcessBatch identityTables
                (main.newBatchProcessor "*" EmptyString false 8
                   ["a.pdf"; "b.pdf"; "c.txt"])
                mixedDirectory)))
  /\ batch.workersStarted
       (@batch.ProcessBatch identityTables
          (main.newBatchProcessor "*.txt" EmptyString false 8
             ["c.txt"; "d.txt"])
          textDirectory)
     = 0.
Proof.
  pose proof (@batch_input_filter identityTables
                (main.newBatchProcessor "*" EmptyString false 8
                   ["a.pdf"; "b.pdf"; "c.txt"])
                mixedDirectory ["a.pdf"; "b.pdf"; "c.txt"] eq_refl)
    as [Hsome _].
  destruct (Hsome ltac:(discriminate)) as (Hq & _ & _ & Hnot & Hcount).
  split; [exact Hq|]. split; [|split].
  - apply (proj2 (Hcount eq_refl)).
  - apply (proj2 (Hnot "c.txt" ltac:(discriminate))).
  - pose proof (@batch_input_filter identityTables
                  (main.newBatchProcessor "*.txt" EmptyString false 8
                     ["c.txt"; "d.txt"])
                  textDirectory ["c.txt"; "d.txt"] eq_refl)
      as [_ Hnone].
    apply (proj1 (proj2 (proj2 (Hnone eq_refl)))).
Defined.

(** C5 -- where a batch writes.  Every successful extraction of a batch is
    the extraction of a queued path by the extractor the worker builds for
    it.  With an output directory configured,
    its file is written at that directory joined with the base name of the
    container, stripped of its extension, followed by [.xml], and this is
    the path the worker reports.  Without one, the extraction is the
    single-document extraction of that path with no explicit output path,
    so the file goes next to the container, under the attachment's name
    when that is canonical and under the container's stem with [.xml]
    otherwise. *)
Theorem batch_output_path_spec `{UnicodeTables}
    (bp : batch.BatchProcessor) (fs : batch.FileSystem)
    (run : extractor.Extraction) (written : extractor.Written) :
  In run (batch.extractions (batch.ProcessBatch bp fs)) ->
  extractor.result run = inr written ->
  exists filename,
    In filename (batch.queued (batch.ProcessBatch bp fs))
    /\ run = extractor.ExtractXML (batch.newExtractor bp filename)
               (batch.container fs filename)
    /\ (batch.OutputDir bp <> EmptyString ->
        extractor.writtenPath written
        = Filepath.Join
            [batch.OutputDir bp;
             GoStrings.TrimSuffix (Filepath.Base filename)
               (Filepath.Ext (Filepath.Base filename)) +:+ ".xml"]
        /\ exists r,
             In r (batch.results (batch.ProcessBatch bp fs))
             /\ batch.Filename r = filename
             /\ batch.OutputPath r = extractor.writtenPath written)
    /\ (batch.OutputDir bp = EmptyString ->
        run = extractor.ExtractXML
                (main.newExtractor filename EmptyString (batch.Verbose bp))
                (batch.container fs filename)
        /\ (In (extractor.xmlFilename written) extractor.KnownXMLFilenames ->
            extractor.writtenPath written
            = Filepath.Join
                [Filepath.Dir filename; extractor.xmlFilename written])
        /\ (~ In (extractor.xmlFilename written)
              extractor.KnownXMLFilenames ->
            extractor.writtenPath written
            = Filepath.Join
                [Filepath.Dir filename;
                 GoStrings.TrimSuffix (Filepath.Base filename)
                   (Filepath.Ext filename) +:+ ".xml"])).
Proof.
  intros Hin Hres.
  destruct (ProcessBatch_extraction bp fs run Hin)
    as (filename & Hq & Hrun & Hr).
  exists filename. split; [exact Hq|]. split; [exact Hrun|].
  rewrite Hrun in Hres.
  pose proof (ExtractXML_writtenPath _ _ _ Hres) as Hpath.
  unfold extractor.generateOutputPath in Hpath. simpl in Hpath.
  split.
  - intros Hd.
    destruct (workerOutputPath_set bp filename Hd) as [Hout Hne].
    apply String.eqb_neq in Hne. rewrite Hne in Hpath. simpl in Hpath.
    split; [now rewrite Hpath|].
    exists (snd (batch.workerStep bp fs filename)).
    split; [exact Hr|]. unfold batch.workerStep. rewrite Hres. simpl.
    split; [reflexivity|]. now rewrite Hne, Hpath.
  - intros Hd. rewrite (workerOutputPath_unset bp filename Hd) in Hpath.
    simpl in Hpath. split; [|split].
    + rewrite Hrun. unfold batch.newExtractor, main.newExtractor.
      now rewrite (workerOutputPath_unset bp filename Hd).
    + intros Hk. rewrite Hpath.
      now rewrite (proj2 (isStandardXMLFilename_In _ _) Hk).
    + intros Hk. rewrite Hpath.
      destruct (extractor.isStandardXMLFilename _ _) eqn:Es; [|reflexivity].
      apply isStandardXMLFilename_In in Es. contradiction.
Qed.

(** [-o out] over [dir/a.pdf] and [dir/b.pdf]: the second invoice, whose
    attachment has the canonical name [factur-x.xml], is written to
    [out/b.xml]. *)
Lemma batch_output_path_spec_witness :
  exists filename,
    In filename ["dir/a.pdf"; "dir/b.pdf"]
    /\ "out/b.xml"
       = Filepath.Join
           ["out";
            GoStrings.TrimSuffix (Filepath.Base filename)
              (Filepath.Ext (Filepath.Base filename)) +:+ ".xml"].
Proof.
  destruct (@batch_output_path_spec identityTables
              (main.newBatchProcessor "dir/*.pdf" "out" false 8
                 ["dir/a.pdf"; "dir/b.pdf"])
              invoiceDirectory
              {| extractor.attempted := [extractor.Standard];
                 extractor.result :=
                   inr {| extractor.writtenPath := "out/b.xml";
                          extractor.xmlFilename := "factur-x.xml";
                          extractor.xmlData := "factur-x" |} |}
              {| extractor.writtenPath := "out/b.xml";
                 extractor.xmlFilename := "factur-x.xml";
                 extractor.xmlData := "factur-x" |}
              ltac:(vm_compute; tauto) eq_refl)
    as (filename & Hq & _ & Hdir & _).
  exists filename. split; [exact Hq|].
  apply (proj1 (Hdir ltac:(discriminate))).
Defined.

(** ** The manual scan at every start-marker position *)

Section ManualTotalFacts.
Import GoStrings.






End ManualTotalFacts.




(** ** Base names and extensions *)

Section BaseExtFacts.
Import GoStrings.

Lemma IsPathSeparator_true (c : ascii) :
  Filepath.IsPathSeparator c = true -> c = "/"%char.
Proof. unfold Filepath.IsPathSeparator. apply Ascii.eqb_eq. Qed.

(** [lastDot] run over the bytes after an offset. *)
Lemma lastDot_shift (n : nat) (s : string) (i : nat) (found : option nat) :
  Filepath.lastDot s (n + i) (option_map (Nat.add n) found)
  = option_map (Nat.add n) (Filepath.lastDot s i found).
Proof.
  revert i found. induction s as [|c s IH]; intros i found; simpl.
  - reflexivity.
  - rewrite <- (IH (S i)). rewrite Nat.add_succ_r. f_equal.
    destruct (Filepath.IsPathSeparator c); [reflexivity|].
    now destruct (Ascii.eqb c ".").
Qed.

Lemma lastDot_app (a s : string) (i : nat) (found : option nat) :
  Filepath.lastDot (a +:+ s) i found
  = Filepath.lastDot s (String.length a + i) (Filepath.lastDot a i found).
Proof.
  revert i found. induction a as [|c a IH]; intros i found.
  - reflexivity.
  - rewrite app_cons. simpl. rewrite IH. now rewrite Nat.add_succ_r.
Qed.

Lemma sliceFrom_add (a b : string) (k : nat) :
  sliceFrom (a +:+ b) (String.length a + k) = sliceFrom b k.
Proof. induction a as [|c a IH]; [reflexivity|]. rewrite app_cons. exact IH. Qed.

(** The extension of a path is that of what follows a separator. *)
Lemma Ext_after_separator (a b : string) :
  Filepath.Ext (a +:+ String "/" b) = Filepath.Ext b.
Proof.
  unfold Filepath.Ext. rewrite lastDot_app. simpl.
  replace (Filepath.lastDot b (S (String.length a + 0)) None)
    with (option_map (Nat.add (S (String.length a)))
            (Filepath.lastDot b 0 None)).
  2:{ rewrite <- lastDot_shift. simpl. now rewrite !Nat.add_0_r. }
  destruct (Filepath.lastDot b 0 None) as [k|]; cbn [option_map];
    [|reflexivity].
  change (String "/" b) with ("/" +:+ b).
  replace (S (String.length a) + k)%nat
    with (String.length a + (String.length "/" + k))%nat by (simpl; lia).
  now rewrite !sliceFrom_add.
Qed.

Lemma lastSeparator_Some (s : string) (i : nat) (found : option nat)
    (j : nat) :
  Filepath.lastSeparator s i found = Some j ->
  found = Some j
  \/ exists a b, s = a +:+ String "/" b /\ j = (i + String.length a)%nat.
Proof.
  revert i found. induction s as [|c s IH]; intros i found Hl; simpl in Hl.
  - now left.
  - destruct (IH _ _ Hl) as [Hf | (a & b & -> & ->)].
    + destruct (Filepath.IsPathSeparator c) eqn:Ec.
      * apply IsPathSeparator_true in Ec as ->. injection Hf as <-.
        right. exists EmptyString, s. split; [reflexivity | simpl; lia].
      * now left.
    + right. exists (String c a), b. rewrite app_cons.
      split; [reflexivity | simpl; lia].
Qed.

(** A path with an extension does not end with a separator. *)
Lemma lastDot_Some_strip (s : string) (i : nat) (found : option nat)
    (k : nat) :
  Filepath.lastDot s i found = Some k ->
  s = EmptyString
  \/ (Filepath.stripTrailingSeparators s = s /\ s <> EmptyString).
Proof.
  revert i found. induction s as [|c s IH]; intros i found Hl.
  - now left.
  - right. simpl in Hl. split; [|discriminate].
    destruct (IH _ _ Hl) as [-> | [Hs Hne]].
    + simpl in Hl |- *.
      destruct (Filepath.IsPathSeparator c); [discriminate | reflexivity].
    + simpl. rewrite Hs. destruct s; [congruence | reflexivity].
Qed.

(** The base name of a path with an extension has the same extension. *)
Lemma Ext_Base (path : string) :
  Filepath.Ext path <> EmptyString ->
  Filepath.Ext (Filepath.Base path) = Filepath.Ext path.
Proof.
  intros Hext.
  assert (Hne : path <> EmptyString) by (intros ->; now apply Hext).
  assert (Hstrip : Filepath.stripTrailingSeparators path = path).
  { unfold Filepath.Ext in Hext.
    destruct (Filepath.lastDot path 0 None) as [k|] eqn:Hl; [|congruence].
    destruct (lastDot_Some_strip _ _ _ _ Hl) as [-> | [Hs _]];
      [congruence | exact Hs]. }
  unfold Filepath.Base.
  replace (path =? EmptyString)%string with false
    by (symmetry; now apply String.eqb_neq).
  rewrite Hstrip.
  destruct (Filepath.lastSeparator path 0 None) as [j|] eqn:Hj.
  - destruct (lastSeparator_Some _ _ _ _ Hj) as [Hf | (a & b & -> & ->)];
      [discriminate|].
    rewrite Ext_after_separator in Hext |- *.
    replace (S (0 + String.length a))
      with (String.length a + String.length "/" + 0)%nat by (simpl; lia).
    change (String "/" b) with ("/" +:+ b).
    rewrite <- Nat.add_assoc, !sliceFrom_add. simpl sliceFrom.
    destruct b as [|c b]; [now elim Hext | reflexivity].
  - replace (path =? EmptyString)%string with false
      by (symmetry; now apply String.eqb_neq).
    reflexivity.
Qed.

(** A path that passes the PDF test has an extension. *)
Lemma isPDF_Ext `{UnicodeTables} (file : string) :
  ToLower (Filepath.Ext file) = ".pdf" -> Filepath.Ext file <> EmptyString.
Proof. intros Hpdf He. rewrite He in Hpdf. discriminate Hpdf. Qed.

End BaseExtFacts.

(** X14 -- the path a worker reports.  A failed extraction is reported
    with its error and no path.  For a successful one the worker reports,
    with an output directory configured, the path the file was written to;
    without one it reports the container's directory joined with the
    container's stem and [.xml], while the file itself was written by the
    default rule: under the attachment's name when that is canonical.  So
    for a PDF path the reported path is the written one whenever the
    attachment's name is not canonical. *)
Theorem worker_reported_path `{UnicodeTables}
    (bp : batch.BatchProcessor) (fs : batch.FileSystem)
    (filename : string) :
  let run := fst (batch.workerStep bp fs filename) in
  let report := snd (batch.workerStep bp fs filename) in
  batch.Filename report = filename
  /\ (forall e,
        extractor.result run = inl e ->
        batch.Error report = Some e
        /\ batch.OutputPath report = EmptyString)
  /\ (forall written,
        extractor.result run = inr written ->
        batch.Error report = None
        /\ (batch.OutputDir bp <> EmptyString ->
            batch.OutputPath report = extractor.writtenPath written)
        /\ (batch.OutputDir bp = EmptyString ->
            batch.OutputPath report
            = Filepath.Join
                [Filepath.Dir filename;
                 GoStrings.TrimSuffix (Filepath.Base filename)
                   (Filepath.Ext (Filepath.Base filename)) +:+ ".xml"]
            /\ (In (extractor.xmlFilename written)
                  extractor.KnownXMLFilenames ->
                extractor.writtenPath written
                = Filepath.Join
                    [Filepath.Dir filename;
                     extractor.xmlFilename written])
            /\ (~ In (extractor.xmlFilename written)
                  extractor.KnownXMLFilenames ->
                extractor.writtenPath written
                = Filepath.Join
                    [Filepath.Dir filename;
                     GoStrings.TrimSuffix (Filepath.Base filename)
                       (Filepath.Ext filename) +:+ ".xml"])
            /\ (~ In (extractor.xmlFilename written)
                  extractor.KnownXMLFilenames ->
                GoStrings.ToLower (Filepath.Ext filename) = ".pdf" ->
                batch.OutputPath report = extractor.writtenPath written))).
Proof.
  intros run report. unfold run, report. rewrite workerStep_fst.
  split; [|split].
  - unfold batch.workerStep. now destruct (extractor.result _).
  - intros e He. unfold batch.workerStep. rewrite He. now split.
  - intros written Hres.
    pose proof (ExtractXML_writtenPath _ _ _ Hres) as Hpath.
    unfold extractor.generateOutputPath in Hpath. simpl in Hpath.
    unfold batch.workerStep. rewrite Hres. simpl.
    split; [reflexivity|]. split.
    + intros Hd.
      destruct (workerOutputPath_set bp filename Hd) as [_ Hne].
      apply String.eqb_neq in Hne. rewrite Hne in Hpath |- *.
      simpl in Hpath. now rewrite Hpath.
    + intros Hd. rewrite (workerOutputPath_unset bp filename Hd) in Hpath |- *.
      simpl in Hpath. simpl.
      assert (Hplain : ~ In (extractor.xmlFilename written)
                         extractor.KnownXMLFilenames ->
                       extractor.writtenPath written
                       = Filepath.Join
                           [Filepath.Dir filename;
                            GoStrings.TrimSuffix (Filepath.Base filename)
                              (Filepath.Ext filename) +:+ ".xml"]).
      { intros Hk. rewrite Hpath.
        destruct (extractor.isStandardXMLFilename _ _) eqn:Es;
          [|reflexivity].
        apply isStandardXMLFilename_In in Es. contradiction. }
      split; [reflexivity|]. split; [|split].
      * intros Hk. rewrite Hpath.
        now rewrite (proj2 (isStandardXMLFilename_In _ _) Hk).
      * exact Hplain.
      * intros Hk Hpdf. rewrite (Hplain Hk).
        now rewrite (Ext_Base filename (isPDF_Ext filename Hpdf)).
Qed.

(** Without an output directory, the invoice whose attachment is named
    [factur-x.xml] is written under that name, while the worker reports
    [dir/b.xml]. *)
Lemma worker_reported_path_witness :
  batch.OutputPath
    (snd (@batch.workerStep identityTables
            (main.newBatchProcessor "dir/*.pdf" EmptyString false 8
               ["dir/a.pdf"; "dir/b.pdf"])
            invoiceDirectory "dir/b.pdf"))
  = "dir/b.xml"
  /\ extractor.writtenPath
       {| extractor.writtenPath := "dir/factur-x.xml";
          extractor.xmlFilename := "factur-x.xml";
          extractor.xmlData := "factur-x" |}
     = Filepath.Join [Filepath.Dir "dir/b.pdf"; "factur-x.xml"].
Proof.
  destruct (@worker_reported_path identityTables
              (main.newBatchProcessor "dir/*.pdf" EmptyString false 8
                 ["dir/a.pdf"; "dir/b.pdf"])
              invoiceDirectory "dir/b.pdf")
    as (_ & _ & Hok).
  destruct (Hok {| extractor.writtenPath := "dir/factur-x.xml";
                   extractor.xmlFilename := "factur-x.xml";
                   extractor.xmlData := "factur-x" |} eq_refl)
    as (_ & _ & Hunset).
  destruct (Hunset eq_refl) as (Hreport & Hcanonical & _).
  split.
  - rewrite Hreport. reflexivity.
  - apply Hcanonical. simpl. tauto.
Defined.

(** X15 -- the batch tally.  When at least one resolved path is a PDF
    file, the batch ends without error whatever the extractions do;
    [successful] is the number of results without error, [failed] the
    number of results with one, and a result is without error exactly when
    its extraction wrote a file, so one input's failure leaves the others
    untouched.  With at least one worker the two counts add up to the
    number of PDF files; with no worker started, nothing is processed and
    both counts are zero. *)
Theorem batch_tally_spec `{UnicodeTables}
    (bp : batch.BatchProcessor) (fs : batch.FileSystem)
    (files : list string) :
  batch.Glob fs (batch.InputPattern bp) = Some files ->
  List.filter batch.isPDF files <> [] ->
  batch.err (batch.ProcessBatch bp fs) = None
  /\ batch.successful (batch.ProcessBatch bp fs)
     = Z.of_nat (length (List.filter succeeded
                           (batch.results (batch.ProcessBatch bp fs))))
  /\ batch.failed (batch.ProcessBatch bp fs)
     = Z.of_nat (length (List.filter (fun r => negb (succeeded r))
                           (batch.results (batch.ProcessBatch bp fs))))
  /\ map succeeded (batch.results (batch.ProcessBatch bp fs))
     = map wrote (batch.extractions (batch.ProcessBatch bp fs))
  /\ (0 < batch.Workers bp ->
      batch.successful (batch.ProcessBatch bp fs)
      + batch.failed (batch.ProcessBatch bp fs)
      = Z.of_nat (length (List.filter batch.isPDF files)))
  /\ (batch.Workers bp <= 0 ->
      batch.workersStarted (batch.ProcessBatch bp fs) = 0
      /\ batch.results (batch.ProcessBatch bp fs) = []
      /\ batch.successful (batch.ProcessBatch bp fs) = 0
      /\ batch.failed (batch.ProcessBatch bp fs) = 0).
Proof.
  intros Hg Hne.
  destruct (ProcessBatch_some bp fs files Hg Hne)
    as (_ & He & Hw & Hr & Hx & Hs & Hf).
  split; [exact He|]. split; [exact Hs|]. split; [exact Hf|].
  split; [|split].
  - rewrite Hr, Hx. unfold batch.worker. rewrite !map_map.
    apply map_ext. intros f. apply workerStep_succeeded.
  - intros Hpos. apply Z.ltb_lt in Hpos. rewrite Hpos in Hr.
    rewrite Hs, Hf, <- Nat2Z.inj_add, filter_split_length.
    rewrite Hr, length_map. unfold batch.worker. now rewrite length_map.
  - intros Hw0.
    replace (0 <? batch.Workers bp) with false in Hr
      by (symmetry; apply Z.ltb_ge; lia).
    simpl in Hr. rewrite Hs, Hf, Hr, Hw. simpl.
    split; [lia|]. now repeat split.
Qed.

(** The mixed directory: of the two PDF files one succeeds. *)
Lemma batch_tally_spec_witness :
  batch.successful
    (@batch.ProcessBatch identityTables
       (main.newBatchProcessor "*" EmptyString false 8
          ["a.pdf"; "b.pdf"; "c.txt"])
       mixedDirectory)
  = 1.
Proof.
  rewrite (proj1 (proj2
             (@batch_tally_spec identityTables
                (main.newBatchProcessor "*" EmptyString false 8
                   ["a.pdf"; "b.pdf"; "c.txt"])
                mixedDirectory ["a.pdf"; "b.pdf"; "c.txt"] eq_refl
                ltac:(discriminate)))).
  reflexivity.
Defined.

(** ** The entry point *)

Section MainFacts.
Context `{UnicodeTables}.

(** With a pattern and without [-h], [main] goes on to resolve the
    pattern. *)
Lemma main_with_pattern (fl : main.Flags) (pattern : string)
    (rest : list string) :
  main.helpPtr fl = false ->
  main.args fl = pattern :: rest ->
  main.helpPtr fl || (Z.of_nat (length (main.args fl)) <? 1) = false
  /\ nth 0 (main.args fl) EmptyString = pattern.
Proof.
  intros -> ->. split; [|reflexivity]. simpl orb. apply Z.ltb_ge.
  simpl length. lia.
Qed.

(** The worker count [main] chooses for at least one file. *)
Lemma newBatchProcessor_Workers (inputPattern outputPath : string)
    (verbose : bool) (numCPU : Z) (files : list string) :
  1 <= numCPU -> files <> [] ->
  1 <= batch.Workers
         (main.newBatchProcessor inputPattern outputPath verbose numCPU files)
    <= Z.of_nat (length files).
Proof.
  intros Hcpu Hne. unfold main.newBatchProcessor. simpl.
  assert (1 <= Z.of_nat (length files))
    by (destruct files; [congruence | simpl; lia]).
  destruct (Z.of_nat (length files) <? numCPU) eqn:E;
    [apply Z.ltb_lt in E | apply Z.ltb_ge in E]; lia.
Qed.

(** What every run of [main] after a successful parse obeys. *)
Lemma afterParse_status (fl : main.Flags) (host : main.Host) :
  (main.exitCode (main.afterParse fl host) = 0
   \/ main.exitCode (main.afterParse fl host) = 1)
  /\ (main.exitCode (main.afterParse fl host) = 0
      <-> main.helpPtr fl = true
          \/ (main.usageShown (main.afterParse fl host) = false
              /\ main.fatal (main.afterParse fl host) = None))
  /\ (main.helpPtr fl = true ->
      main.afterParse fl host = main.halted 0 true None)
  /\ (main.batchRun (main.afterParse fl host) <> None
      \/ main.extraction (main.afterParse fl host) <> None ->
      main.helpPtr fl = false
      /\ exists pattern rest files,
           main.args fl = pattern :: rest
           /\ batch.Glob (main.fs host) pattern = Some files
           /\ files <> [])
  /\ (main.batchRun (main.afterParse fl host) <> None ->
      main.extraction (main.afterParse fl host) = None
      /\ exists created,
           main.prepareOutputDir host (main.outputPtr fl) = inr created).
Proof.
  assert (Hhalt : forall code usage why,
            (code = 0 \/ code = 1) ->
            (code = 0
             <-> main.helpPtr fl = true \/ (usage = false /\ why = None)) ->
            (main.helpPtr fl = true ->
             main.halted code usage why = main.halted 0 true None) ->
            let o := main.halted code usage why in
            (main.exitCode o = 0 \/ main.exitCode o = 1)
            /\ (main.exitCode o = 0
                <-> main.helpPtr fl = true
                    \/ (main.usageShown o = false /\ main.fatal o = None))
            /\ (main.helpPtr fl = true -> o = main.halted 0 true None)
            /\ (main.batchRun o <> None \/ main.extraction o <> None ->
                main.helpPtr fl = false
                /\ exists pattern rest files,
                     main.args fl = pattern :: rest
                     /\ batch.Glob (main.fs host) pattern = Some files
                     /\ files <> [])
            /\ (main.batchRun o <> None ->
                main.extraction o = None
                /\ exists created,
                     main.prepareOutputDir host (main.outputPtr fl)
                     = inr created)).
  { intros code usage why Hc Hiff Hhelp o. simpl.
    split; [exact Hc|]. split; [exact Hiff|]. split; [exact Hhelp|].
    split; [intros [Hx | Hx]; congruence | congruence]. }
  unfold main.afterParse.
  destruct (main.helpPtr fl) eqn:Hh; simpl orb; cbv iota.
  { apply Hhalt; [now left | split; [now left | reflexivity] | reflexivity]. }
  destruct (main.args fl) as [|pattern rest] eqn:Ha.
  { simpl. apply Hhalt; [now right | | discriminate].
    split; [discriminate | intros [Hx | [Hx _]]; discriminate]. }
  replace (Z.of_nat (length (pattern :: rest)) <? 1) with false
    by (symmetry; apply Z.ltb_ge; simpl length; lia).
  simpl nth.
  destruct (batch.Glob (main.fs host) pattern) as [files|] eqn:Hg.
  2:{ apply Hhalt; [now right | | discriminate].
      split; [discriminate | intros [Hx | [_ Hx]]; discriminate]. }
  destruct (Z.of_nat (length files) =? 0) eqn:E0.
  { apply Hhalt; [now right | | discriminate].
    split; [discriminate | intros [Hx | [_ Hx]]; discriminate]. }
  assert (Hne : files <> []).
  { intros ->. simpl in E0. discriminate. }
  assert (Hfound : false = false
                   /\ exists p r fs0,
                        pattern :: rest = p :: r
                        /\ batch.Glob (main.fs host) p = Some fs0
                        /\ fs0 <> []).
  { split; [reflexivity|]. now exists pattern, rest, files. }
  destruct (1 <? Z.of_nat (length files)).
  - destruct (main.prepareOutputDir host (main.outputPtr fl))
      as [why|created] eqn:Hdir.
    { apply Hhalt; [now right | | discriminate].
      split; [discriminate | intros [Hx | [_ Hx]]; discriminate]. }
    destruct (batch.err _) as [e|]; simpl.
    + split; [now right|]. split.
      { split; [discriminate | intros [Hx | [_ Hx]]; discriminate]. }
      split; [discriminate|]. split; [intros _; exact Hfound|].
      intros _. split; [reflexivity | now exists created].
    + split; [now left|]. split.
      { split; [intros _; now right | reflexivity]. }
      split; [discriminate|]. split; [intros _; exact Hfound|].
      intros _. split; [reflexivity | now exists created].
  - destruct (extractor.result _) as [e|wr]; simpl.
    + split; [now right|]. split.
      { split; [discriminate | intros [Hx | [_ Hx]]; discriminate]. }
      split; [discriminate|]. split; [intros _; exact Hfound|].
      congruence.
    + split; [now left|]. split.
      { split; [intros _; now right | reflexivity]. }
      split; [discriminate|]. split; [intros _; exact Hfound|].
      congruence.
Qed.

End MainFacts.

(** X16 -- the exit status of a batch.  When the pattern matches two or
    more paths and the output directory, if one is given, exists or can be
    created, [main] runs the batch and no single extraction.  The batch
    resolves the pattern again, on the file system as it is by then, and
    keeps the PDF files: if there is one, [main] exits with status 0,
    however many of the inputs fail; if there is none, it exits with
    status 1 and nothing was extracted.  On a host with at least one CPU
    the worker count lies between one and the number of paths [main] saw,
    and every PDF file is processed and counted once. *)
Theorem main_batch_exit `{UnicodeTables}
    (fl : main.Flags) (host : main.Host) (pattern : string)
    (rest files files' : list string) (created : bool) :
  main.helpPtr fl = false ->
  main.args fl = pattern :: rest ->
  batch.Glob (main.fs host) pattern = Some files ->
  (2 <= length files)%nat ->
  main.prepareOutputDir host (main.outputPtr fl) = inr created ->
  batch.Glob
    (if created then main.afterMkdirAll host (main.outputPtr fl)
     else main.fs host) pattern
  = Some files' ->
  let out := main.main (main.Parsed fl) host in
  let pdfFiles := List.filter batch.isPDF files' in
  main.extraction out = None
  /\ main.outputDirCreated out = created
  /\ main.usageShown out = false
  /\ exists run,
       main.batchRun out = Some run
       /\ run
          = batch.ProcessBatch
              (main.newBatchProcessor pattern (main.outputPtr fl)
                 (main.verbosePtr fl) (main.NumCPU host) files)
              (if created then main.afterMkdirAll host (main.outputPtr fl)
               else main.fs host)
       /\ (pdfFiles <> [] ->
           main.exitCode out = 0
           /\ main.fatal out = None
           /\ batch.queued run = pdfFiles
           /\ (1 <= main.NumCPU host ->
               1 <= batch.workersStarted run <= Z.of_nat (length files)
               /\ Permutation (map batch.Filename (batch.results run))
                    pdfFiles
               /\ batch.successful run + batch.failed run
                  = Z.of_nat (length pdfFiles)))
       /\ (pdfFiles = [] ->
           main.exitCode out = 1
           /\ main.fatal out
              = Some (main.FatalBatch (batch.ErrNoPDFFiles pattern))
           /\ batch.extractions run = []).
Proof.
  intros Hh Ha Hg Hlen Hdir Hg' out pdfFiles.
  destruct (main_with_pattern fl pattern rest Hh Ha) as [Hgo Hpat].
  assert (Hne : files <> []) by (destruct files; [simpl in Hlen; lia | easy]).
  set (fsNow := if created then main.afterMkdirAll host (main.outputPtr fl)
                else main.fs host) in *.
  set (processor := main.newBatchProcessor pattern (main.outputPtr fl)
                      (main.verbosePtr fl) (main.NumCPU host) files).
  assert (Hout : out
                 = match batch.err (batch.ProcessBatch processor fsNow) with
                   | Some err =>
                       {| main.exitCode := 1; main.usageShown := false;
                          main.fatal := Some (main.FatalBatch err);
                          main.outputDirCreated := created;
                          main.batchRun :=
                            Some (batch.ProcessBatch processor fsNow);
                          main.extraction := None |}
                   | None =>
                       {| main.exitCode := 0; main.usageShown := false;
                          main.fatal := None;
                          main.outputDirCreated := created;
                          main.batchRun :=
                            Some (batch.ProcessBatch processor fsNow);
                          main.extraction := None |}
                   end).
  { unfold out, main.main, main.afterParse. rewrite Hgo, Hpat, Hg, Hdir.
    replace (Z.of_nat (length files) =? 0) with false
      by (symmetry; apply Z.eqb_neq; lia).
    replace (1 <? Z.of_nat (length files)) with true
      by (symmetry; apply Z.ltb_lt; lia).
    reflexivity. }
  assert (Hshape : main.extraction out = None
                   /\ main.outputDirCreated out = created
                   /\ main.usageShown out = false
                   /\ main.batchRun out
                      = Some (batch.ProcessBatch processor fsNow)).
  { rewrite Hout. now destruct (batch.err _). }
  destruct Hshape as (Hx & Hc & Hu & Hb).
  split; [exact Hx|]. split; [exact Hc|]. split; [exact Hu|].
  exists (batch.ProcessBatch processor fsNow).
  split; [exact Hb|]. split; [reflexivity|]. split.
  - intros Hpdf.
    destruct (ProcessBatch_some processor fsNow files' Hg' Hpdf)
      as (Hq & He & Hw & Hr & _ & Hs & Hf).
    rewrite Hout, He. simpl.
    split; [reflexivity|]. split; [reflexivity|]. split; [exact Hq|].
    intros Hcpu.
    pose proof (newBatchProcessor_Workers pattern (main.outputPtr fl)
                  (main.verbosePtr fl) (main.NumCPU host) files Hcpu Hne)
      as Hworkers.
    fold processor in Hworkers.
    replace (0 <? batch.Workers processor) with true in Hr
      by (symmetry; apply Z.ltb_lt; lia).
    split; [rewrite Hw; lia|]. split.
    + rewrite Hr, workerStep_Filename. reflexivity.
    + rewrite Hs, Hf, <- Nat2Z.inj_add, filter_split_length.
      rewrite Hr, length_map. unfold batch.worker. now rewrite length_map.
  - intros Hpdf.
    rewrite Hout, (ProcessBatch_none processor fsNow files' Hg' Hpdf).
    simpl. now repeat split.
Qed.

(** [-o out *] in the mixed directory, where [out] does not exist yet: the
    directory is created, the batch then sees it among the matches, keeps
    the two PDF files, and the status is 0 although one of them fails. *)
Lemma main_batch_exit_witness :
  main.exitCode
    (@main.main identityTables
       (main.Parsed
          {| main.verbosePtr := false; main.outputPtr := "out";
             main.helpPtr := false; main.args := ["*"] |})
       (hostWith mixedDirectory mixedDirectoryWithOut))
  = 0.
Proof.
  destruct (@main_batch_exit identityTables
              {| main.verbosePtr := false; main.outputPtr := "out";
                 main.helpPtr := false; main.args := ["*"] |}
              (hostWith mixedDirectory mixedDirectoryWithOut) "*" []
              ["a.pdf"; "b.pdf"; "c.txt"]
              ["a.pdf"; "b.pdf"; "c.txt"; "out"] true
              eq_refl eq_refl eq_refl ltac:(simpl; lia) eq_refl eq_refl)
    as (_ & _ & _ & run & _ & _ & Hsome & _).
  apply (proj1 (Hsome ltac:(discriminate))).
Defined.

(** X17 -- the exit status of a single extraction.  When the pattern
    matches exactly one path, [main] extracts that container with the [-o]
    argument as explicit output path and exits with status 0 exactly when
    the extraction wrote its file; a file written with [-o] given is at
    that path verbatim.  The output path is not examined beforehand and no
    batch is run. *)
Theorem main_single_exit `{UnicodeTables}
    (fl : main.Flags) (host : main.Host) (pattern file : string)
    (rest : list string) :
  main.helpPtr fl = false ->
  main.args fl = pattern :: rest ->
  batch.Glob (main.fs host) pattern = Some [file] ->
  let run :=
    extractor.ExtractXML
      (main.newExtractor file (main.outputPtr fl) (main.verbosePtr fl))
      (batch.container (main.fs host) file) in
  main.extraction (main.main (main.Parsed fl) host) = Some run
  /\ main.batchRun (main.main (main.Parsed fl) host) = None
  /\ main.outputDirCreated (main.main (main.Parsed fl) host) = false
  /\ (main.exitCode (main.main (main.Parsed fl) host) = 0
      <-> wrote run = true)
  /\ (main.exitCode (main.main (main.Parsed fl) host) = 1
      <-> wrote run = false)
  /\ forall written,
       extractor.result run = inr written ->
       main.outputPtr fl <> EmptyString ->
       extractor.writtenPath written = main.outputPtr fl.
Proof.
  intros Hh Ha Hg run.
  destruct (main_with_pattern fl pattern rest Hh Ha) as [Hgo Hpat].
  unfold main.main, main.afterParse. rewrite Hgo, Hpat, Hg. simpl.
  fold run.
  unfold wrote. destruct (extractor.result run) as [e|wr] eqn:Hr; simpl.
  - repeat (split; [reflexivity|]).
    split; [split; discriminate|]. split; [tauto | discriminate].
  - repeat (split; [reflexivity|]).
    split; [tauto|]. split; [split; discriminate|].
    intros written [= <-] Hne.
    rewrite (ExtractXML_writtenPath _ _ _ Hr).
    unfold extractor.generateOutputPath, main.newExtractor. simpl.
    apply String.eqb_neq in Hne. now rewrite Hne.
Qed.

(** One container, [-o result.xml]: the file is written there. *)
Lemma main_single_exit_witness :
  main.exitCode
    (@main.main identityTables
       (main.Parsed
          {| main.verbosePtr := true; main.outputPtr := "result.xml";
             main.helpPtr := false; main.args := ["one.pdf"] |})
       (host singleDirectory))
  = 0.
Proof.
  apply (proj1 (proj2 (proj2 (proj2
           (@main_single_exit identityTables
              {| main.verbosePtr := true; main.outputPtr := "result.xml";
                 main.helpPtr := false; main.args := ["one.pdf"] |}
              (host singleDirectory) "one.pdf" "one.pdf" []
              eq_refl eq_refl eq_refl))))).
  reflexivity.
Defined.

(** X18 -- what [main] never does.  The exit status is 0, 1 or 2, and it
    is 2 exactly when the command line cannot be parsed; nothing is
    processed and the usage text of [main] is not printed unless the
    command line was parsed.  After a successful parse the status is 0
    exactly when help was asked for or no fatal error occurred after the
    usage check.  Whenever a batch or an extraction was run, help was not
    asked for, a pattern was given and it matched at least one path; a
    batch and a single extraction are never both run.  In particular [-h]
    wins over every other argument of a command line that parses, and a
    missing pattern, a failing or empty pattern and an unusable batch
    output directory all stop the program before any container is
    read. *)
Theorem main_exit_status `{UnicodeTables}
    (parse : main.ParseResult) (fl : main.Flags) (host : main.Host) :
  (main.exitCode (main.main parse host) = 0
   \/ main.exitCode (main.main parse host) = 1
   \/ main.exitCode (main.main parse host) = 2)
  /\ (main.exitCode (main.main parse host) = 2
      <-> parse = main.ParseFailed)
  /\ (main.batchRun (main.main parse host) <> None
      \/ main.extraction (main.main parse host) <> None
      \/ main.usageShown (main.main parse host) = true ->
      exists parsed, parse = main.Parsed parsed)
  /\ (main.exitCode (main.main (main.Parsed fl) host) = 0
      <-> main.helpPtr fl = true
          \/ (main.usageShown (main.main (main.Parsed fl) host) = false
              /\ main.fatal (main.main (main.Parsed fl) host) = None))
  /\ (main.helpPtr fl = true ->
      main.main (main.Parsed fl) host = main.halted 0 true None)
  /\ (main.batchRun (main.main (main.Parsed fl) host) <> None
      \/ main.extraction (main.main (main.Parsed fl) host) <> None ->
      main.helpPtr fl = false
      /\ exists pattern rest files,
           main.args fl = pattern :: rest
           /\ batch.Glob (main.fs host) pattern = Some files
           /\ files <> [])
  /\ (main.batchRun (main.main (main.Parsed fl) host) <> None ->
      main.extraction (main.main (main.Parsed fl) host) = None
      /\ exists created,
           main.prepareOutputDir host (main.outputPtr fl) = inr created).
Proof.
  split; [|split; [|split]].
  - destruct parse as [| |parsed]; simpl; [now right; right | now left |].
    destruct (afterParse_status parsed host) as ([H0 | H1] & _);
      [now left | now right; left].
  - destruct parse as [| |parsed]; simpl.
    + now split.
    + split; discriminate.
    + destruct (afterParse_status parsed host) as (Hc & _).
      split; [lia | discriminate].
  - destruct parse as [| |parsed]; simpl.
    + intros [Hx | [Hx | Hx]]; [now elim Hx | now elim Hx | discriminate].
    + intros [Hx | [Hx | Hx]]; [now elim Hx | now elim Hx | discriminate].
    + intros _. now exists parsed.
  - exact (proj2 (afterParse_status fl host)).
Qed.
